(** * The Pterodactyl start-up banner scripts, embedded in Rocq

    The repository holds four revisions of one Node.js script:

    - [RunLauncher]  : first program of [src/run.js] (banner, dependency
                       check, application launcher);
    - [RunNpmStart]  : second program of [src/run.js] (full banner, npm
                       install with one reinstall, [npm start]);
    - [Part000]      : [src/unnamed/part_000] (full banner, bash shell);
    - [Part001]      : [src/unnamed/part_001] (full banner, bash shell,
                       the oldest revision).

    JavaScript numbers are modelled twice.  [Num] takes them as exact
    rationals extended with NaN and the two infinities, and the four programs
    are written over it.  [Double] rounds every operation to the nearest
    IEEE-754 double, ties to even, takes the logarithm as V8 computes it
    (the algorithm of fdlibm) and prints numbers as [Number::toString] does;
    the formatters are given over it as well, and [Script] runs them
    statement by statement on a heap of arrays.  The properties say where
    the two arithmetics agree and where only the second one shows what the
    code does.  The sign of zero is not represented.  Console output, awaited
    shell commands and spawned children are recorded as a list of events. *)

From Stdlib Require Import ZArith QArith Qround Qabs Qpower Lqa.
From Stdlib Require Import String Ascii List Bool Lia.
From Stdlib Require Import DecimalString DecimalPos DecimalZ.
Import ListNotations.
Local Open Scope string_scope.

(** ** Exceptions *)

Inductive result (A : Type) : Type :=
| Ok (a : A)
| Throw (e : string).
Arguments Ok {A} a.
Arguments Throw {A} e.

Definition is_ok {A} (r : result A) : bool :=
  match r with Ok _ => true | Throw _ => false end.

(** ** Strings *)

Module Str.

(** A string is held as its UTF-8 bytes. *)

Definition nl : string := String "010"%char "".
Definition dq : string := String "034"%char "".
Definition esc : string := String "027"%char "".

Definition is_space (c : ascii) : bool :=
  let n := nat_of_ascii c in
  ((9 <=? n) && (n <=? 13))%nat || (n =? 32)%nat.

Definition is_digit (c : ascii) : bool :=
  let n := nat_of_ascii c in ((48 <=? n) && (n <=? 57))%nat.

Fixpoint rev_acc (s acc : string) : string :=
  match s with
  | EmptyString => acc
  | String c s' => rev_acc s' (String c acc)
  end.

Definition rev (s : string) : string := rev_acc s "".

(** White space beyond ASCII, by its UTF-8 bytes: U+00A0 in two bytes;
    U+1680, U+2000 to U+200A, U+2028, U+2029, U+202F, U+205F, U+3000 and
    U+FEFF in three. *)
Definition is_space2 (a b : ascii) : bool :=
  ((nat_of_ascii a =? 194) && (nat_of_ascii b =? 160))%nat.

Definition is_space3 (a b c : ascii) : bool :=
  let x := nat_of_ascii a in
  let y := nat_of_ascii b in
  let z := nat_of_ascii c in
  ((x =? 225) && (y =? 154) && (z =? 128)
   || (x =? 226) && (y =? 128)
      && ((128 <=? z) && (z <=? 138) || (z =? 168) || (z =? 169) || (z =? 175))
   || (x =? 226) && (y =? 129) && (z =? 159)
   || (x =? 227) && (y =? 128) && (z =? 128)
   || (x =? 239) && (y =? 187) && (z =? 191))%nat.

(** The bytes such a character can begin with, and end with. *)
Definition begins_space (a : ascii) : bool :=
  let x := nat_of_ascii a in
  ((x =? 194) || (x =? 225) || (x =? 226) || (x =? 227) || (x =? 239))%nat.

Definition ends_space (c : ascii) : bool :=
  let z := nat_of_ascii c in
  ((128 <=? z) && (z <=? 191))%nat.

(** Removes the white space a string begins with; with [backwards], the
    string is read from its end, so that the bytes of a character come last
    byte first. *)
Fixpoint strip (backwards : bool) (s : string) : string :=
  match s with
  | String a s1 =>
      if is_space a then strip backwards s1
      else if negb (if backwards then ends_space a else begins_space a) then s
      else
        match s1 with
        | String b s2 =>
            if (if backwards then is_space2 b a else is_space2 a b)
            then strip backwards s2
            else
              match s2 with
              | String c s3 =>
                  if (if backwards then is_space3 c b a else is_space3 a b c)
                  then strip backwards s3
                  else s
              | EmptyString => s
              end
        | EmptyString => s
        end
  | EmptyString => EmptyString
  end.

(** [s.trimStart()] *)
Definition trimStart (s : string) : string := strip false s.

(** [s.trimEnd()] *)
Definition trimEnd (s : string) : string := rev (strip true (rev s)).

(** [s.trim()] *)
Definition trim (s : string) : string := trimEnd (trimStart s).

(** [s.split(c)] for a one-character separator. *)
Fixpoint split_on (sep : ascii) (s : string) (cur : string) : list string :=
  match s with
  | EmptyString => [rev cur]
  | String c s' =>
      if Ascii.eqb c sep then rev cur :: split_on sep s' ""
      else split_on sep s' (String c cur)
  end.

Definition split (sep : ascii) (s : string) : list string := split_on sep s "".

(** [parts.join(sep)] *)
Fixpoint join (sep : string) (l : list string) : string :=
  match l with
  | [] => ""
  | [x] => x
  | x :: tl => x ++ sep ++ join sep tl
  end.

Fixpoint repeat (c : ascii) (n : nat) : string :=
  match n with O => "" | S k => String c (repeat c k) end.

(** [s.padEnd(n)] *)
Definition padEnd (n : nat) (s : string) : string :=
  s ++ repeat " "%char (n - String.length s).

(** [s.padStart(n, '0')] *)
Definition padStart0 (n : nat) (s : string) : string :=
  repeat "0"%char (n - String.length s) ++ s.

(** [s.substring(1)] *)
Definition substring1 (s : string) : string :=
  match s with EmptyString => "" | String _ s' => s' end.

Fixpoint startsWith (p s : string) : bool :=
  match p, s with
  | EmptyString, _ => true
  | String a p', String b s' => Ascii.eqb a b && startsWith p' s'
  | String _ _, EmptyString => false
  end.

(** [s.endsWith(p)] *)
Definition endsWith (p s : string) : bool := startsWith (rev p) (rev s).

(** [s.includes(p)] *)
Fixpoint includes (p s : string) : bool :=
  startsWith p s ||
  match s with
  | EmptyString => false
  | String _ s' => includes p s'
  end.

(** [s.replace(c, r)] for a one-character pattern: the first occurrence only. *)
Fixpoint replace1 (c : ascii) (r : string) (s : string) : string :=
  match s with
  | EmptyString => ""
  | String a s' => if Ascii.eqb a c then r ++ s' else String a (replace1 c r s')
  end.

(** Splits off the longest prefix of decimal digits. *)
Fixpoint span_digits (s : string) : string * string :=
  match s with
  | String c s' =>
      if is_digit c then let (d, r) := span_digits s' in (String c d, r)
      else ("", s)
  | EmptyString => ("", "")
  end.

(** Decimal rendering of an integer. *)
Definition dec (z : Z) : string := NilZero.string_of_int (Z.to_int z).

(** Value of a string of decimal digits ([0] for the empty string). *)
Definition undec (s : string) : Z :=
  match NilZero.uint_of_string s with
  | Some u => Z.of_uint u
  | None => 0
  end.

End Str.

(** ** Numbers *)

Module Num.

(** The numbers of this module are exact: a finite number is a rational, and
    [add], [mul], [div], [floor_log], [toString] and [toFixed_digits] compute
    on it without rounding.  They agree with the operations of JavaScript
    wherever the exact result is itself a double; [Double], further down, has
    the operations with their rounding, and the fdlibm logarithm and the
    shortest decimal text that [floor_log] and [toString] leave out. *)

Inductive number : Type :=
| NaN
| Infinity (negative : bool)
| Fin (q : Q).

Definition of_Z (z : Z) : number := Fin (inject_Z z).

Definition Qlt_bool (a b : Q) : bool := negb (Qle_bool b a).
Definition Qis_zero (a : Q) : bool := Qeq_bool a 0.
Definition Qneg (a : Q) : bool := Qlt_bool a 0.

(** [isNaN(x)] on a number. *)
Definition isNaN (x : number) : bool :=
  match x with NaN => true | _ => false end.

(** [x > y], [x < y], [x >= y], [x <= y]: false as soon as one side is NaN. *)
Definition lt (x y : number) : bool :=
  match x, y with
  | NaN, _ | _, NaN => false
  | Infinity a, Infinity b => a && negb b
  | Infinity a, Fin _ => a
  | Fin _, Infinity b => negb b
  | Fin a, Fin b => Qlt_bool a b
  end.

Definition gt (x y : number) : bool := lt y x.

Definition le (x y : number) : bool :=
  match x, y with
  | NaN, _ | _, NaN => false
  | Infinity a, Infinity b => a || negb b
  | Infinity a, Fin _ => a
  | Fin _, Infinity b => negb b
  | Fin a, Fin b => Qle_bool a b
  end.

Definition ge (x y : number) : bool := le y x.

(** [x === y] on numbers. *)
Definition eq (x y : number) : bool :=
  match x, y with
  | Fin a, Fin b => Qeq_bool a b
  | Infinity a, Infinity b => Bool.eqb a b
  | _, _ => false
  end.

Definition neg (x : number) : number :=
  match x with
  | NaN => NaN
  | Infinity b => Infinity (negb b)
  | Fin a => Fin (Qred (- a))
  end.

Definition add (x y : number) : number :=
  match x, y with
  | NaN, _ | _, NaN => NaN
  | Infinity a, Infinity b => if Bool.eqb a b then Infinity a else NaN
  | Infinity a, Fin _ => Infinity a
  | Fin _, Infinity b => Infinity b
  | Fin a, Fin b => Fin (Qred (a + b))
  end.

Definition sub (x y : number) : number := add x (neg y).

Definition mul (x y : number) : number :=
  match x, y with
  | NaN, _ | _, NaN => NaN
  | Infinity a, Infinity b => Infinity (xorb a b)
  | Infinity a, Fin b | Fin b, Infinity a =>
      if Qis_zero b then NaN else Infinity (xorb a (Qneg b))
  | Fin a, Fin b => Fin (Qred (a * b))
  end.

Definition div (x y : number) : number :=
  match x, y with
  | NaN, _ | _, NaN => NaN
  | Infinity _, Infinity _ => NaN
  | Infinity a, Fin b => Infinity (xorb a (Qneg b))
  | Fin _, Infinity _ => Fin 0
  | Fin a, Fin b =>
      if Qis_zero b then
        if Qis_zero a then NaN else Infinity (Qneg a)
      else Fin (Qred (a / b))
  end.

(** Rounding towards zero. *)
Definition Qtrunc (a : Q) : Z :=
  if Qneg a then Qceiling a else Qfloor a.

(** [x % y]: the remainder has the sign of the dividend. *)
Definition rem (x y : number) : number :=
  match x, y with
  | NaN, _ | _, NaN => NaN
  | Infinity _, _ => NaN
  | Fin a, Infinity _ => Fin a
  | Fin a, Fin b =>
      if Qis_zero b then NaN
      else Fin (Qred (a - b * inject_Z (Qtrunc (a / b))))
  end.

(** [Math.floor(x)] *)
Definition Math_floor (x : number) : number :=
  match x with
  | Fin a => of_Z (Qfloor a)
  | _ => x
  end.

(** [Math.pow(b, e)] for an exponent that is an integer, NaN or infinite and a
    base above one, the only case the programs reach. *)
Definition Math_pow (b : Z) (e : number) : number :=
  match e with
  | NaN => NaN
  | Infinity true => Fin 0
  | Infinity false => Infinity false
  | Fin a => Fin (Qred (Qpower (inject_Z b) (Qfloor a)))
  end.

(** Number of times [q] can be divided by [k] while staying at or above one. *)
Fixpoint log_up (fuel : nat) (k : Z) (q : Q) : Z :=
  match fuel with
  | O => 0
  | S f =>
      if Qle_bool (inject_Z k) q then 1 + log_up f k (q / inject_Z k) else 0
  end.

(** Number of times [q] must be multiplied by [k] to reach one. *)
Fixpoint log_down (fuel : nat) (k : Z) (q : Q) : Z :=
  match fuel with
  | O => 0
  | S f =>
      if Qlt_bool q 1 then 1 + log_down f k (q * inject_Z k) else 0
  end.

(** Integer part of the base-[k] logarithm of a positive rational. *)
Definition ilog (k : Z) (q : Q) : Z :=
  if Qle_bool 1 q
  then log_up (S (Z.to_nat (Z.log2 (Qnum q)))) k q
  else - log_down (S (Z.to_nat (Z.log2 (Zpos (Qden q))))) k q.

(** [Math.floor(Math.log(x) / Math.log(k))] for an integer base [k > 1],
    evaluated in exact arithmetic. *)
Definition floor_log (k : Z) (x : number) : number :=
  match x with
  | NaN => NaN
  | Infinity true => NaN
  | Infinity false => Infinity false
  | Fin a =>
      if Qneg a then NaN
      else if Qis_zero a then Infinity true
      else of_Z (ilog k a)
  end.

(** Digits after the decimal point of [r], for [0 <= r < 1], up to [fuel] of
    them and without trailing zeros. *)
Fixpoint frac_digits (fuel : nat) (r : Q) : string :=
  match fuel with
  | O => ""
  | S f =>
      if Qis_zero r then ""
      else let d := Qfloor (r * 10) in
           Str.dec d ++ frac_digits f (r * 10 - inject_Z d)
  end.

(** Number-to-string conversion, as in a template literal or a string
    concatenation.  Exponent notation (magnitudes from [1e21] and below
    [1e-6]) is not represented. *)
Definition toString (x : number) : string :=
  match x with
  | NaN => "NaN"
  | Infinity false => "Infinity"
  | Infinity true => "-Infinity"
  | Fin a =>
      let m := Qabs a in
      let i := Qfloor m in
      (if Qneg a then "-" else "") ++ Str.dec i ++
      (if Qis_zero (m - inject_Z i) then ""
       else "." ++ frac_digits 20 (m - inject_Z i))
  end.

(** [x.toFixed(f)] for [0 <= f <= 100]: round half up on the magnitude,
    taken exactly. *)
Definition toFixed_digits (f : Z) (x : number) : string :=
  match x with
  | Fin a =>
      let m := Qabs a in
      if Qle_bool (inject_Z (10 ^ 21)) m then toString x
      else
        let n := Qfloor (m * inject_Z (10 ^ f) + (1 # 2)) in
        (if Qneg a then "-" else "") ++
        (if (f =? 0)%Z then Str.dec n
         else Str.dec (n / 10 ^ f) ++ "." ++
              Str.padStart0 (Z.to_nat f) (Str.dec (n mod 10 ^ f)))
  | _ => toString x
  end.

(** [x.toFixed(f)], which raises a RangeError outside [0..100]. *)
Definition toFixed (f : Z) (x : number) : result string :=
  if ((0 <=? f) && (f <=? 100))%Z then Ok (toFixed_digits f x)
  else Throw "RangeError: toFixed() digits argument must be between 0 and 100".

End Num.

(** ** Numeric literals *)

Module Lit.

Import Num.

(** Optional exponent part [e±ddd]; left untouched when no digit follows. *)
Definition parse_exponent (s : string) : Z * string :=
  match s with
  | String c r =>
      if (Ascii.eqb c "e" || Ascii.eqb c "E")%bool then
        let '(sg, r1) :=
          match r with
          | String "+"%char r' => (1%Z, r')
          | String "-"%char r' => ((-1)%Z, r')
          | _ => (1%Z, r)
          end in
        let (d, r2) := Str.span_digits r1 in
        match d with
        | EmptyString => (0%Z, s)
        | _ => ((sg * Str.undec d)%Z, r2)
        end
      else (0%Z, s)
  | EmptyString => (0%Z, s)
  end.

(** Longest unsigned decimal literal at the head of [s], with the rest. *)
Definition parse_unsigned (s : string) : option (number * string) :=
  if Str.startsWith "Infinity" s
  then Some (Infinity false, substring 8 (String.length s - 8) s)
  else
    let (ip, r1) := Str.span_digits s in
    let (fp, r2) :=
      match r1 with
      | String "."%char r' => Str.span_digits r'
      | _ => ("", r1)
      end in
    match ip, fp with
    | EmptyString, EmptyString => None
    | _, _ =>
        let (e, r3) := parse_exponent r2 in
        let m := (inject_Z (Str.undec ip) +
                  inject_Z (Str.undec fp) /
                  inject_Z (10 ^ Z.of_nat (String.length fp)))%Q in
        Some (Fin (Qred (m * Qpower 10 e)), r3)
    end.

Definition parse_signed (s : string) : option (number * string) :=
  match s with
  | String "-"%char r =>
      match parse_unsigned r with
      | Some (n, r') => Some (neg n, r')
      | None => None
      end
  | String "+"%char r => parse_unsigned r
  | _ => parse_unsigned s
  end.

(** [parseFloat(s)]: the longest numeric prefix after leading white space. *)
Definition parseFloat (s : string) : number :=
  match parse_signed (Str.trimStart s) with
  | Some (n, _) => n
  | None => NaN
  end.

Definition digit_value (c : ascii) : option Z :=
  let n := nat_of_ascii c in
  if ((48 <=? n) && (n <=? 57))%nat then Some (Z.of_nat (n - 48))
  else if ((97 <=? n) && (n <=? 102))%nat then Some (Z.of_nat (n - 87))
  else if ((65 <=? n) && (n <=? 70))%nat then Some (Z.of_nat (n - 55))
  else None.

Fixpoint radix_value (b : Z) (s : string) (acc : Z) : option Z :=
  match s with
  | EmptyString => Some acc
  | String c r =>
      match digit_value c with
      | Some d => if (d <? b)%Z then radix_value b r (acc * b + d)%Z else None
      | None => None
      end
  end.

(** Literals [0x..], [0o..], [0b..]. *)
Definition parse_radix (s : string) : option number :=
  match s with
  | String "0"%char (String c (String d r)) =>
      let digits := String d r in
      let go b := match radix_value b digits 0 with
                  | Some z => Some (of_Z z)
                  | None => Some NaN
                  end in
      if (Ascii.eqb c "x" || Ascii.eqb c "X")%bool then go 16%Z
      else if (Ascii.eqb c "o" || Ascii.eqb c "O")%bool then go 8%Z
      else if (Ascii.eqb c "b" || Ascii.eqb c "B")%bool then go 2%Z
      else None
  | _ => None
  end.

(** [Number(s)]: the whole trimmed string must be one literal; the empty
    string converts to zero. *)
Definition Number (s : string) : number :=
  let t := Str.trim s in
  match t with
  | EmptyString => Fin 0
  | _ =>
      match parse_radix t with
      | Some n => n
      | None =>
          match parse_signed t with
          | Some (n, EmptyString) => n
          | _ => NaN
          end
      end
  end.

End Lit.

(** ** Values *)

Module Val.

Import Num.

#[local] Unset Elimination Schemes.
Inductive value : Type :=
| VUndef
| VNull
| VBool (b : bool)
| VNum (n : number)
| VStr (s : string)
| VArr (items : list value)
| VObj (fields : list (string * value)).
#[local] Set Elimination Schemes.

(** String conversion, as performed by template literals. *)
Fixpoint toString (v : value) : string :=
  match v with
  | VUndef => "undefined"
  | VNull => "null"
  | VBool true => "true"
  | VBool false => "false"
  | VNum n => Num.toString n
  | VStr s => s
  | VArr l =>
      Str.join ","
        (map (fun x => match x with
                       | VUndef | VNull => ""
                       | _ => toString x
                       end) l)
  | VObj _ => "[object Object]"
  end.

Definition toNumber (v : value) : number :=
  match v with
  | VUndef => NaN
  | VNull => Fin 0
  | VBool true => Fin 1
  | VBool false => Fin 0
  | VNum n => n
  | VStr s => Lit.Number s
  | VArr _ | VObj _ => Lit.Number (toString v)
  end.

Definition truthy (v : value) : bool :=
  match v with
  | VUndef | VNull => false
  | VBool b => b
  | VNum NaN => false
  | VNum (Fin q) => negb (Qis_zero q)
  | VNum (Infinity _) => true
  | VStr EmptyString => false
  | VStr _ => true
  | VArr _ | VObj _ => true
  end.

(** [a || b] *)
Definition or (a b : value) : value := if truthy a then a else b.

(** The global [isNaN(v)]. *)
Definition isNaN (v : value) : bool := Num.isNaN (toNumber v).

(** [v === 0] *)
Definition is_zero (v : value) : bool :=
  match v with
  | VNum n => Num.eq n (Fin 0)
  | _ => false
  end.

(** [a + b] *)
Definition add (a b : value) : value :=
  match a, b with
  | VStr _, _ | _, VStr _
  | VArr _, _ | _, VArr _
  | VObj _, _ | _, VObj _ => VStr (toString a ++ toString b)
  | _, _ => VNum (Num.add (toNumber a) (toNumber b))
  end.

Fixpoint lookup (k : string) (fields : list (string * value)) : value :=
  match fields with
  | [] => VUndef
  | (k', v) :: tl => if String.eqb k k' then v else lookup k tl
  end.

(** Property read [v.k]; reading from [undefined] or [null] is a TypeError. *)
Definition get (v : value) (k : string) : result value :=
  match v with
  | VUndef | VNull =>
      Throw ("TypeError: Cannot read properties of " ++ toString v)
  | VObj fields => Ok (lookup k fields)
  | _ => Ok VUndef
  end.

(** Optional chaining [v?.k]. *)
Definition get_opt (v : value) (k : string) : value :=
  match v with
  | VObj fields => lookup k fields
  | _ => VUndef
  end.

(** Array element [arr[i]] for a numeric index. *)
Definition index (arr : list value) (i : number) : value :=
  match i with
  | Fin q =>
      if (Qeq_bool q (inject_Z (Qfloor q)) && Qle_bool 0 q)%bool
      then nth (Z.to_nat (Qfloor q)) arr VUndef
      else VUndef
  | _ => VUndef
  end.

End Val.

(** ** The host and the effects of a run *)

Module Host.

Import Num Val.

(** What a run can observe of its host.  [child_process_exec] gives, for a
    shell command line, the standard output of the command or the message of
    the error that rejects the promise. *)
Record World : Type := {
  child_process_exec : string -> result string;
  os_loadavg : list number;
  os_cpus : list string;
  os_totalmem : number;
  os_freemem : number;
  os_uptime : number;
  os_type : string;
  os_arch : string;
  process_version : string;
  date_toLocaleString : string;
  fs_existsSync : string -> bool;
  fs_readdirSync : string -> result (list string);
  fs_readFileSync : string -> result string;
  JSON_parse : string -> result value
}.

(** What a run does to its host, in program order.  [Exec] stands for a
    command that was started and awaited to completion. *)
Inductive event : Type :=
| Clear
| Log (line : string)
| Error (line : string)
| Exec (cmd : string)
| Spawn (prog : string) (args : list string)
| Exit (code : Z).

(** A computation reads the host and yields a value or an exception,
    together with the events it performed. *)
Definition M (A : Type) : Type := World -> result A * list event.

Definition ret {A} (a : A) : M A := fun _ => (Ok a, []).

Definition throw {A} (e : string) : M A := fun _ => (Throw e, []).

Definition bind {A B} (m : M A) (f : A -> M B) : M B :=
  fun w =>
    match m w with
    | (Ok a, t) => let (r, t') := f a w in (r, (t ++ t')%list)
    | (Throw e, t) => (Throw e, t)
    end.

(** [try { m } catch (e) { h e }] *)
Definition try_catch {A} (m : M A) (h : string -> M A) : M A :=
  fun w =>
    match m w with
    | (Ok a, t) => (Ok a, t)
    | (Throw e, t) => let (r, t') := h e w in (r, (t ++ t')%list)
    end.

Definition lift {A} (r : result A) : M A := fun _ => (r, []).

Definition ask {A} (f : World -> A) : M A := fun w => (Ok (f w), []).

(** A call into the host that may raise an exception. *)
Definition consult {A} (f : World -> result A) : M A := fun w => (f w, []).

Definition emit (e : event) : M unit := fun _ => (Ok tt, [e]).

Definition console_clear : M unit := emit Clear.
Definition console_log (s : string) : M unit := emit (Log s).
Definition console_error (s : string) : M unit := emit (Error s).
Definition spawn (prog : string) (args : list string) : M unit :=
  emit (Spawn prog args).
Definition process_exit (code : Z) : M unit := emit (Exit code).

(** [await execPromise(cmd)], giving [stdout]. *)
Definition execPromise (cmd : string) : M string :=
  fun w => (child_process_exec w cmd, [Exec cmd]).

Definition result_of {A} (m : M A) (w : World) : result A := fst (m w).
Definition events_of {A} (m : M A) (w : World) : list event := snd (m w).

(** The shell commands among the events. *)
Definition commands (t : list event) : list string :=
  flat_map (fun e => match e with Exec c => [c] | _ => [] end) t.

(** The spawned children among the events. *)
Definition spawns (t : list event) : list (string * list string) :=
  flat_map (fun e => match e with Spawn p a => [(p, a)] | _ => [] end) t.

(** The lines written with [console.log]. *)
Definition logged (t : list event) : list string :=
  flat_map (fun e => match e with Log s => [s] | _ => [] end) t.

End Host.

Declare Scope js_scope.
Delimit Scope js_scope with js.
Notation "x <- m ;; k" := (Host.bind m (fun x => k))
  (at level 61, m at next level, right associativity) : js_scope.
Notation "m ;; k" := (Host.bind m (fun _ => k))
  (at level 61, right associativity) : js_scope.
Bind Scope js_scope with Host.M.

(** ** What the four programs share *)

Module Common.

Import Num Val Host.
Local Open Scope js_scope.

Definition reset := Str.esc ++ "[0m".
Definition bright := Str.esc ++ "[1m".
Definition cyan := Str.esc ++ "[36m".
Definition green := Str.esc ++ "[32m".
Definition yellow := Str.esc ++ "[33m".
Definition blue := Str.esc ++ "[34m".
Definition magenta := Str.esc ++ "[35m".
Definition white := Str.esc ++ "[37m".
Definition gray := Str.esc ++ "[90m".
Definition red := Str.esc ++ "[31m".

Definition sizes : list value :=
  [VStr "B"; VStr "K"; VStr "M"; VStr "G"; VStr "T"].

(** The tail of [formatBytes], after its guard:
<<
  const k = 1024, dm = decimals < 0 ? 0 : decimals;
  const sizes = ['B', 'K', 'M', 'G', 'T'];
  const i = Math.floor(Math.log(bytes) / Math.log(k));
  return parseFloat((bytes / Math.pow(k, i)).toFixed(dm)) + sizes[i];
>> *)
Definition formatBytes_scaled (bytes : value) (decimals : Z) : result value :=
  let k := 1024%Z in
  let dm := if (decimals <? 0)%Z then 0%Z else decimals in
  let i := floor_log k (toNumber bytes) in
  match toFixed dm (div (toNumber bytes) (Math_pow k i)) with
  | Ok s => Ok (Val.add (VNum (Lit.parseFloat s)) (Val.index sizes i))
  | Throw e => Throw e
  end.

(** [formatBytes] of [run.js] (both programs) and [part_000]:
<<
  if (bytes === 0 || isNaN(bytes)) return '0B';
>> *)
Definition formatBytes (bytes : value) (decimals : Z) : result value :=
  if (Val.is_zero bytes || Val.isNaN bytes)%bool then Ok (VStr "0B")
  else formatBytes_scaled bytes decimals.

(** [arr.push(x)] *)
Definition push {A} (arr : list A) (x : A) : list A := app arr [x].

Definition plural (n : number) : string :=
  if gt n (of_Z 1) then "s" else "".

(** The tail of [formatUptime], from the computation of [days] on. *)
Definition formatUptime_parts (seconds : number) : string :=
  let days := Math_floor (div seconds (of_Z 86400)) in
  let hours := Math_floor (div (rem seconds (of_Z 86400)) (of_Z 3600)) in
  let minutes := Math_floor (div (rem seconds (of_Z 3600)) (of_Z 60)) in
  let result : list string := [] in
  let result :=
    if gt days (of_Z 0)
    then push result (Num.toString days ++ " day" ++ plural days)
    else result in
  let result :=
    if gt hours (of_Z 0)
    then push result (Num.toString hours ++ " hour" ++ plural hours)
    else result in
  let result :=
    if gt minutes (of_Z 0)
    then push result (Num.toString minutes ++ " minute" ++ plural minutes)
    else result in
  toString (Val.or (VStr (Str.join " " result)) (VStr "0 minutes")).

(** [formatUptime] of [run.js] (both programs) and [part_000], which starts
    with [seconds = Math.floor(seconds)]. *)
Definition formatUptime (seconds : number) : string :=
  let seconds := Math_floor seconds in
  formatUptime_parts seconds.

End Common.

(** ** Results of the metric collectors *)

Module IP.
Record t : Type := { ip : Val.value; country : Val.value;
                     region : Val.value; isp : Val.value }.
End IP.

Module Mem.
Record t : Type := { total : Val.value; used : Val.value; free : Val.value }.
End Mem.

Module Usage.
Record t : Type := { total : Val.value; used : Val.value }.
End Usage.

(** ** Collectors and printing shared by the full banners *)

Module Metrics.

Import Num Val Host Common.
Local Open Scope js_scope.

Definition not_available : IP.t :=
  {| IP.ip := VStr "N/A"; IP.country := VStr "N/A";
     IP.region := VStr "N/A"; IP.isp := VStr "N/A" |}.

Definition curl_command : string := "curl -s https://ipapi.co/json/".
Definition df_command : string := "df -B1 / | tail -1 | awk '{print $2,$3}'".
Definition uname_command : string := "uname -r".
Definition cpuinfo_command (sed_expr : string) : string :=
  "cat /proc/cpuinfo | grep 'model name' | head -1 | cut -d':' -f2 | sed '"
  ++ sed_expr ++ "'".

(** [getPublicIPInfo]; the [timeout] option only decides when the host
    makes the command fail. *)
Definition getPublicIPInfo : M IP.t :=
  try_catch
    (stdout <- execPromise curl_command ;;
     data <- consult (fun w => JSON_parse w stdout) ;;
     ip <- lift (get data "ip") ;;
     country_name <- lift (get data "country_name") ;;
     region <- lift (get data "region") ;;
     org <- lift (get data "org") ;;
     ret {| IP.ip := Val.or ip (VStr "N/A");
            IP.country := Val.or country_name (VStr "N/A");
            IP.region := Val.or region (VStr "N/A");
            IP.isp := Val.or org (VStr "N/A") |})
    (fun _ => ret not_available).

(** [os.loadavg()[0] / os.cpus().length * 100] *)
Definition load_percent (w : World) : number :=
  mul (div (toNumber (nth 0 (map VNum (os_loadavg w)) VUndef))
           (of_Z (Z.of_nat (length (os_cpus w)))))
      (of_Z 100).

(** [os.cpus()[0]?.model] *)
Definition first_cpu_model (w : World) : value :=
  match os_cpus w with
  | [] => VUndef
  | m :: _ => VStr m
  end.

(** [const [total, used] = ...]: a missing element is [undefined]. *)
Definition element (l : list number) (i : nat) : value :=
  match nth_error l i with
  | Some n => VNum n
  | None => VUndef
  end.

(** [stdout.trim().split(' ').map(Number)] *)
Definition numbers_of (stdout : string) : list number :=
  map Lit.Number (Str.split " " (Str.trim stdout)).

Section Formatting.

Variable formatBytes : value -> Z -> result value.

(** [getMemoryInfo] *)
Definition getMemoryInfo : M Mem.t :=
  total <- ask os_totalmem ;;
  free <- ask os_freemem ;;
  let used := sub total free in
  t <- lift (formatBytes (VNum total) 1) ;;
  u <- lift (formatBytes (VNum used) 1) ;;
  f <- lift (formatBytes (VNum free) 1) ;;
  ret {| Mem.total := t; Mem.used := u; Mem.free := f |}.

(** [getDiskInfo] *)
Definition getDiskInfo : M Usage.t :=
  try_catch
    (stdout <- execPromise df_command ;;
     let l := numbers_of stdout in
     t <- lift (formatBytes (element l 0) 1) ;;
     u <- lift (formatBytes (element l 1) 1) ;;
     ret {| Usage.total := t; Usage.used := u |})
    (fun _ => ret {| Usage.total := VStr "N/A"; Usage.used := VStr "N/A" |}).

End Formatting.

(** [getCPUModel]; the revisions differ in the [sed] expression only. *)
Definition getCPUModel (sed_expr : string) : M string :=
  try_catch
    (stdout <- execPromise (cpuinfo_command sed_expr) ;;
     model <- ask first_cpu_model ;;
     ret (toString (Val.or (VStr (Str.trim stdout))
                           (Val.or model (VStr "N/A")))))
    (fun _ =>
       model <- ask first_cpu_model ;;
       ret (toString (Val.or model (VStr "N/A")))).

(** [getOSInfo] *)
Definition getOSInfo : M string :=
  try_catch (ask os_type) (fun _ => ret "N/A").

(** [getKernelVersion] *)
Definition getKernelVersion : M string :=
  try_catch
    (stdout <- execPromise uname_command ;; ret (Str.trim stdout))
    (fun _ => ret "N/A").

(** The [print] / [printInfo] closure of [displaySystemInfo]. *)
Definition info_line (label value color : string) : string :=
  cyan ++ "▻ " ++ bright ++ Str.padEnd 16 label ++ reset
  ++ ": " ++ color ++ value ++ reset.

Definition printInfo (label value color : string) : M unit :=
  console_log (info_line label value color).

(** The default of the closure's third parameter, [color = colors.white],
    which applies when the argument is [undefined]: the colour table of
    [part_001] has no [red]. *)
Definition color_or_white (color : Val.value) : string :=
  match color with
  | VUndef => white
  | _ => toString color
  end.

(** The sixteen [printInfo] calls, the same text in the three full banners;
    [colors_red] is the entry [colors.red] of the program's table. *)
Definition printAll (colors_red : Val.value) (ipInfo : IP.t) (cpuUsage : string) (memory : Mem.t)
    (swap disk : Usage.t) (cpuModel kernel uptime currentTime : string)
  : M unit :=
  printInfo "ISP" (toString (IP.isp ipInfo)) green ;;
  printInfo "IPv4" (toString (IP.ip ipInfo) ++ " (Public IP)") yellow ;;
  printInfo "Country" (toString (IP.country ipInfo)) blue ;;
  printInfo "Region" (toString (IP.region ipInfo)) blue ;;
  os <- getOSInfo ;;
  printInfo "OS" os magenta ;;
  printInfo "Uptime" uptime green ;;
  version <- ask process_version ;;
  printInfo "NodeJS version" (Str.substring1 version) yellow ;;
  printInfo "Memory" (toString (Mem.total memory) ++ " ("
                      ++ toString (Mem.used memory) ++ " Used)") cyan ;;
  printInfo "Swap" (toString (Usage.total swap) ++ " ("
                    ++ toString (Usage.used swap) ++ " Used)") cyan ;;
  printInfo "Disk" (toString (Usage.total disk) ++ " ("
                    ++ toString (Usage.used disk) ++ " Used)") magenta ;;
  cpus <- ask os_cpus ;;
  printInfo "CPUs" (Num.toString (of_Z (Z.of_nat (length cpus)))) green ;;
  printInfo "Processor" cpuModel white ;;
  arch <- ask os_arch ;;
  printInfo "Arch" arch yellow ;;
  printInfo "Kernel" kernel blue ;;
  printInfo "CPU Usage" (cpuUsage ++ "%") (color_or_white colors_red) ;;
  printInfo "Current Time" currentTime green.

End Metrics.

(** ** First program of [run.js]: short banner and application launcher *)

Module RunLauncher.

Import Num Val Host Common.
Local Open Scope js_scope.

Definition formatBytes := Common.formatBytes.
Definition formatUptime := Common.formatUptime.

Definition top_command : string :=
  "top -bn1 | grep 'Cpu(s)' | awk '{print 100 - $8}'".

(** [getCPUUsage]: the load average stands in when [top] fails or prints
    no number. *)
Definition getCPUUsage : M string :=
  try_catch
    (stdout <- execPromise top_command ;;
     let usage := Lit.parseFloat (Str.trim stdout) in
     if negb (Num.isNaN usage) then lift (toFixed 1 usage)
     else
       load <- ask Metrics.load_percent ;;
       lift (toFixed 1 load))
    (fun _ =>
       load <- ask Metrics.load_percent ;;
       lift (toFixed 1 load)).

Definition getMemoryInfo : M Mem.t := Metrics.getMemoryInfo formatBytes.

Definition displaySystemInfo : M unit :=
  console_clear ;;
  console_log (cyan ++ bright ++ Str.nl ++
    "╔════════════════════════════════════════════════════════════════╗") ;;
  console_log
    "║          🚀  SYSTEM INFORMATION - PTERODACTYL PANEL 🚀          ║" ;;
  console_log
    ("╚════════════════════════════════════════════════════════════════╝"
     ++ reset ++ Str.nl) ;;
  cpuUsage <- getCPUUsage ;;
  memory <- getMemoryInfo ;;
  seconds <- ask os_uptime ;;
  let uptime := formatUptime seconds in
  version <- ask process_version ;;
  console_log (green ++ "▻ NodeJS version" ++ reset ++ ": "
               ++ Str.substring1 version) ;;
  console_log (cyan ++ "▻ Memory" ++ reset ++ ": "
               ++ toString (Mem.total memory) ++ " ("
               ++ toString (Mem.used memory) ++ " Used)") ;;
  console_log (yellow ++ "▻ CPU Usage" ++ reset ++ ": " ++ cpuUsage ++ "%") ;;
  console_log (magenta ++ "▻ Uptime" ++ reset ++ ": " ++ uptime) ;;
  console_log (cyan ++ Str.nl ++
    "════════════════════════════════════════════════════════════════"
    ++ reset) ;;
  console_log (green ++ "✓ System Ready - Checking Node Modules..." ++ reset) ;;
  console_log (cyan ++
    "════════════════════════════════════════════════════════════════"
    ++ reset ++ Str.nl).

Definition install_command : string :=
  "npm install --no-audit --silent --no-bin-links --legacy-peer-deps".

Definition ensureNodeModules : M bool :=
  let path := "/home/container/node_modules" in
  hasPackage <- ask (fun w => fs_existsSync w "/home/container/package.json") ;;
  if negb hasPackage then
    console_log (red ++
      "❌ Tidak dapat menemukan package.json. Melewati proses instalasi."
      ++ reset) ;;
    ret false
  else
    try_catch
      (exists_ <- ask (fun w => fs_existsSync w path) ;;
       (if negb exists_ then
          console_log (yellow ++
            "⚙️  node_modules tidak ditemukan, menjalankan npm install (disembunyikan)..."
            ++ reset) ;;
          _ <- execPromise install_command ;;
          console_log (green ++ "✅ Instalasi dependensi selesai." ++ reset)
        else
          console_log (green ++ "✅ node_modules ditemukan." ++ reset)) ;;
       ret true)
      (fun _ =>
         console_log (red ++ "❌ Gagal menginstal dependensi." ++ reset) ;;
         ret false).

(** [fs.readdirSync(dir).find(f => f.endsWith('.js'))] *)
Definition find_js (files : list string) : value :=
  match find (Str.endsWith ".js") files with
  | Some f => VStr f
  | None => VUndef
  end.

Definition startApp : M unit :=
  let startCmd := ["start"] in
  let pkgPath := "/home/container/package.json" in
  hasPkg <- ask (fun w => fs_existsSync w pkgPath) ;;
  if negb hasPkg then
    hasIndex <- ask (fun w => fs_existsSync w "/home/container/index.js") ;;
    defaultFile <-
      (if hasIndex then ret "index.js"
       else
         files <- consult (fun w => fs_readdirSync w "/home/container") ;;
         ret (toString (Val.or (find_js files) (VStr "")))) ;;
    (if truthy (VStr defaultFile) then
       console_log (cyan ++ "🚀 Menjalankan file default: " ++ defaultFile
                    ++ reset) ;;
       spawn "node" [defaultFile]
     else
       console_log (red ++ "❌ Tidak menemukan file .js untuk dijalankan."
                    ++ reset))
  else
    text <- consult (fun w => fs_readFileSync w pkgPath) ;;
    pkg <- consult (fun w => JSON_parse w text) ;;
    scripts <- lift (get pkg "scripts") ;;
    start <- (if truthy scripts then lift (get scripts "start")
              else ret VUndef) ;;
    if (negb (truthy scripts) || negb (truthy start))%bool then
      console_log (yellow ++
        "⚠️  Tidak ada script 'start'. Menjalankan 'node .'" ++ reset) ;;
      spawn "node" ["."]
    else
      console_log (cyan ++ "🚀 Menjalankan aplikasi dengan npm start..."
                   ++ reset) ;;
      spawn "npm" startCmd.

(** The immediately invoked [async] function at the end of the program. *)
Definition main : M unit :=
  displaySystemInfo ;;
  canRun <- ensureNodeModules ;;
  startApp.

End RunLauncher.

(** ** Second program of [run.js]: full banner, [npm install], [npm start] *)

Module RunNpmStart.

Import Num Val Host Common.
Local Open Scope js_scope.

Definition formatBytes := Common.formatBytes.
Definition formatUptime := Common.formatUptime.
Definition getPublicIPInfo := Metrics.getPublicIPInfo.

Definition top_command : string :=
  "top -bn1 | grep 'Cpu(s)' | awk '{print 100 - $8}'".

(** [getCPUUsage]: the load average stands in when [top] fails or prints
    no percentage. *)
Definition getCPUUsage : M string :=
  try_catch
    (stdout <- execPromise top_command ;;
     let usage := Lit.parseFloat (Str.trim stdout) in
     if (negb (Num.isNaN usage) && ge usage (of_Z 0) && le usage (of_Z 100))%bool
     then lift (toFixed 1 usage)
     else
       load <- ask Metrics.load_percent ;;
       lift (toFixed 1 load))
    (fun _ =>
       load <- ask Metrics.load_percent ;;
       lift (toFixed 1 load)).

Definition getMemoryInfo : M Mem.t := Metrics.getMemoryInfo formatBytes.

Definition swap_command : string :=
  "free -b | grep 'Swap:' | awk '{print $2,$3}'".

(** [getSwapInfo], with [formatBytes(total || 0)]. *)
Definition getSwapInfo : M Usage.t :=
  try_catch
    (stdout <- execPromise swap_command ;;
     let l := Metrics.numbers_of stdout in
     t <- lift (formatBytes (Val.or (Metrics.element l 0) (VNum (of_Z 0))) 1) ;;
     u <- lift (formatBytes (Val.or (Metrics.element l 1) (VNum (of_Z 0))) 1) ;;
     ret {| Usage.total := t; Usage.used := u |})
    (fun _ => ret {| Usage.total := VStr "0B"; Usage.used := VStr "0B" |}).

Definition getDiskInfo : M Usage.t := Metrics.getDiskInfo formatBytes.
Definition getCPUModel : M string := Metrics.getCPUModel "s/^ *//".
Definition getKernelVersion := Metrics.getKernelVersion.

(** [displaySystemInfo].  The seven collectors are started together with
    [Promise.all]; each starts its command when called, so the commands are
    recorded in the order of the array. *)
Definition displaySystemInfo : M unit :=
  console_clear ;;
  console_log Str.nl ;;
  console_log (cyan ++ bright ++
    "╔════════════════════════════════════════════════════════════════╗"
    ++ reset) ;;
  console_log (cyan ++ bright ++
    "║          🚀  SYSTEM INFORMATION - PTERODACTYL PANEL 🚀          "
    ++ reset) ;;
  console_log (cyan ++ bright ++
    "╚════════════════════════════════════════════════════════════════╝"
    ++ reset) ;;
  console_log "" ;;
  ipInfo <- getPublicIPInfo ;;
  cpuUsage <- getCPUUsage ;;
  memory <- getMemoryInfo ;;
  swap <- getSwapInfo ;;
  disk <- getDiskInfo ;;
  cpuModel <- getCPUModel ;;
  kernel <- getKernelVersion ;;
  seconds <- ask os_uptime ;;
  let uptime := formatUptime seconds in
  currentTime <- ask date_toLocaleString ;;
  Metrics.printAll (VStr red) ipInfo cpuUsage memory swap disk cpuModel kernel
    uptime currentTime ;;
  console_log "" ;;
  console_log (cyan ++ bright ++
    "════════════════════════════════════════════════════════════════"
    ++ reset) ;;
  console_log (green ++ bright ++
    "  ✓ System Ready - Checking Node Modules..." ++ reset) ;;
  console_log (cyan ++ bright ++
    "════════════════════════════════════════════════════════════════"
    ++ reset) ;;
  console_log Str.nl.

Definition install_command : string :=
  "npm install --no-bin-links --legacy-peer-deps --unsafe-perm=true".

Definition reinstall_command : string :=
  "rm -rf node_modules && npm install --no-bin-links --legacy-peer-deps --unsafe-perm=true".

(** [ensureNodeModules]: a failed installation is followed by one
    reinstallation. *)
Definition ensureNodeModules : M unit :=
  let path := "/home/container/node_modules" in
  try_catch
    (exists_ <- ask (fun w => fs_existsSync w path) ;;
     if negb exists_ then
       console_log (yellow ++
         "⚙️  node_modules not found, running npm install..." ++ reset) ;;
       _ <- execPromise install_command ;;
       console_log (green ++ "✅ npm install completed successfully."
                    ++ reset)
     else
       console_log (green ++ "✅ node_modules directory found." ++ reset))
    (fun error_message =>
       console_error (red ++ "❌ npm install failed: " ++ error_message
                      ++ reset) ;;
       console_log (yellow ++ "Trying to reinstall..." ++ reset) ;;
       try_catch
         (_ <- execPromise reinstall_command ;;
          console_log (green ++ "✅ npm reinstall success." ++ reset))
         (fun err_message =>
            console_error (red ++ "❌ Reinstall failed: " ++ err_message
                           ++ reset))).

(** [startApp]; the [exit] and [error] handlers of the child run after the
    program has handed over and are not part of the recorded run. *)
Definition startApp : M unit :=
  console_log (cyan ++ "🚀 Starting application with npm start..." ++ reset) ;;
  spawn "npm" ["start"].

Definition main : M unit :=
  displaySystemInfo ;;
  ensureNodeModules ;;
  startApp.

End RunNpmStart.

(** ** [part_000]: full banner and bash shell *)

Module Part000.

Import Num Val Host Common.
Local Open Scope js_scope.

Definition formatBytes := Common.formatBytes.
Definition formatUptime := Common.formatUptime.
Definition getPublicIPInfo := Metrics.getPublicIPInfo.

Definition vmstat_command : string :=
  "vmstat 1 2 | tail -1 | awk '{print 100 - $15}'".

Definition top_command : string :=
  "top -bn1 | grep 'Cpu(s)' | sed 's/.*, *\([0-9.]*\)%* id.*/\1/' | awk '{print 100 - $1}'".

(** [getCPUUsage]: [vmstat] first, then [top] when the figure is not a
    percentage. *)
Definition getCPUUsage : M string :=
  try_catch
    (stdout <- execPromise vmstat_command ;;
     let usage := Lit.parseFloat (Str.trim stdout) in
     if (Num.isNaN usage || lt usage (of_Z 0) || gt usage (of_Z 100))%bool
     then
       topOutput <- execPromise top_command ;;
       let topUsage := Lit.parseFloat (Str.trim topOutput) in
       if (Num.isNaN topUsage || lt topUsage (of_Z 0))%bool then ret "N/A"
       else lift (toFixed 1 topUsage)
     else lift (toFixed 1 usage))
    (fun _ => ret "N/A").

Definition getMemoryInfo : M Mem.t := Metrics.getMemoryInfo formatBytes.

Definition swap_command : string :=
  "free -b | grep 'Swap:' | awk '{print $2,$3}'".

(** [getSwapInfo], which wants two fields. *)
Definition getSwapInfo : M Usage.t :=
  try_catch
    (stdout <- execPromise swap_command ;;
     let parts := Str.split " " (Str.trim stdout) in
     if (length parts <? 2)%nat
     then ret {| Usage.total := VStr "0B"; Usage.used := VStr "0B" |}
     else
       let total := Lit.Number (nth 0 parts "") in
       let used := Lit.Number (nth 1 parts "") in
       t <- lift (formatBytes (VNum total) 1) ;;
       u <- lift (formatBytes (VNum used) 1) ;;
       ret {| Usage.total := t; Usage.used := u |})
    (fun _ => ret {| Usage.total := VStr "0B"; Usage.used := VStr "0B" |}).

Definition getDiskInfo : M Usage.t := Metrics.getDiskInfo formatBytes.
Definition getCPUModel : M string := Metrics.getCPUModel "s/^[ \t]*//".
Definition getKernelVersion := Metrics.getKernelVersion.

Definition displaySystemInfo : M unit :=
  console_clear ;;
  console_log Str.nl ;;
  console_log (cyan ++ bright ++
    "╔════════════════════════════════════════════════════════════════╗"
    ++ reset) ;;
  console_log (cyan ++ bright ++
    "║          🚀  SYSTEM INFORMATION - PTERODACTYL PANEL  🚀          "
    ++ reset) ;;
  console_log (cyan ++ bright ++
    "╚════════════════════════════════════════════════════════════════╝"
    ++ reset) ;;
  console_log "" ;;
  ipInfo <- getPublicIPInfo ;;
  cpuUsage <- getCPUUsage ;;
  memory <- getMemoryInfo ;;
  swap <- getSwapInfo ;;
  disk <- getDiskInfo ;;
  cpuModel <- getCPUModel ;;
  kernel <- getKernelVersion ;;
  seconds <- ask os_uptime ;;
  let uptime := formatUptime seconds in
  now <- ask date_toLocaleString ;;
  let currentTime := Str.replace1 " " " " now in
  Metrics.printAll (VStr red) ipInfo cpuUsage memory swap disk cpuModel kernel
    uptime currentTime ;;
  console_log "" ;;
  console_log (cyan ++ bright ++
    "════════════════════════════════════════════════════════════════"
    ++ reset) ;;
  console_log (green ++ bright ++
    "  ✓ System Ready - Silahkan ketik perintah anda ..." ++ reset) ;;
  console_log (cyan ++ bright ++
    "════════════════════════════════════════════════════════════════"
    ++ reset) ;;
  console_log Str.nl.

Definition colorPrompt : string := "\[\033[1;36m\]Premiumapps@users\[\033[0m\]:\w\$ ".

Definition bash_script (user : string) : string :=
  Str.nl ++
  "            export USER=" ++ Str.dq ++ user ++ Str.dq ++ ";" ++ Str.nl ++
  "            export HOME=" ++ Str.dq ++ "/home/container" ++ Str.dq ++ ";"
  ++ Str.nl ++
  "            export PS1=" ++ Str.dq ++ colorPrompt ++ Str.dq ++ ";" ++ Str.nl ++
  "            bash --noprofile --norc" ++ Str.nl ++
  "        ".

(** [startBash]; the [error] and [exit] handlers of the child run after the
    program has handed over and are not part of the recorded run. *)
Definition startBash : M unit :=
  try_catch
    (spawn "bash" ["-c"; bash_script "Gofar"])
    (fun message => console_error (red ++ "Error: " ++ message ++ reset)).

Definition main : M unit :=
  displaySystemInfo ;;
  startBash.

(** [main().catch(...)] *)
Definition run : M unit :=
  try_catch main
    (fun message =>
       console_error (red ++ "Fatal error: " ++ message ++ reset) ;;
       process_exit 1).

End Part000.

(** ** [part_001]: the oldest revision, full banner and bash shell *)

Module Part001.

Import Num Val Host Common.
Local Open Scope js_scope.

(** The colour table has no [red]: [colors.red] is [undefined], which a
    template literal prints as the word. *)
Definition red : value := VUndef.

(** [formatBytes] guards against zero only. *)
Definition formatBytes (bytes : value) (decimals : Z) : result value :=
  if Val.is_zero bytes then Ok (VStr "0B")
  else formatBytes_scaled bytes decimals.

(** [formatUptime] does not round [seconds] first. *)
Definition formatUptime (seconds : number) : string :=
  formatUptime_parts seconds.

Definition getPublicIPInfo := Metrics.getPublicIPInfo.

Definition top_command : string :=
  "top -bn1 | grep 'Cpu(s)' | sed 's/.*, *\([0-9.]*\)%* id.*/\1/' | awk '{print 100 - $1}'".

Definition getCPUUsage : M string :=
  try_catch
    (stdout <- execPromise top_command ;;
     lift (toFixed 1 (Lit.parseFloat (Str.trim stdout))))
    (fun _ => ret "N/A").

Definition getMemoryInfo : M Mem.t := Metrics.getMemoryInfo formatBytes.

Definition swap_command : string :=
  "free -b | grep Swap | awk '{print $2,$3}'".

Definition getSwapInfo : M Usage.t :=
  try_catch
    (stdout <- execPromise swap_command ;;
     let l := Metrics.numbers_of stdout in
     t <- lift (formatBytes (Metrics.element l 0) 1) ;;
     u <- lift (formatBytes (Metrics.element l 1) 1) ;;
     ret {| Usage.total := t; Usage.used := u |})
    (fun _ => ret {| Usage.total := VStr "N/A"; Usage.used := VStr "N/A" |}).

Definition getDiskInfo : M Usage.t := Metrics.getDiskInfo formatBytes.
Definition getCPUModel : M string := Metrics.getCPUModel "s/^[ \t]*//".
Definition getKernelVersion := Metrics.getKernelVersion.

Definition displaySystemInfo : M unit :=
  console_log Str.nl ;;
  console_log (cyan ++ bright ++
    "╔════════════════════════════════════════════════════════════════╗"
    ++ reset) ;;
  console_log (cyan ++ bright ++
    "║          🚀 SYSTEM INFORMATION - PTERODACTYL PANEL 🚀          ║"
    ++ reset) ;;
  console_log (cyan ++ bright ++
    "╚════════════════════════════════════════════════════════════════╝"
    ++ reset) ;;
  console_log "" ;;
  ipInfo <- getPublicIPInfo ;;
  cpuUsage <- getCPUUsage ;;
  memory <- getMemoryInfo ;;
  swap <- getSwapInfo ;;
  disk <- getDiskInfo ;;
  cpuModel <- getCPUModel ;;
  kernel <- getKernelVersion ;;
  seconds <- ask os_uptime ;;
  let uptime := formatUptime seconds in
  now <- ask date_toLocaleString ;;
  let currentTime := Str.replace1 " " " " now in
  Metrics.printAll red ipInfo cpuUsage memory swap disk cpuModel kernel uptime
    currentTime ;;
  console_log "" ;;
  console_log (cyan ++ bright ++
    "════════════════════════════════════════════════════════════════"
    ++ reset) ;;
  console_log (green ++ bright ++
    "  ✓ System Ready - Starting Bash Shell..." ++ reset) ;;
  console_log (cyan ++ bright ++
    "════════════════════════════════════════════════════════════════"
    ++ reset) ;;
  console_log Str.nl.

Definition startBash : M unit :=
  try_catch
    (spawn "bash" ["-c"; Part000.bash_script "XMPANEL"])
    (fun message =>
       console_error (toString red ++ "Error: " ++ message ++ reset)).

Definition main : M unit :=
  displaySystemInfo ;;
  startBash.

(** [main().catch(...)] *)
Definition run : M unit :=
  try_catch main
    (fun message =>
       console_error (toString red ++ "Fatal error: " ++ message ++ reset) ;;
       process_exit 1).

End Part001.

(** ** Vocabulary of the properties *)

Module Props.

Import Num Val Host.

Inductive program : Type := run_launcher | run_npm_start | part_000 | part_001.

Inductive metric : Type :=
| cpu_usage | swap | disk | public_ip | cpu_model | kernel_version.

(** What a collector hands to the banner. *)
Inductive answer : Type :=
| Text (s : string)
| Sizes (u : Usage.t)
| Address (a : IP.t).

Definition text (m : M string) : M answer := bind m (fun s => ret (Text s)).
Definition sized (m : M Usage.t) : M answer := bind m (fun u => ret (Sizes u)).
Definition address (m : M IP.t) : M answer := bind m (fun a => ret (Address a)).

(** The collector of each metric in each program; the launcher of [run.js]
    collects the CPU usage only. *)
Definition collector (p : program) (m : metric) : option (M answer) :=
  match p, m with
  | run_launcher, cpu_usage => Some (text RunLauncher.getCPUUsage)
  | run_launcher, _ => None
  | run_npm_start, cpu_usage => Some (text RunNpmStart.getCPUUsage)
  | run_npm_start, swap => Some (sized RunNpmStart.getSwapInfo)
  | run_npm_start, disk => Some (sized RunNpmStart.getDiskInfo)
  | run_npm_start, public_ip => Some (address RunNpmStart.getPublicIPInfo)
  | run_npm_start, cpu_model => Some (text RunNpmStart.getCPUModel)
  | run_npm_start, kernel_version => Some (text RunNpmStart.getKernelVersion)
  | part_000, cpu_usage => Some (text Part000.getCPUUsage)
  | part_000, swap => Some (sized Part000.getSwapInfo)
  | part_000, disk => Some (sized Part000.getDiskInfo)
  | part_000, public_ip => Some (address Part000.getPublicIPInfo)
  | part_000, cpu_model => Some (text Part000.getCPUModel)
  | part_000, kernel_version => Some (text Part000.getKernelVersion)
  | part_001, cpu_usage => Some (text Part001.getCPUUsage)
  | part_001, swap => Some (sized Part001.getSwapInfo)
  | part_001, disk => Some (sized Part001.getDiskInfo)
  | part_001, public_ip => Some (address Part001.getPublicIPInfo)
  | part_001, cpu_model => Some (text Part001.getCPUModel)
  | part_001, kernel_version => Some (text Part001.getKernelVersion)
  end.

(** The shell command a collector starts with. *)
Definition command_of (p : program) (m : metric) : string :=
  match m, p with
  | cpu_usage, run_launcher => RunLauncher.top_command
  | cpu_usage, run_npm_start => RunNpmStart.top_command
  | cpu_usage, part_000 => Part000.vmstat_command
  | cpu_usage, part_001 => Part001.top_command
  | swap, part_001 => Part001.swap_command
  | swap, part_000 => Part000.swap_command
  | swap, _ => RunNpmStart.swap_command
  | disk, _ => Metrics.df_command
  | public_ip, _ => Metrics.curl_command
  | cpu_model, run_npm_start => Metrics.cpuinfo_command "s/^ *//"
  | cpu_model, _ => Metrics.cpuinfo_command "s/^[ \t]*//"
  | kernel_version, _ => Metrics.uname_command
  end.

Definition both (v : string) : Usage.t :=
  {| Usage.total := VStr v; Usage.used := VStr v |}.

(** The figure printed by [vmstat] is not a percentage. *)
Definition not_a_percentage (out : string) : bool :=
  let usage := Lit.parseFloat (Str.trim out) in
  (Num.isNaN usage || lt usage (of_Z 0) || gt usage (of_Z 100))%bool.








(** An awaited command that installs dependencies. *)
Definition is_install (e : event) : bool :=
  match e with
  | Exec c => Str.includes "npm install" c
  | _ => false
  end.

Definition is_spawn (e : event) : bool :=
  match e with
  | Spawn _ _ => true
  | _ => false
  end.

Definition installs (t : list event) : bool := existsb is_install t.

(** A [printInfo] line with this label. *)
Definition is_info_line (label : string) (e : event) : Prop :=
  exists value color, e = Log (Metrics.info_line label value color).

(** The ten lines of the launcher's short banner. *)
Definition short_banner (version total used cpuUsage uptime : string)
  : list string :=
  [ Common.cyan ++ Common.bright ++ Str.nl ++
    "╔════════════════════════════════════════════════════════════════╗";
    "║          🚀  SYSTEM INFORMATION - PTERODACTYL PANEL 🚀          ║";
    "╚════════════════════════════════════════════════════════════════╝"
    ++ Common.reset ++ Str.nl;
    Common.green ++ "▻ NodeJS version" ++ Common.reset ++ ": " ++ version;
    Common.cyan ++ "▻ Memory" ++ Common.reset ++ ": " ++ total ++ " ("
    ++ used ++ " Used)";
    Common.yellow ++ "▻ CPU Usage" ++ Common.reset ++ ": " ++ cpuUsage ++ "%";
    Common.magenta ++ "▻ Uptime" ++ Common.reset ++ ": " ++ uptime;
    Common.cyan ++ Str.nl ++
    "════════════════════════════════════════════════════════════════"
    ++ Common.reset;
    Common.green ++ "✓ System Ready - Checking Node Modules..."
    ++ Common.reset;
    Common.cyan ++
    "════════════════════════════════════════════════════════════════"
    ++ Common.reset ++ Str.nl ].

(** Labels of the lines that show the metric classes: CPU usage, memory,
    swap, disk, public address, kernel and OS. *)
Definition metric_labels : list string :=
  ["CPU Usage"; "Memory"; "Swap"; "Disk";
   "ISP"; "IPv4"; "Country"; "Region"; "Kernel"; "OS"].

(** A computation that never raises. *)
Definition total {A} (m : M A) : Prop :=
  forall w, is_ok (result_of m w) = true.

(** Every event of a computation satisfies [P]. *)
Definition only (P : event -> bool) {A} (m : M A) : Prop :=
  forall w, forallb P (events_of m w) = true.

(** Some event of a computation satisfies [Q]. *)
Definition eventually (Q : event -> Prop) {A} (m : M A) : Prop :=
  forall w, Exists Q (events_of m w).

(** Neither an installation nor a child. *)
Definition is_banner_event (e : event) : bool :=
  (negb (is_install e) && negb (is_spawn e))%bool.

Definition not_spawn (e : event) : bool := negb (is_spawn e).
Definition not_install (e : event) : bool := negb (is_install e).

(** Some logged line mentions [word]. *)
Definition mentions (word : string) (t : list event) : bool :=
  existsb (Str.includes word) (logged t).

End Props.

(** ** Reference descriptions *)

Module Reference.

Import Num Val Host.

(** One component of an uptime: nothing when zero, otherwise the count, the
    unit and a plural [s] when the count exceeds one. *)
Definition component (n : Z) (unit : string) : list string :=
  if (n =? 0)%Z then []
  else [Str.dec n ++ " " ++ unit ++ (if (1 <? n)%Z then "s" else "")].

(** The uptime text for [s] seconds, with [d = floor(floor(s)/86400)],
    [h = floor((floor(s) mod 86400)/3600)] and
    [m = floor((floor(s) mod 3600)/60)]. *)
Definition uptime_text (s : Q) : string :=
  let t := Qfloor s in
  let d := (t / 86400)%Z in
  let h := ((t mod 86400) / 3600)%Z in
  let m := ((t mod 3600) / 60)%Z in
  match (component d "day" ++ component h "hour" ++ component m "minute")%list
  with
  | [] => "0 minutes"
  | parts => Str.join " " parts
  end.

(** [bytes / 1024^i] rounded to one decimal place, ties upwards, without a
    trailing [.0]. *)
Definition one_decimal (bytes i : Z) : string :=
  let n := ((bytes * 20 + 1024 ^ i) / (2 * 1024 ^ i))%Z in
  if (n mod 10 =? 0)%Z then Str.dec (n / 10)
  else Str.dec (n / 10) ++ "." ++ Str.dec (n mod 10).

Definition suffix (i : Z) : string :=
  nth (Z.to_nat i) ["B"; "K"; "M"; "G"; "T"] "".

Definition pkgPath : string := "/home/container/package.json".
Definition indexPath : string := "/home/container/index.js".
Definition home : string := "/home/container".

(** [true] when [package.json] is missing. *)
Definition no_package (w : World) : bool := negb (fs_existsSync w pkgPath).

(** The files of the home directory, when it can be listed. *)
Definition listing (w : World) : list string :=
  match fs_readdirSync w home with
  | Ok files => files
  | Throw _ => []
  end.

(** The value of [scripts.start] in [package.json]; [undefined] when
    there is none. *)
Definition start_script (w : World) : value :=
  match fs_readFileSync w pkgPath with
  | Ok text =>
      match JSON_parse w text with
      | Ok pkg => get_opt (get_opt pkg "scripts") "start"
      | Throw _ => VUndef
      end
  | Throw _ => VUndef
  end.

(** The child the launcher is expected to start. *)
Definition expected_child (w : World) : option (string * list string) :=
  if fs_existsSync w pkgPath then
    if truthy (start_script w) then Some ("npm", ["start"])
    else Some ("node", ["."])
  else if fs_existsSync w indexPath then Some ("node", ["index.js"])
  else match find (Str.endsWith ".js") (listing w) with
       | Some f => Some ("node", [f])
       | None => None
       end.

Definition child_list (c : option (string * list string))
  : list (string * list string) :=
  match c with Some x => [x] | None => [] end.

(** What the launcher needs to read succeeds: [package.json], when
    present, parses to something other than [null]; the home directory,
    when it has to be searched, can be listed. *)
Definition readable (w : World) : Prop :=
  if fs_existsSync w pkgPath then
    exists text pkg,
      fs_readFileSync w pkgPath = Ok text /\
      JSON_parse w text = Ok pkg /\
      pkg <> VNull /\ pkg <> VUndef
  else if fs_existsSync w indexPath then True
  else exists files, fs_readdirSync w home = Ok files.

Definition no_js_line : string :=
  Common.red ++ "❌ Tidak menemukan file .js untuk dijalankan." ++ Common.reset.

End Reference.

(** ** Sample hosts *)

Module Sample.

Import Num Val Host.

(** A host described by its commands, its load, its home directory and the
    content of [package.json]. *)
Definition host (exec : string -> result string) (load : Q)
    (node_modules : bool) (files : list string) (package : option string)
    (parse : string -> result value) : World :=
  {| child_process_exec := exec;
     os_loadavg := [Fin load; Fin load; Fin load];
     os_cpus := ["Intel(R) Xeon(R) CPU"];
     os_totalmem := of_Z 8589934592;
     os_freemem := of_Z 2147483648;
     os_uptime := Fin (900615 # 10);
     os_type := "Linux";
     os_arch := "x64";
     process_version := "v18.20.4";
     date_toLocaleString := "2024-05-01 12:00:00";
     fs_existsSync := fun p =>
       if String.eqb p "/home/container/node_modules" then node_modules
       else if String.eqb p "/home/container/package.json"
       then match package with Some _ => true | None => false end
       else if String.eqb p "/home/container/index.js"
       then existsb (String.eqb "index.js") files
       else false;
     fs_readdirSync := fun _ => Ok files;
     fs_readFileSync := fun _ =>
       match package with
       | Some text => Ok text
       | None => Throw "ENOENT: no such file or directory"
       end;
     JSON_parse := parse |}.

Definition no_command (c : string) : result string :=
  Throw ("Command failed: " ++ c).

Definition no_json (s : string) : result value :=
  Throw "SyntaxError: Unexpected end of JSON input".

(** Every command fails; the load is half a core. *)
Definition offline : World := host no_command (1 # 2) false [] None no_json.


(** Every command prints an empty line. *)
Definition silent : World :=
  host (fun _ => Ok Str.nl) (1 # 2) true [] None no_json.

(** [package.json] is an empty file. *)
Definition empty_package : World :=
  host no_command (1 # 2) true ["package.json"] (Some "") no_json.

(** [package.json] is [{ scripts: { start: '' } }]. *)
Definition blank_start : World :=
  host no_command (1 # 2) true ["package.json"] (Some "{...}")
    (fun _ => Ok (VObj [("scripts", VObj [("start", VStr "")])])).

(** [package.json] is [{ scripts: { start: 'node bot.js' } }]. *)
Definition with_start : World :=
  host no_command (1 # 2) true ["package.json"; "bot.js"] (Some "{...}")
    (fun _ => Ok (VObj [("scripts", VObj [("start", VStr "node bot.js")])])).

End Sample.

(** ** Observations on a run *)

Module Trace.

Import Host.

(** The lines written with [console.error]. *)
Definition errors (t : list event) : list string :=
  flat_map (fun e => match e with Error s => [s] | _ => [] end) t.

(** The exit codes passed to [process.exit]. *)
Definition exits (t : list event) : list Z :=
  flat_map (fun e => match e with Exit c => [c] | _ => [] end) t.

Definition no_exec (e : event) : bool :=
  match e with Exec _ => false | _ => true end.

Definition no_log (e : event) : bool :=
  match e with Log _ => false | _ => true end.

(** Neither [console.error] nor [process.exit]. *)
Definition no_failure (e : event) : bool :=
  match e with Error _ | Exit _ => false | _ => true end.

End Trace.

(** ** Layout of the full banner *)

Module Layout.

Import Num Val Host Common.

(** The sixteen information lines, for what the collectors returned and
    what the host tells; [usage_color] is the colour of the CPU usage. *)
Definition rows (usage_color : string) (w : World) (ipInfo : IP.t)
    (cpuUsage : string)
    (memory : Mem.t) (swap disk : Usage.t)
    (cpuModel kernel uptime currentTime : string) : list string :=
  [ Metrics.info_line "ISP" (toString (IP.isp ipInfo)) green;
    Metrics.info_line "IPv4" (toString (IP.ip ipInfo) ++ " (Public IP)")
      yellow;
    Metrics.info_line "Country" (toString (IP.country ipInfo)) blue;
    Metrics.info_line "Region" (toString (IP.region ipInfo)) blue;
    Metrics.info_line "OS" (os_type w) magenta;
    Metrics.info_line "Uptime" uptime green;
    Metrics.info_line "NodeJS version" (Str.substring1 (process_version w))
      yellow;
    Metrics.info_line "Memory" (toString (Mem.total memory) ++ " ("
                                ++ toString (Mem.used memory) ++ " Used)") cyan;
    Metrics.info_line "Swap" (toString (Usage.total swap) ++ " ("
                              ++ toString (Usage.used swap) ++ " Used)") cyan;
    Metrics.info_line "Disk" (toString (Usage.total disk) ++ " ("
                              ++ toString (Usage.used disk) ++ " Used)")
      magenta;
    Metrics.info_line "CPUs"
      (Num.toString (of_Z (Z.of_nat (length (os_cpus w))))) green;
    Metrics.info_line "Processor" cpuModel white;
    Metrics.info_line "Arch" (os_arch w) yellow;
    Metrics.info_line "Kernel" kernel blue;
    Metrics.info_line "CPU Usage" (cpuUsage ++ "%") usage_color;
    Metrics.info_line "Current Time" currentTime green ].

Definition rule : string :=
  cyan ++ bright ++
  "════════════════════════════════════════════════════════════════"
  ++ reset.

(** The five lines above the information lines. *)
Definition head (title : string) : list string :=
  [ Str.nl;
    cyan ++ bright ++
    "╔════════════════════════════════════════════════════════════════╗"
    ++ reset;
    cyan ++ bright ++ title ++ reset;
    cyan ++ bright ++
    "╚════════════════════════════════════════════════════════════════╝"
    ++ reset;
    "" ].

(** The five lines below them. *)
Definition foot (ready : string) : list string :=
  [ ""; rule; green ++ bright ++ ready ++ reset; rule; Str.nl ].

(** The twenty-six lines of a full banner. *)
Definition full_banner (title ready usage_color : string) (w : World)
    (ipInfo : IP.t) (cpuUsage : string) (memory : Mem.t)
    (swap disk : Usage.t) (cpuModel kernel uptime : string) : list string :=
  (head title
   ++ rows usage_color w ipInfo cpuUsage memory swap disk cpuModel kernel
        uptime (date_toLocaleString w)
   ++ foot ready)%list.

Definition npm_start_title : string :=
  "║          🚀  SYSTEM INFORMATION - PTERODACTYL PANEL 🚀          ".
Definition part_000_title : string :=
  "║          🚀  SYSTEM INFORMATION - PTERODACTYL PANEL  🚀          ".
Definition part_001_title : string :=
  "║          🚀 SYSTEM INFORMATION - PTERODACTYL PANEL 🚀          ║".

(** The lines are the complete summary of the program on this host: the
    ten lines of the launcher, or the twenty-six of a full banner with the
    program's title, colour of the CPU usage and closing line, for some
    values of the collected metrics. *)
Definition complete_summary (p : Props.program) (w : World)
    (lines : list string) : Prop :=
  match p with
  | Props.run_launcher =>
      exists total used cpuUsage,
        lines = Props.short_banner (Str.substring1 (process_version w))
                  total used cpuUsage
                  (RunLauncher.formatUptime (os_uptime w))
  | Props.run_npm_start =>
      exists ipInfo cpuUsage memory swap disk cpuModel kernel,
        lines = full_banner npm_start_title
                  "  ✓ System Ready - Checking Node Modules..." red w
                  ipInfo cpuUsage memory swap disk cpuModel kernel
                  (RunNpmStart.formatUptime (os_uptime w))
  | Props.part_000 =>
      exists ipInfo cpuUsage memory swap disk cpuModel kernel,
        lines = full_banner part_000_title
                  "  ✓ System Ready - Silahkan ketik perintah anda ..." red w
                  ipInfo cpuUsage memory swap disk cpuModel kernel
                  (Part000.formatUptime (os_uptime w))
  | Props.part_001 =>
      exists ipInfo cpuUsage memory swap disk cpuModel kernel,
        lines = full_banner part_001_title
                  "  ✓ System Ready - Starting Bash Shell..." white w
                  ipInfo cpuUsage memory swap disk cpuModel kernel
                  (Part001.formatUptime (os_uptime w))
  end.

(** The second command of [part_000]'s [getCPUUsage], when it is run. *)
Definition second_cpu_command (w : World) : list string :=
  match child_process_exec w Part000.vmstat_command with
  | Ok out =>
      if Props.not_a_percentage out then [Part000.top_command] else []
  | Throw _ => []
  end.

End Layout.

(** ** A host that answers the address lookup *)

Module Replies.

Import Val Host.

(** A reply with an address and a country, an empty region and no
    provider. *)
Definition partial_reply : value :=
  VObj [("ip", VStr "203.0.113.7"); ("country_name", VStr "Indonesia");
        ("region", VStr "")].

(** [curl] succeeds, every other command fails. *)
Definition answering : World :=
  Sample.host
    (fun c => if String.eqb c Metrics.curl_command then Ok "{...}"
              else Sample.no_command c)
    (1 # 2) true [] None (fun _ => Ok partial_reply).

End Replies.

(** ** Double-precision arithmetic *)

Module Double.

Import Num Val.

(** [2^e] *)
Definition pow2 (e : Z) : Q := Qpower 2 e.

(** The [e] with [2^e <= q < 2^(e+1)], for a positive rational. *)
Definition floor_log2 (q : Q) : Z :=
  let e := (Z.log2 (Qnum q) - Z.log2 (Zpos (Qden q)))%Z in
  if Qle_bool (pow2 e) q then e else (e - 1)%Z.

(** Rounding to the nearest integer, ties to the even one. *)
Definition rne (m : Q) : Z :=
  let f := Qfloor m in
  match Qcompare (m - inject_Z f) (1 # 2) with
  | Lt => f
  | Gt => (f + 1)%Z
  | Eq => if Z.even f then f else (f + 1)%Z
  end.

(** Exponent of the unit in the last place of the doubles of the binade of
    [q]: 52 bits below the leading one, and never below that of the
    subnormal numbers. *)
Definition ulp_exp (q : Q) : Z :=
  (Z.max (floor_log2 (Qabs q)) (-1022) - 52)%Z.

(** The binary64 value nearest to [q], ties to even, were the exponent
    unbounded above. *)
Definition round (q : Q) : Q :=
  if Qis_zero q then 0
  else let u := pow2 (ulp_exp q) in
       Qred (inject_Z (rne (q / u)) * u).

(** The double a real operation returns for the exact result [q]; the sign
    of zero is not represented. *)
Definition of_Q (q : Q) : number :=
  let r := round q in
  if Qle_bool (pow2 1024) (Qabs r) then Infinity (Qneg q) else Fin r.

Definition rounded (x : number) : number :=
  match x with
  | Fin q => of_Q q
  | _ => x
  end.

(** [q] is the value of a double. *)
Definition is_double (q : Q) : bool :=
  match of_Q q with
  | Fin r => Qeq_bool r q
  | _ => false
  end.

Definition add (x y : number) : number := rounded (Num.add x y).
Definition sub (x y : number) : number := rounded (Num.sub x y).
Definition mul (x y : number) : number := rounded (Num.mul x y).
Definition div (x y : number) : number := rounded (Num.div x y).

(** [ToNumber]: what the exact reading gives, as a double. *)
Definition toNumber (v : value) : number := rounded (Val.toNumber v).

Definition parseFloat (s : string) : number := rounded (Lit.parseFloat s).

(** [Math.pow(b, e)] for an integer exponent and a base that is a power of
    two, where the result is exact up to overflow and underflow. *)
Definition Math_pow (b : Z) (e : number) : number :=
  rounded (Num.Math_pow b e).

(** *** [Math.log]

    As V8 computes it: the algorithm of fdlibm ([__ieee754_log], in V8
    [ieee754::log]), every operation rounded to a double. *)

(** The positive normal double with the given 64 bits. *)
Definition of_bits (b : Z) : Q :=
  (inject_Z (2 ^ 52 + b mod 2 ^ 52) * pow2 (b / 2 ^ 52 - 1075))%Q.

Definition ln2_hi : Q := of_bits 0x3fe62e42fee00000.
Definition ln2_lo : Q := of_bits 0x3dea39ef35793c76.
Definition Lg1 : Q := of_bits 0x3FE5555555555593.
Definition Lg2 : Q := of_bits 0x3FD999999997FA04.
Definition Lg3 : Q := of_bits 0x3FD2492494229359.
Definition Lg4 : Q := of_bits 0x3FCC71C51D8E78AF.
Definition Lg5 : Q := of_bits 0x3FC7466496CB03DE.
Definition Lg6 : Q := of_bits 0x3FC39A09D078C69F.
Definition Lg7 : Q := of_bits 0x3FC2F112DF3E5244.
(** The literal [0.33333333333333333]. *)
Definition third : Q := of_bits 0x3FD5555555555555.

Definition plus (a b : Q) : Q := round (a + b).
Definition minus (a b : Q) : Q := round (a - b).
Definition times (a b : Q) : Q := round (a * b).
Definition over (a b : Q) : Q := round (a / b).

(** The logarithm of a positive double [x]. *)
Definition log_positive (x : Q) : Q :=
  let e := floor_log2 x in
  let m := x / pow2 e in
  (* the 20 leading bits of the fraction: the low bits of the high word *)
  let hx := Qfloor ((m - 1) * inject_Z (2 ^ 20)) in
  (* i = (hx + 0x95f64) & 0x100000: x is normalised into [sqrt(2)/2, sqrt(2)) *)
  let up := (0x100000 <=? hx + 0x95f64)%Z in
  let x := if up then m / 2 else m in
  let k := if up then (e + 1)%Z else e in
  let f := minus x 1 in
  let dk := inject_Z k in
  if ((2 + hx) mod 0x100000 <? 3)%Z then
    (* |f| < 2^-20 *)
    if Qis_zero f then
      if (k =? 0)%Z then 0 else plus (times dk ln2_hi) (times dk ln2_lo)
    else
      let R := times (times f f) (minus (1 # 2) (times third f)) in
      if (k =? 0)%Z then minus f R
      else minus (times dk ln2_hi) (minus (minus R (times dk ln2_lo)) f)
  else
    let s := over f (plus 2 f) in
    let z := times s s in
    let w := times z z in
    let t1 := times w (plus Lg2 (times w (plus Lg4 (times w Lg6)))) in
    let t2 :=
      times z (plus Lg1 (times w (plus Lg3 (times w (plus Lg5
                                                      (times w Lg7)))))) in
    let R := plus t2 t1 in
    (* (hx - 0x6147a) | (0x6b851 - hx) > 0 *)
    if ((0x6147a <=? hx) && (hx <=? 0x6b851))%Z then
      let hfsq := times (times (1 # 2) f) f in
      if (k =? 0)%Z then minus f (minus hfsq (times s (plus hfsq R)))
      else minus (times dk ln2_hi)
             (minus (minus hfsq (plus (times s (plus hfsq R))
                                   (times dk ln2_lo))) f)
    else
      if (k =? 0)%Z then minus f (times s (minus f R))
      else minus (times dk ln2_hi)
             (minus (minus (times s (minus f R)) (times dk ln2_lo)) f).

Definition Math_log (x : number) : number :=
  match rounded x with
  | NaN => NaN
  | Infinity true => NaN
  | Infinity false => Infinity false
  | Fin q =>
      if Qneg q then NaN
      else if Qis_zero q then Infinity true
      else Fin (log_positive q)
  end.

(** *** Numbers as text *)

Definition pow10 (n : Z) : Q := Qpower 10 n.

Fixpoint dec_exp_from (fuel : nat) (n : Z) (q : Q) : Z :=
  match fuel with
  | O => n
  | S f => if Qle_bool (pow10 n) q then dec_exp_from f (n + 1) q else n
  end.

(** The [n] with [10^(n-1) <= q < 10^n], for a positive double. *)
Definition dec_exp (q : Q) : Z :=
  dec_exp_from 6 (floor_log2 q * 30103 / 100000 - 1) q.

(** The integer [s] of [k] digits, if there is one, for which [s * 10^(n-k)]
    reads back as the double [q]: the closer to [q] of the two around it,
    the even one when they are equally close. *)
Definition candidate (q : Q) (n k : Z) : option Z :=
  let scale := pow10 (n - k) in
  let lo := Qfloor (q / scale) in
  let hi := (lo + 1)%Z in
  let back s := Qeq_bool (round (inject_Z s * scale)) q in
  match back lo, back hi with
  | true, true =>
      match Qcompare (q - inject_Z lo * scale) (inject_Z hi * scale - q) with
      | Lt => Some lo
      | Gt => Some hi
      | Eq => Some (if Z.even lo then lo else hi)
      end
  | true, false => Some lo
  | false, true => Some hi
  | false, false => None
  end.

(** The fewest digits that read back as [q], and their number. *)
Fixpoint shortest_from (fuel : nat) (k : Z) (q : Q) (n : Z) : Z * Z :=
  match fuel with
  | O => (Qfloor (q / pow10 (n - k)), k)
  | S f =>
      match candidate q n k with
      | Some s => (s, k)
      | None => shortest_from f (k + 1) q n
      end
  end.

Definition zeros (n : Z) : string := Str.repeat "0" (Z.to_nat n).

(** [Number::toString] of a positive double that is written with the [k]
    digits of [s] and the decimal exponent [n]. *)
Definition digits_text (s k n : Z) : string :=
  let d := Str.dec s in
  if ((k <=? n) && (n <=? 21))%Z then d ++ zeros (n - k)
  else if ((0 <? n) && (n <=? 21))%Z then
    String.substring 0 (Z.to_nat n) d ++ "." ++
    String.substring (Z.to_nat n) (Z.to_nat (k - n)) d
  else if ((-6 <? n) && (n <=? 0))%Z then "0." ++ zeros (- n) ++ d
  else
    let e := (n - 1)%Z in
    (if (k =? 1)%Z then d
     else String.substring 0 1 d ++ "." ++
          String.substring 1 (Z.to_nat (k - 1)) d)
    ++ "e" ++ (if (e <? 0)%Z then "-" else "+") ++ Str.dec (Z.abs e).

Definition positive_text (q : Q) : string :=
  let n := dec_exp q in
  let (s, k) := shortest_from 17 1 q n in
  if (s =? 10 ^ k)%Z then digits_text 1 1 (n + 1) else digits_text s k n.

(** An integer below [2^53]. *)
Definition small_integer (q : Q) : bool :=
  (Qeq_bool q (inject_Z (Qfloor q)) && Qlt_bool (Qabs q) (pow2 53))%bool.

(** Number-to-string conversion.  An integer below [2^53] is written with
    all its digits: the fewest digits that read back as it are its own
    without the zeros at the end, which the notation restores. *)
Definition toString (x : number) : string :=
  match rounded x with
  | NaN => "NaN"
  | Infinity false => "Infinity"
  | Infinity true => "-Infinity"
  | Fin a =>
      if Qis_zero a then "0"
      else (if Qneg a then "-" else "") ++
           (if small_integer a then Str.dec (Qfloor (Qabs a))
            else positive_text (Qabs a))
  end.

(** [x.toFixed(f)] for [0 <= f <= 100]: the decimal with [f] digits nearest
    to the value of the double, the larger when two are equally near. *)
Definition toFixed_digits (f : Z) (x : number) : string :=
  match rounded x with
  | Fin a =>
      if Qle_bool (inject_Z (10 ^ 21)) (Qabs a) then toString (Fin a)
      else Num.toFixed_digits f (Fin a)
  | other => toString other
  end.

Definition toFixed (f : Z) (x : number) : result string :=
  if ((0 <=? f) && (f <=? 100))%Z then Ok (toFixed_digits f x)
  else Throw "RangeError: toFixed() digits argument must be between 0 and 100".

(** String conversion of a value whose numbers are doubles. *)
Definition to_string (v : value) : string :=
  match v with
  | VNum n => toString n
  | _ => Val.toString v
  end.

(** [a + b] *)
Definition plus_values (a b : value) : value :=
  match a, b with
  | VStr _, _ | _, VStr _
  | VArr _, _ | _, VArr _
  | VObj _, _ | _, VObj _ => VStr (to_string a ++ to_string b)
  | _, _ => VNum (add (toNumber a) (toNumber b))
  end.

(** *** The formatters on doubles *)

(** The tail of [formatBytes], after its guard:
<<
  const k = 1024, dm = decimals < 0 ? 0 : decimals;
  const sizes = ['B', 'K', 'M', 'G', 'T'];
  const i = Math.floor(Math.log(bytes) / Math.log(k));
  return parseFloat((bytes / Math.pow(k, i)).toFixed(dm)) + sizes[i];
>> *)
Definition formatBytes_scaled (bytes : value) (decimals : Z) : result value :=
  let k := 1024%Z in
  let dm := if (decimals <? 0)%Z then 0%Z else decimals in
  let i := Math_floor (div (Math_log (toNumber bytes)) (Math_log (of_Z k))) in
  match toFixed dm (div (toNumber bytes) (Math_pow k i)) with
  | Ok s => Ok (plus_values (VNum (parseFloat s)) (Val.index Common.sizes i))
  | Throw e => Throw e
  end.

(** [formatBytes] of [run.js] (both programs) and [part_000]. *)
Definition formatBytes (bytes : value) (decimals : Z) : result value :=
  if (Val.is_zero bytes || Val.isNaN bytes)%bool then Ok (VStr "0B")
  else formatBytes_scaled bytes decimals.

(** [formatBytes] of [part_001], which tests [bytes === 0] only. *)
Definition formatBytes_oldest (bytes : value) (decimals : Z) : result value :=
  if Val.is_zero bytes then Ok (VStr "0B")
  else formatBytes_scaled bytes decimals.

Definition plural (n : number) : string :=
  if gt n (of_Z 1) then "s" else "".

(** The tail of [formatUptime], from the computation of [days] on; the
    remainder of two doubles is exact. *)
Definition formatUptime_parts (seconds : number) : string :=
  let days := Math_floor (div seconds (of_Z 86400)) in
  let hours := Math_floor (div (rem seconds (of_Z 86400)) (of_Z 3600)) in
  let minutes := Math_floor (div (rem seconds (of_Z 3600)) (of_Z 60)) in
  let result : list string := [] in
  let result :=
    if gt days (of_Z 0)
    then Common.push result (toString days ++ " day" ++ plural days)
    else result in
  let result :=
    if gt hours (of_Z 0)
    then Common.push result (toString hours ++ " hour" ++ plural hours)
    else result in
  let result :=
    if gt minutes (of_Z 0)
    then Common.push result (toString minutes ++ " minute" ++ plural minutes)
    else result in
  Val.toString (Val.or (VStr (Str.join " " result)) (VStr "0 minutes")).

(** [formatUptime] of [run.js] (both programs) and [part_000]. *)
Definition formatUptime (seconds : number) : string :=
  let seconds := Math_floor seconds in
  formatUptime_parts seconds.

(** [formatUptime] of [part_001]. *)
Definition formatUptime_oldest (seconds : number) : string :=
  formatUptime_parts seconds.

End Double.

(** ** The formatters, statement by statement *)

Module Script.

Import Num Val Host.

(** The arrays a run has created, by address. *)
Definition heap : Type := list (list value).

(** A statement reads the host and the heap; it yields a value or an
    exception, the heap it leaves and the events it performed. *)
Definition S (A : Type) : Type :=
  World -> heap -> result A * heap * list event.

Definition ret {A} (a : A) : S A := fun _ h => (Ok a, h, []).

Definition bind {A B} (m : S A) (f : A -> S B) : S B :=
  fun w h =>
    match m w h with
    | (Ok a, h', t) =>
        match f a w h' with
        | (r, h'', t') => (r, h'', (t ++ t')%list)
        end
    | (Throw e, h', t) => (Throw e, h', t)
    end.

(** A call that may raise, as [toFixed] does. *)
Definition lift {A} (r : result A) : S A := fun _ h => (r, h, []).

Fixpoint update (r : nat) (f : list value -> list value) (h : heap) : heap :=
  match h, r with
  | [], _ => []
  | l :: tl, O => f l :: tl
  | l :: tl, Datatypes.S r' => l :: update r' f tl
  end.

(** An array literal creates an array. *)
Definition array_literal (items : list value) : S nat :=
  fun _ h => (Ok (length h), (h ++ [items])%list, []).

(** [arr.push(v)] changes the array in place. *)
Definition push (arr : nat) (v : value) : S unit :=
  fun _ h => (Ok tt, update arr (fun l => (l ++ [v])%list) h, []).

(** [arr.join(sep)] *)
Definition join (arr : nat) (sep : string) : S string :=
  fun _ h => (Ok (Str.join sep (map Double.to_string (nth arr h []))), h, []).

(** [arr[i]] *)
Definition index (arr : nat) (i : number) : S value :=
  fun _ h => (Ok (Val.index (nth arr h []) i), h, []).

Definition when (c : bool) (m : S unit) : S unit := if c then m else ret tt.

Declare Scope script_scope.
Delimit Scope script_scope with script.
Notation "x <- m ;; k" := (bind m (fun x => k))
  (at level 61, m at next level, right associativity) : script_scope.
Notation "m ;; k" := (bind m (fun _ => k))
  (at level 61, right associativity) : script_scope.
Local Open Scope script_scope.

(** [formatBytes] of [run.js]:
<<
  if (bytes === 0 || isNaN(bytes)) return '0B';
  const k = 1024, dm = decimals < 0 ? 0 : decimals;
  const sizes = ['B', 'K', 'M', 'G', 'T'];
  const i = Math.floor(Math.log(bytes) / Math.log(k));
  return parseFloat((bytes / Math.pow(k, i)).toFixed(dm)) + sizes[i];
>> *)
Definition formatBytes (bytes : value) (decimals : Z) : S value :=
  if (Val.is_zero bytes || Val.isNaN bytes)%bool then ret (VStr "0B")
  else
    let k := 1024%Z in
    let dm := if (decimals <? 0)%Z then 0%Z else decimals in
    sizes <- array_literal [VStr "B"; VStr "K"; VStr "M"; VStr "G"; VStr "T"] ;;
    let i :=
      Math_floor (Double.div (Double.Math_log (Double.toNumber bytes))
                    (Double.Math_log (of_Z k))) in
    s <- lift (Double.toFixed dm (Double.div (Double.toNumber bytes)
                                    (Double.Math_pow k i))) ;;
    unit <- index sizes i ;;
    ret (Double.plus_values (VNum (Double.parseFloat s)) unit).

(** [formatUptime] of [run.js]:
<<
  seconds = Math.floor(seconds);
  const days = Math.floor(seconds / 86400);
  const hours = Math.floor((seconds % 86400) / 3600);
  const minutes = Math.floor((seconds % 3600) / 60);
  const result = [];
  if (days > 0) result.push(`${days} day${days > 1 ? 's' : ''}`);
  if (hours > 0) result.push(`${hours} hour${hours > 1 ? 's' : ''}`);
  if (minutes > 0) result.push(`${minutes} minute${minutes > 1 ? 's' : ''}`);
  return result.join(' ') || '0 minutes';
>> *)
Definition formatUptime (seconds : number) : S string :=
  let seconds := Math_floor seconds in
  let days := Math_floor (Double.div seconds (of_Z 86400)) in
  let hours :=
    Math_floor (Double.div (rem seconds (of_Z 86400)) (of_Z 3600)) in
  let minutes := Math_floor (Double.div (rem seconds (of_Z 3600)) (of_Z 60)) in
  result <- array_literal [] ;;
  when (gt days (of_Z 0))
    (push result (VStr (Double.toString days ++ " day"
                        ++ (if gt days (of_Z 1) then "s" else "")))) ;;
  when (gt hours (of_Z 0))
    (push result (VStr (Double.toString hours ++ " hour"
                        ++ (if gt hours (of_Z 1) then "s" else "")))) ;;
  when (gt minutes (of_Z 0))
    (push result (VStr (Double.toString minutes ++ " minute"
                        ++ (if gt minutes (of_Z 1) then "s" else "")))) ;;
  joined <- join result " " ;;
  ret (Val.toString (Val.or (VStr joined) (VStr "0 minutes"))).

End Script.

(** * Properties *)

Import Num Val Host Props.

(** ** Running a computation *)

Ltac run_m :=
  cbv beta delta [result_of events_of bind try_catch ret throw lift ask emit
    consult
    console_clear console_log console_error spawn process_exit execPromise
    text sized address] in *.

Lemma bind_run {A B} (m : M A) (f : A -> M B) (w : World) :
  bind m f w =
  match m w with
  | (Ok a, t) => (fst (f a w), (t ++ snd (f a w))%list)
  | (Throw e, t) => (Throw e, t)
  end.
Proof.
  unfold bind. destruct (m w) as [[a | e] t]; [destruct (f a w) |]; reflexivity.
Qed.

Lemma try_catch_run {A} (m : M A) (h : string -> M A) (w : World) :
  try_catch m h w =
  match m w with
  | (Ok a, t) => (Ok a, t)
  | (Throw e, t) => (fst (h e w), (t ++ snd (h e w))%list)
  end.
Proof.
  unfold try_catch. destruct (m w) as [[a | e] t]; [| destruct (h e w)];
    reflexivity.
Qed.

(** ** The formatters *)

(** C10 (part_001): with a NaN byte count the oldest revision of
    [formatBytes], which tests [bytes === 0] only, returns the number NaN and
    not the string ['0B']; the three later copies, which also test
    [isNaN(bytes)], return ['0B'] whatever the number of decimals.  On a host
    where [free] prints an empty line the swap figures of [part_001] are
    ['0B'] and NaN, those of [part_000] ['0B'] twice. *)
Theorem formatBytes_NaN :
  Part001.formatBytes (VNum NaN) 1 = Ok (VNum NaN) /\
  Part001.formatBytes (VNum NaN) 1 <> Ok (VStr "0B") /\
  (forall decimals, Common.formatBytes (VNum NaN) decimals = Ok (VStr "0B")) /\
  result_of Part001.getSwapInfo Sample.silent
    = Ok {| Usage.total := VStr "0B"; Usage.used := VNum NaN |} /\
  result_of Part000.getSwapInfo Sample.silent
    = Ok {| Usage.total := VStr "0B"; Usage.used := VStr "0B" |}.
Proof.
  split; [reflexivity |]. split; [discriminate |].
  split; [intros decimals; reflexivity |]. split; reflexivity.
Qed.

Lemma update_fresh (h : Script.heap) (l : list value)
    (f : list value -> list value) :
  Script.update (length h) f (h ++ [l])%list = (h ++ [f l])%list.
Proof. induction h as [| x h IH]; simpl; [| rewrite IH]; reflexivity. Qed.

Lemma nth_fresh (h : Script.heap) (l : list value) :
  nth (length h) (h ++ [l])%list [] = l.
Proof. rewrite app_nth2, Nat.sub_diag; [reflexivity | lia]. Qed.

(** C4: [formatBytes] and [formatUptime], run statement by statement on a
    heap of arrays, are pure.  A call returns what a function of the
    arguments alone gives, whatever the host and whatever the heap; it
    performs no event; and it leaves every array of the heap as it found
    it -- all it does to the heap is to add the one array it creates
    ([sizes], [result]), which it alone has filled.  So two calls with
    equal arguments, on any two hosts and heaps, return the same. *)
Theorem formatters_pure (bytes : value) (decimals : Z) (seconds : number)
    (w w' : World) (h h' : Script.heap) :
  (exists created,
      Script.formatBytes bytes decimals w h
      = (Double.formatBytes bytes decimals, (h ++ created)%list, [])) /\
  (exists created,
      Script.formatUptime seconds w h
      = (Ok (Double.formatUptime seconds), (h ++ created)%list, [])) /\
  fst (fst (Script.formatBytes bytes decimals w h))
  = fst (fst (Script.formatBytes bytes decimals w' h')) /\
  fst (fst (Script.formatUptime seconds w h))
  = fst (fst (Script.formatUptime seconds w' h')).
Proof.
  assert (Hb : forall w h, exists created,
             Script.formatBytes bytes decimals w h
             = (Double.formatBytes bytes decimals, (h ++ created)%list, [])).
  { clear. intros w h.
    unfold Script.formatBytes, Double.formatBytes, Double.formatBytes_scaled.
    destruct (Val.is_zero bytes || Val.isNaN bytes)%bool.
    - exists []. now rewrite app_nil_r.
    - exists [Common.sizes].
      cbv beta delta [Script.bind Script.ret Script.lift Script.index
                        Script.array_literal]. cbv beta iota zeta.
      destruct (Double.toFixed _ _) as [s | e]; [| reflexivity].
      now rewrite nth_fresh. }
  assert (Hu : forall w h, exists created,
             Script.formatUptime seconds w h
             = (Ok (Double.formatUptime seconds), (h ++ created)%list, [])).
  { clear. intros w h.
    unfold Script.formatUptime, Double.formatUptime,
      Double.formatUptime_parts, Double.plural, Common.push, Script.when.
    set (t := Math_floor seconds).
    set (days := Math_floor (Double.div t (of_Z 86400))).
    set (hours := Math_floor (Double.div (rem t (of_Z 86400)) (of_Z 3600))).
    set (minutes := Math_floor (Double.div (rem t (of_Z 3600)) (of_Z 60))).
    cbv beta delta [Script.bind Script.ret Script.join Script.push
                      Script.array_literal]. cbv beta iota zeta.
    destruct (gt days (of_Z 0)), (gt hours (of_Z 0)), (gt minutes (of_Z 0));
      cbv beta iota zeta;
      rewrite ?update_fresh, ?nth_fresh; cbn [app map Double.to_string];
      eexists; reflexivity. }
  split; [apply Hb |]. split; [apply Hu |]. split.
  - destruct (Hb w h) as [c ->], (Hb w' h') as [c' ->]. reflexivity.
  - destruct (Hu w h) as [c ->], (Hu w' h') as [c' ->]. reflexivity.
Qed.

(** ** Dependency installation *)

Ltac reduce := cbn beta iota zeta delta [negb andb orb fst snd].

Ltac by_cases_on_exec w c :=
  let H := fresh "Hexec" in
  destruct (child_process_exec w c) eqn:H; reduce.

Section Installation.

Variable w : World.

Local Abbreviation node_modules :=
  (fs_existsSync w "/home/container/node_modules").
Local Abbreviation package :=
  (fs_existsSync w "/home/container/package.json").

(** The commands of [ensureNodeModules] in the second program of [run.js]. *)
Lemma npm_start_install_commands :
  commands (events_of RunNpmStart.ensureNodeModules w) =
    (if node_modules then []
     else match child_process_exec w RunNpmStart.install_command with
          | Ok _ => [RunNpmStart.install_command]
          | Throw _ =>
              [RunNpmStart.install_command; RunNpmStart.reinstall_command]
          end) /\
  installs (events_of RunNpmStart.ensureNodeModules w) = negb node_modules.
Proof.
  unfold RunNpmStart.ensureNodeModules. run_m.
  destruct node_modules; reduce; [split; reflexivity |].
  by_cases_on_exec w RunNpmStart.install_command; [split; reflexivity |].
  by_cases_on_exec w RunNpmStart.reinstall_command; split; reflexivity.
Qed.

(** The commands and the result of [ensureNodeModules] in the launcher. *)
Lemma launcher_install_run :
  commands (events_of RunLauncher.ensureNodeModules w) =
    (if (package && negb node_modules)%bool
     then [RunLauncher.install_command] else []) /\
  installs (events_of RunLauncher.ensureNodeModules w)
    = (package && negb node_modules)%bool /\
  result_of RunLauncher.ensureNodeModules w =
    Ok (package &&
        (node_modules ||
         is_ok (child_process_exec w RunLauncher.install_command)))%bool.
Proof.
  unfold RunLauncher.ensureNodeModules. run_m.
  destruct package; reduce; [| repeat split; reflexivity].
  destruct node_modules; reduce; [repeat split; reflexivity |].
  by_cases_on_exec w RunLauncher.install_command; repeat split; reflexivity.
Qed.

(** C6: [npm install] runs exactly when [node_modules] is missing -- in the
    launcher, when moreover [package.json] is present; when [node_modules]
    exists no command runs at all, and without [package.json] the launcher
    runs nothing and returns [false]. *)
Theorem install_iff_node_modules_missing :
  installs (events_of RunNpmStart.ensureNodeModules w) = negb node_modules /\
  installs (events_of RunLauncher.ensureNodeModules w)
    = (package && negb node_modules)%bool /\
  (if node_modules
   then commands (events_of RunNpmStart.ensureNodeModules w) = [] /\
        commands (events_of RunLauncher.ensureNodeModules w) = []
   else True) /\
  (if package then True
   else commands (events_of RunLauncher.ensureNodeModules w) = [] /\
        result_of RunLauncher.ensureNodeModules w = Ok false).
Proof.
  destruct launcher_install_run as (Hc & Hi & Hr).
  destruct npm_start_install_commands as (Hn & Hj).
  split; [exact Hj |]. split; [exact Hi |]. split.
  - destruct node_modules; [| exact I]. split; [exact Hn |].
    rewrite Hc. now rewrite andb_false_r.
  - destruct package; [exact I |]. split; [exact Hc | exact Hr].
Qed.

End Installation.

(** ** Commands run by the collectors *)

Ltac split_cases :=
  repeat (reduce;
          match goal with
          | |- context [match ?x with Ok _ => _ | Throw _ => _ end] =>
              destruct x eqn:?
          | |- context [if ?b then _ else _] => destruct b eqn:?
          end).

(** [getCPUUsage] of [part_000] runs [top] after [vmstat] exactly when
    [vmstat] succeeds with a figure that is not a percentage. *)
Lemma part_000_cpu_commands (w : World) :
  commands (events_of Part000.getCPUUsage w) =
  match child_process_exec w Part000.vmstat_command with
  | Ok out =>
      if not_a_percentage out
      then [Part000.vmstat_command; Part000.top_command]
      else [Part000.vmstat_command]
  | Throw _ => [Part000.vmstat_command]
  end.
Proof.
  unfold Part000.getCPUUsage, not_a_percentage. run_m.
  by_cases_on_exec w Part000.vmstat_command; [| reflexivity].
  destruct (_ || _ || _)%bool; reduce.
  - by_cases_on_exec w Part000.top_command; [| reflexivity].
    split_cases; reflexivity.
  - split_cases; reflexivity.
Qed.

(** Every other collector runs its one command and nothing else. *)
Lemma collector_commands (p : program) (m : metric) (c : M answer)
    (w : World) :
  collector p m = Some c ->
  (p, m) <> (part_000, cpu_usage) ->
  commands (events_of c w) = [command_of p m].
Proof.
  intros Hc Hne.
  destruct p, m; simpl in Hc; try discriminate; try congruence;
    injection Hc as <-;
    cbv beta delta [command_of
      RunLauncher.getCPUUsage
      RunNpmStart.getCPUUsage RunNpmStart.getSwapInfo RunNpmStart.getDiskInfo
      RunNpmStart.getPublicIPInfo RunNpmStart.getCPUModel
      RunNpmStart.getKernelVersion
      Part000.getSwapInfo Part000.getDiskInfo
      Part000.getPublicIPInfo Part000.getCPUModel Part000.getKernelVersion
      Part001.getCPUUsage Part001.getSwapInfo Part001.getDiskInfo
      Part001.getPublicIPInfo Part001.getCPUModel Part001.getKernelVersion
      Metrics.getPublicIPInfo Metrics.getDiskInfo Metrics.getCPUModel
      Metrics.getKernelVersion];
    run_m;
    match goal with
    | |- context [child_process_exec w ?c] => by_cases_on_exec w c
    end;
    split_cases; reflexivity.
Qed.


(** C2, as amended: a second command follows a failure in two places only,
    and once: [ensureNodeModules] of the second program of [run.js]
    reinstalls after a failed [npm install], and [getCPUUsage] of [part_000]
    turns to [top] when [vmstat] prints no percentage.  The launcher installs
    at most once, every other collector runs its one command, and the
    functions that start the child run none. *)
Theorem second_attempt_only_in_two_places (w : World) :
  commands (events_of RunNpmStart.ensureNodeModules w) =
    (if fs_existsSync w "/home/container/node_modules" then []
     else match child_process_exec w RunNpmStart.install_command with
          | Ok _ => [RunNpmStart.install_command]
          | Throw _ =>
              [RunNpmStart.install_command; RunNpmStart.reinstall_command]
          end) /\
  commands (events_of Part000.getCPUUsage w) =
    match child_process_exec w Part000.vmstat_command with
    | Ok out =>
        if not_a_percentage out
        then [Part000.vmstat_command; Part000.top_command]
        else [Part000.vmstat_command]
    | Throw _ => [Part000.vmstat_command]
    end /\
  commands (events_of RunLauncher.ensureNodeModules w) =
    (if (fs_existsSync w "/home/container/package.json" &&
         negb (fs_existsSync w "/home/container/node_modules"))%bool
     then [RunLauncher.install_command] else []) /\
  (forall p m c,
     collector p m = Some c ->
     (p, m) <> (part_000, cpu_usage) ->
     commands (events_of c w) = [command_of p m]) /\
  commands (events_of RunLauncher.startApp w) = [] /\
  commands (events_of RunNpmStart.startApp w) = [] /\
  commands (events_of Part000.startBash w) = [] /\
  commands (events_of Part001.startBash w) = [].
Proof.
  split; [apply npm_start_install_commands |].
  split; [apply part_000_cpu_commands |].
  split; [apply launcher_install_run |].
  split; [intros p m c; apply collector_commands |].
  split; [| repeat split].
  unfold RunLauncher.startApp. run_m. split_cases; reflexivity.
Qed.

(** C2, as stated, fails: on a host without [node_modules] where every
    command fails, [ensureNodeModules] of the second program of [run.js]
    follows the failed installation by a second one; on a host whose commands
    print an empty line, [getCPUUsage] of [part_000] follows [vmstat] by
    [top]. *)
Lemma a_failed_install_is_retried :
  child_process_exec Sample.offline RunNpmStart.install_command
    = Throw ("Command failed: " ++ RunNpmStart.install_command) /\
  commands (events_of RunNpmStart.ensureNodeModules Sample.offline)
    = [RunNpmStart.install_command; RunNpmStart.reinstall_command] /\
  Str.includes RunNpmStart.install_command RunNpmStart.reinstall_command
    = true /\
  commands (events_of Part000.getCPUUsage Sample.silent)
    = [Part000.vmstat_command; Part000.top_command].
Proof. repeat split. Qed.

(** ** Compositional facts about runs *)

Section Composition.

Context {A B : Type}.
Variables (m : M A) (f : A -> M B) (h : string -> M A).

Lemma total_bind : total m -> (forall a, total (f a)) -> total (bind m f).
Proof.
  intros Hm Hf w. specialize (Hm w). unfold result_of in *.
  rewrite bind_run. destruct (m w) as [[a | e] t]; [apply Hf | discriminate].
Qed.

Lemma total_try_catch : (forall e, total (h e)) -> total (try_catch m h).
Proof.
  intros Hh w. unfold result_of. rewrite try_catch_run.
  destruct (m w) as [[a | e] t]; [reflexivity | apply Hh].
Qed.

Lemma only_bind (P : event -> bool) :
  only P m -> (forall a, only P (f a)) -> only P (bind m f).
Proof.
  intros Hm Hf w. specialize (Hm w). unfold events_of in *.
  rewrite bind_run. destruct (m w) as [[a | e] t]; simpl in *; [| exact Hm].
  rewrite forallb_app, Hm. apply Hf.
Qed.

Lemma only_try_catch (P : event -> bool) :
  only P m -> (forall e, only P (h e)) -> only P (try_catch m h).
Proof.
  intros Hm Hh w. specialize (Hm w). unfold events_of in *.
  rewrite try_catch_run. destruct (m w) as [[a | e] t]; simpl in *;
    [exact Hm |].
  rewrite forallb_app, Hm. apply Hh.
Qed.

Lemma eventually_now (Q : event -> Prop) :
  eventually Q m -> eventually Q (bind m f).
Proof.
  intros Hm w. specialize (Hm w). unfold events_of in *.
  rewrite bind_run. destruct (m w) as [[a | e] t]; simpl in *; [| exact Hm].
  apply Exists_app. now left.
Qed.

Lemma eventually_later (Q : event -> Prop) :
  total m -> (forall a, eventually Q (f a)) -> eventually Q (bind m f).
Proof.
  intros Ht Hf w. specialize (Ht w). unfold events_of, result_of in *.
  rewrite bind_run. destruct (m w) as [[a | e] t]; simpl in *;
    [| discriminate].
  apply Exists_app. right. apply Hf.
Qed.

(** When the first part never raises, the events of a sequence are those of
    its parts, one after the other. *)
Lemma events_seq (k : M B) :
  total m ->
  forall w, events_of (bind m (fun _ => k)) w
            = (events_of m w ++ events_of k w)%list.
Proof.
  intros Ht w. specialize (Ht w). unfold events_of, result_of in *.
  rewrite bind_run. destruct (m w) as [[a | e] t]; simpl in *;
    [reflexivity | discriminate].
Qed.

End Composition.

Lemma total_ret {A} (a : A) : total (ret a).
Proof. intro w. reflexivity. Qed.

Lemma total_ask {A} (g : World -> A) : total (ask g).
Proof. intro w. reflexivity. Qed.

Lemma total_emit (e : event) : total (emit e).
Proof. intro w. reflexivity. Qed.

Lemma total_lift {A} (r : result A) : is_ok r = true -> total (lift r).
Proof. intros H w. exact H. Qed.

Lemma only_quiet (P : event -> bool) {A} (m : M A) :
  (forall w, events_of m w = []) -> only P m.
Proof. intros H w. now rewrite H. Qed.

Lemma only_emit (P : event -> bool) (e : event) :
  P e = true -> only P (emit e).
Proof. intros H w. simpl. now rewrite H. Qed.

Lemma only_exec (P : event -> bool) (c : string) :
  P (Exec c) = true -> only P (execPromise c).
Proof. intros H w. simpl. now rewrite H. Qed.

Lemma eventually_emit (Q : event -> Prop) (e : event) :
  Q e -> eventually Q (emit e).
Proof. intros H w. now constructor. Qed.

(** [formatBytes] with one decimal never raises. *)
Lemma formatBytes_ok (bytes : value) :
  is_ok (Common.formatBytes bytes 1) = true.
Proof.
  unfold Common.formatBytes. destruct (_ || _)%bool; reflexivity.
Qed.

Lemma formatBytes_oldest_ok (bytes : value) :
  is_ok (Part001.formatBytes bytes 1) = true.
Proof.
  unfold Part001.formatBytes. destruct (Val.is_zero bytes); reflexivity.
Qed.

Ltac unfold_programs :=
  cbv beta delta [
    RunLauncher.getCPUUsage RunLauncher.getMemoryInfo
    RunLauncher.displaySystemInfo RunLauncher.ensureNodeModules
    RunLauncher.startApp RunLauncher.main RunLauncher.formatBytes
    RunNpmStart.getCPUUsage RunNpmStart.getMemoryInfo
    RunNpmStart.getSwapInfo RunNpmStart.getDiskInfo
    RunNpmStart.getPublicIPInfo RunNpmStart.getCPUModel
    RunNpmStart.getKernelVersion RunNpmStart.displaySystemInfo
    RunNpmStart.ensureNodeModules RunNpmStart.startApp RunNpmStart.main
    RunNpmStart.formatBytes
    Part000.getCPUUsage Part000.getMemoryInfo Part000.getSwapInfo
    Part000.getDiskInfo Part000.getPublicIPInfo Part000.getCPUModel
    Part000.getKernelVersion Part000.displaySystemInfo Part000.startBash
    Part000.main Part000.run Part000.formatBytes
    Part001.getCPUUsage Part001.getMemoryInfo Part001.getSwapInfo
    Part001.getDiskInfo Part001.getPublicIPInfo Part001.getCPUModel
    Part001.getKernelVersion Part001.displaySystemInfo Part001.startBash
    Part001.main Part001.run
    Metrics.getPublicIPInfo Metrics.getMemoryInfo Metrics.getDiskInfo
    Metrics.getCPUModel Metrics.getOSInfo Metrics.getKernelVersion
    Metrics.printInfo Metrics.printAll
    console_clear console_log console_error spawn process_exit].

(** Discharges [total m] for the programs' computations. *)
Ltac prove_total :=
  unfold_programs;
  repeat (intros;
          first
            [ progress cbv beta zeta
            | apply total_ret | apply total_ask | apply total_emit
            | apply total_try_catch
            | apply total_bind
            | apply total_lift;
              first [ apply formatBytes_ok | apply formatBytes_oldest_ok
                    | reflexivity ]
            | match goal with
              | |- total (if ?c then _ else _) => destruct c
              end ]).

(** Discharges [only P m] for the programs' computations. *)
Ltac prove_only :=
  unfold_programs;
  repeat (intros;
          first
            [ progress cbv beta zeta
            | apply only_emit; reflexivity
            | apply only_exec; reflexivity
            | apply only_quiet; intro; reflexivity
            | apply only_try_catch
            | apply only_bind
            | match goal with
              | |- only _ (if ?c then _ else _) => destruct c
              end ]).

(** ** Fallbacks of the collectors *)

Lemma toFixed_one (x : number) : toFixed 1 x = Ok (toFixed_digits 1 x).
Proof. reflexivity. Qed.









(** ** Order of a run *)

Lemma launcher_banner_total : total RunLauncher.displaySystemInfo.
Proof. prove_total. Qed.

Lemma npm_start_banner_total : total RunNpmStart.displaySystemInfo.
Proof. prove_total. Qed.

Lemma part_000_banner_total : total Part000.displaySystemInfo.
Proof. prove_total. Qed.

Lemma part_001_banner_total : total Part001.displaySystemInfo.
Proof. prove_total. Qed.

Lemma launcher_install_total : total RunLauncher.ensureNodeModules.
Proof. prove_total. Qed.

Lemma npm_start_install_total : total RunNpmStart.ensureNodeModules.
Proof. prove_total. Qed.

Lemma launcher_startApp_no_install : only not_install RunLauncher.startApp.
Proof. prove_only. Qed.

(** ** Lines of the banner *)

(** Finds a line of the given kind among the events of a banner. *)
Ltac find_line_in :=
  cbv beta zeta; intros;
  first
    [ apply eventually_emit; do 2 eexists; reflexivity
    | apply eventually_now; solve [find_line_in]
    | apply eventually_later; [solve [prove_total] | solve [find_line_in]] ].

Ltac find_line := unfold_programs; find_line_in.

#[local] Opaque Metrics.info_line.

Lemma npm_start_banner_line (label : string) :
  In label metric_labels ->
  eventually (is_info_line label) RunNpmStart.displaySystemInfo.
Proof.
  intros H. simpl in H.
  repeat destruct H as [<- | H]; try contradiction; find_line.
Qed.

Lemma part_000_banner_line (label : string) :
  In label metric_labels ->
  eventually (is_info_line label) Part000.displaySystemInfo.
Proof.
  intros H. simpl in H.
  repeat destruct H as [<- | H]; try contradiction; find_line.
Qed.

Lemma part_001_banner_line (label : string) :
  In label metric_labels ->
  eventually (is_info_line label) Part001.displaySystemInfo.
Proof.
  intros H. simpl in H.
  repeat destruct H as [<- | H]; try contradiction; find_line.
Qed.

#[local] Transparent Metrics.info_line.

(** Replaces a call of [formatBytes] with one decimal by its value. *)
Ltac formatBytes_value :=
  match goal with
  | |- context [RunLauncher.formatBytes ?v 1] =>
      let H := fresh in
      pose proof (formatBytes_ok v) as H;
      change (Common.formatBytes v 1) with (RunLauncher.formatBytes v 1) in H;
      destruct (RunLauncher.formatBytes v 1); [clear H | discriminate H];
      reduce
  end.

(** The launcher logs its ten lines and no other. *)
Lemma launcher_banner_text (w : World) :
  exists total used cpuUsage,
    logged (events_of RunLauncher.displaySystemInfo w)
    = short_banner (Str.substring1 (process_version w)) total used cpuUsage
        (RunLauncher.formatUptime (os_uptime w)).
Proof.
  unfold RunLauncher.displaySystemInfo, RunLauncher.getCPUUsage,
    RunLauncher.getMemoryInfo, Metrics.getMemoryInfo. run_m.
  by_cases_on_exec w RunLauncher.top_command;
    [destruct (Num.isNaN _); reduce |];
    repeat formatBytes_value; do 3 eexists; reflexivity.
Qed.

(** C3, as amended: the three full banners (second program of [run.js],
    [part_000], [part_001]) print a line for each metric class -- CPU usage,
    memory, swap, disk, the public address (ISP, IPv4, country, region),
    kernel and OS; the short banner of the launcher consists of ten lines,
    which show, besides the version of Node.js and the uptime, the memory
    and the CPU usage only. *)
Theorem banner_lines (w : World) :
  (forall label, In label metric_labels ->
     Exists (is_info_line label) (events_of RunNpmStart.displaySystemInfo w) /\
     Exists (is_info_line label) (events_of Part000.displaySystemInfo w) /\
     Exists (is_info_line label) (events_of Part001.displaySystemInfo w)) /\
  (exists total used cpuUsage,
     logged (events_of RunLauncher.displaySystemInfo w)
     = short_banner (Str.substring1 (process_version w)) total used cpuUsage
         (RunLauncher.formatUptime (os_uptime w))).
Proof.
  split.
  - intros label H. repeat split.
    + now apply npm_start_banner_line.
    + now apply part_000_banner_line.
    + now apply part_001_banner_line.
  - apply launcher_banner_text.
Qed.

(** C3, as stated, fails: the banner of the launcher has no line about
    swap, disk, the public address or the kernel. *)
Lemma launcher_banner_is_short :
  logged (events_of RunLauncher.displaySystemInfo Sample.offline)
    = short_banner "18.20.4" "8G" "6G" "50.0" "1 day 1 hour 1 minute" /\
  mentions "Swap" (events_of RunLauncher.displaySystemInfo Sample.offline)
    = false /\
  mentions "Disk" (events_of RunLauncher.displaySystemInfo Sample.offline)
    = false /\
  mentions "IP" (events_of RunLauncher.displaySystemInfo Sample.offline)
    = false /\
  mentions "Kernel" (events_of RunLauncher.displaySystemInfo Sample.offline)
    = false /\
  mentions "Memory" (events_of RunLauncher.displaySystemInfo Sample.offline)
    = true.
Proof. repeat split. Qed.

(** ** The launcher *)

Lemma endsWith_js_nonempty (f : string) :
  Str.endsWith ".js" f = true -> f <> "".
Proof. intros H ->. discriminate H. Qed.

(** Closes the four parts of the dispatch once the run is a constant. *)
Ltac settle :=
  repeat split; intros; try discriminate;
  repeat match goal with
         | H : _ /\ _ |- _ => destruct H
         | H : In _ _ |- _ => destruct H as [H | H]
         | H : _ \/ _ |- _ => destruct H
         end; try discriminate; try contradiction.

(** Decides every truthiness test of the goal. *)
Ltac by_truthiness :=
  repeat (cbn [Val.get Val.get_opt]; reduce;
          match goal with
          | |- context [truthy ?v] =>
              let E := fresh "E" in
              destruct (truthy v) eqn:E; cbn [truthy] in E; try discriminate E
          end);
  cbn [Val.get Val.get_opt]; reduce.

(** C7, as amended: when what the launcher reads is readable
    ([package.json], if present, parses to something other than [null]; the
    home directory can be listed when it has to be searched), [startApp]
    spawns the one child of the dispatch -- [npm start] when [package.json]
    has a truthy [scripts.start], [node .] when it has none, [node index.js]
    or else [node] on the first [*.js] file when there is no [package.json]
    -- and it spawns nothing exactly when there is neither [package.json] nor
    a [.js] file, which is also exactly when it logs that no file was
    found. *)
Theorem startApp_dispatch (w : World) (Hr : Reference.readable w) :
  result_of RunLauncher.startApp w = Ok tt /\
  spawns (events_of RunLauncher.startApp w)
    = Reference.child_list (Reference.expected_child w) /\
  (spawns (events_of RunLauncher.startApp w) = [] <->
   fs_existsSync w Reference.pkgPath = false /\
   fs_existsSync w Reference.indexPath = false /\
   find (Str.endsWith ".js") (Reference.listing w) = None) /\
  (In (Log Reference.no_js_line) (events_of RunLauncher.startApp w) <->
   spawns (events_of RunLauncher.startApp w) = []).
Proof.
  unfold Reference.readable, Reference.expected_child, Reference.start_script,
    Reference.listing, Reference.pkgPath, Reference.indexPath, Reference.home,
    Reference.no_js_line in *.
  unfold RunLauncher.startApp, RunLauncher.find_js. run_m.
  destruct (fs_existsSync w "/home/container/package.json"); reduce.
  - destruct Hr as (text & pkg & -> & -> & Hnull & Hundef). reduce.
    destruct pkg as [| | b | n | s | items | fields]; try congruence;
      cbn [Val.get Val.get_opt]; reduce;
      try destruct (lookup "scripts" fields)
        as [| | b | n | s | items | start];
      by_truthiness; settle.
  - destruct (fs_existsSync w "/home/container/index.js"); reduce.
    + settle.
    + destruct Hr as (files & ->). reduce.
      destruct (find (Str.endsWith ".js") files) as [f |] eqn:Hf.
      * apply find_some in Hf. destruct Hf as [_ Hf].
        apply endsWith_js_nonempty in Hf.
        destruct f as [| c f]; [congruence |]. cbn. settle.
      * cbn. repeat split; intros; auto.
Qed.

(** A host where the theorem applies: [package.json] has a start script. *)
Lemma startApp_dispatch_with_start :
  Reference.readable Sample.with_start /\
  spawns (events_of RunLauncher.startApp Sample.with_start)
    = [("npm", ["start"])].
Proof.
  assert (Hr : Reference.readable Sample.with_start).
  { exists "{...}", (VObj [("scripts", VObj [("start", VStr "node bot.js")])]).
    repeat split; discriminate. }
  split; [exact Hr |].
  exact (proj1 (proj2 (startApp_dispatch Sample.with_start Hr))).
Defined.

(** C7, as stated, fails twice.  With an empty [package.json] the launcher
    raises the parser's exception and spawns nothing, although the file is
    there; with a [scripts.start] entry that is the empty string it runs
    [node .], not [npm start]. *)
Lemma startApp_outside_the_dispatch :
  fs_existsSync Sample.empty_package Reference.pkgPath = true /\
  spawns (events_of RunLauncher.startApp Sample.empty_package) = [] /\
  result_of RunLauncher.startApp Sample.empty_package
    = Throw "SyntaxError: Unexpected end of JSON input" /\
  Reference.start_script Sample.blank_start = VStr "" /\
  spawns (events_of RunLauncher.startApp Sample.blank_start)
    = [("node", ["."])].
Proof. repeat split. Qed.

(** ** Arithmetic of the number model *)

Section NumberFacts.

Local Open Scope Q_scope.

Lemma Qfloor_unique (x : Q) (k : Z) :
  inject_Z k <= x -> x < inject_Z (k + 1) -> Qfloor x = k.
Proof.
  intros Hle Hlt. apply Z.le_antisymm.
  - apply Z.lt_succ_r. rewrite Zlt_Qlt.
    apply Qle_lt_trans with x; [apply Qfloor_le | exact Hlt].
  - rewrite <- (Qfloor_Z k). now apply Qfloor_resp_le.
Qed.

(** Flooring before or after a division by a positive integer is the same. *)
Lemma Qfloor_div (x : Q) (n : Z) :
  (0 < n)%Z -> Qfloor (x / inject_Z n) = (Qfloor x / n)%Z.
Proof.
  intros Hn.
  assert (Hq : 0 < inject_Z n).
  { change (inject_Z 0 < inject_Z n). now rewrite <- Zlt_Qlt. }
  apply Qfloor_unique.
  - apply Qle_shift_div_l; [exact Hq |].
    apply Qle_trans with (inject_Z (Qfloor x)); [| apply Qfloor_le].
    rewrite <- inject_Z_mult, <- Zle_Qle, Z.mul_comm.
    apply Z.mul_div_le. exact Hn.
  - apply Qlt_shift_div_r; [exact Hq |].
    apply Qlt_le_trans with (inject_Z (Qfloor x + 1)); [apply Qlt_floor |].
    rewrite <- inject_Z_mult, <- Zle_Qle.
    pose proof (Z.mul_succ_div_gt (Qfloor x) n Hn). lia.
Qed.

Lemma Qfloor_sub_Z (x : Q) (z : Z) :
  Qfloor (x - inject_Z z) = (Qfloor x - z)%Z.
Proof.
  unfold Qminus. apply Qfloor_unique.
  - replace (Qfloor x - z)%Z with (Qfloor x + - z)%Z by lia.
    rewrite inject_Z_plus, inject_Z_opp.
    apply Qplus_le_l. apply Qfloor_le.
  - replace (Qfloor x - z + 1)%Z with ((Qfloor x + 1) + - z)%Z by lia.
    rewrite inject_Z_plus, inject_Z_opp.
    apply Qplus_lt_l. apply Qlt_floor.
Qed.

Lemma Qis_zero_inject (n : Z) : Qis_zero (inject_Z n) = (n =? 0)%Z.
Proof.
  unfold Qis_zero, Qeq_bool. simpl. now rewrite Z.mul_1_r.
Qed.

Lemma Qneg_nonneg (x : Q) : 0 <= x -> Qneg x = false.
Proof.
  intros H. unfold Qneg, Qlt_bool.
  apply negb_false_iff. now apply Qle_bool_iff.
Qed.

Lemma Qnonneg_div (x : Q) (n : Z) : 0 <= x -> (0 < n)%Z -> 0 <= x / inject_Z n.
Proof.
  intros Hx Hn. apply Qle_shift_div_l.
  - change (inject_Z 0 < inject_Z n). now rewrite <- Zlt_Qlt.
  - now rewrite Qmult_0_l.
Qed.

Variable s : Q.
Hypothesis s_nonneg : 0 <= s.

(** [Math.floor(s / b)] *)
Lemma floor_div (b : Z) :
  (0 < b)%Z ->
  Math_floor (div (Fin s) (of_Z b)) = of_Z (Qfloor s / b).
Proof.
  intros Hb. unfold div, of_Z, Math_floor.
  rewrite Qis_zero_inject. destruct (Z.eqb_spec b 0) as [-> | _]; [lia |].
  unfold of_Z. f_equal. f_equal.
  rewrite (Qfloor_comp _ _ (Qred_correct _)). now apply Qfloor_div.
Qed.

(** [Math.floor((s % b) / c)] *)
Lemma floor_rem_div (b c : Z) :
  (0 < b)%Z -> (0 < c)%Z ->
  Math_floor (div (rem (Fin s) (of_Z b)) (of_Z c))
  = of_Z ((Qfloor s mod b) / c).
Proof.
  intros Hb Hc. unfold rem, div, of_Z, Math_floor.
  rewrite !Qis_zero_inject.
  destruct (Z.eqb_spec b 0) as [-> | _]; [lia |].
  destruct (Z.eqb_spec c 0) as [-> | _]; [lia |].
  unfold of_Z. f_equal. f_equal.
  rewrite (Qfloor_comp _ _ (Qred_correct _)).
  rewrite Qfloor_div by exact Hc. f_equal.
  rewrite (Qfloor_comp _ _ (Qred_correct _)).
  unfold Qtrunc. rewrite Qneg_nonneg by (now apply Qnonneg_div).
  rewrite Qfloor_div by exact Hb.
  rewrite <- inject_Z_mult, Qfloor_sub_Z.
  rewrite Z.mod_eq by lia. reflexivity.
Qed.

End NumberFacts.

Lemma gt_of_Z (a b : Z) : gt (of_Z a) (of_Z b) = (b <? a)%Z.
Proof.
  unfold gt, lt, of_Z, Qlt_bool, Qle_bool. simpl.
  rewrite !Z.mul_1_r. apply eq_sym, Z.ltb_antisym.
Qed.

Lemma append_nil_r (s : string) : s ++ "" = s.
Proof. induction s as [| c s IH]; simpl; [| rewrite IH]; reflexivity. Qed.

(** An integer that is not negative prints as its decimal digits. *)
Lemma toString_of_Z (n : Z) : (0 <= n)%Z -> Num.toString (of_Z n) = Str.dec n.
Proof.
  intros Hn. unfold Num.toString, of_Z.
  rewrite Qneg_nonneg
    by (change (inject_Z 0 <= inject_Z n)%Q; now rewrite <- Zle_Qle).
  assert (Ha : Qabs (inject_Z n) = inject_Z n).
  { unfold Qabs, inject_Z. now rewrite Z.abs_eq. }
  rewrite Ha, Qfloor_Z.
  replace (Qis_zero (inject_Z n - inject_Z n)) with true.
  - simpl. now rewrite append_nil_r.
  - symmetry. apply Qeq_bool_iff. ring.
Qed.

(** ** Uptime *)

Lemma component_nonneg (n : Z) (unit : string) :
  (0 <= n)%Z ->
  Reference.component n unit =
  if (0 <? n)%Z
  then [Str.dec n ++ " " ++ unit ++ (if (1 <? n)%Z then "s" else "")]
  else [].
Proof.
  intros Hn. unfold Reference.component.
  destruct (Z.eqb_spec n 0), (Z.ltb_spec 0 n); try reflexivity; lia.
Qed.

(** The parts of an uptime, for a number of seconds that is not negative. *)
Lemma formatUptime_parts_text (s : Q) :
  (0 <= s)%Q ->
  Common.formatUptime_parts (Fin s) = Reference.uptime_text s.
Proof.
  intros Hs.
  assert (Ht : (0 <= Qfloor s)%Z).
  { rewrite <- (Qfloor_Z 0). now apply Qfloor_resp_le. }
  unfold Common.formatUptime_parts, Reference.uptime_text, Common.plural.
  rewrite (floor_div s 86400) by lia.
  rewrite (floor_rem_div s Hs 86400 3600) by lia.
  rewrite (floor_rem_div s Hs 3600 60) by lia.
  set (d := (Qfloor s / 86400)%Z).
  set (h := ((Qfloor s mod 86400) / 3600)%Z).
  set (m := ((Qfloor s mod 3600) / 60)%Z).
  assert (Hd : (0 <= d)%Z) by (apply Z.div_pos; lia).
  assert (Hh : (0 <= h)%Z).
  { apply Z.div_pos; [| lia]. apply Z.mod_pos_bound. lia. }
  assert (Hm : (0 <= m)%Z).
  { apply Z.div_pos; [| lia]. apply Z.mod_pos_bound. lia. }
  rewrite !component_nonneg by assumption.
  rewrite !gt_of_Z, !toString_of_Z by assumption.
  generalize (Str.dec d) (Str.dec h) (Str.dec m). intros x y z.
  destruct (0 <? d)%Z, (0 <? h)%Z, (0 <? m)%Z;
    destruct (1 <? d)%Z, (1 <? h)%Z, (1 <? m)%Z;
    try reflexivity;
    destruct x, y, z; reflexivity.
Qed.

(** ** Byte counts, with the logarithm taken exactly *)

Section ExactBytes.

Local Open Scope Q_scope.

Lemma Qpow_1024 (n : nat) :
  inject_Z (1024 ^ Z.of_nat (S n))
  == inject_Z (1024 ^ Z.of_nat n) * inject_Z 1024.
Proof.
  rewrite <- inject_Z_mult. rewrite Nat2Z.inj_succ, Z.pow_succ_r by lia.
  now rewrite Z.mul_comm.
Qed.

(** [log_up] counts the powers of 1024 below [q]. *)
Lemma log_up_spec (n fuel : nat) (q : Q) :
  (n <= fuel)%nat ->
  inject_Z (1024 ^ Z.of_nat n) <= q ->
  q < inject_Z (1024 ^ Z.of_nat (S n)) ->
  log_up fuel 1024 q = Z.of_nat n.
Proof.
  revert fuel q. induction n as [| n IH]; intros fuel q Hf Hlo Hhi.
  - destruct fuel as [| fuel]; [reflexivity |]. cbn [log_up].
    destruct (Qle_bool (inject_Z 1024) q) eqn:E; [| reflexivity].
    apply Qle_bool_iff in E. exfalso.
    apply (Qlt_irrefl q). eapply Qlt_le_trans; [exact Hhi | exact E].
  - destruct fuel as [| fuel]; [lia |]. cbn [log_up].
    assert (H1024 : 0 < inject_Z 1024) by reflexivity.
    destruct (Qle_bool (inject_Z 1024) q) eqn:E.
    + rewrite (IH fuel (q / inject_Z 1024)); [lia | lia | |].
      * apply Qle_shift_div_l; [exact H1024 |]. now rewrite <- Qpow_1024.
      * apply Qlt_shift_div_r; [exact H1024 |]. now rewrite <- Qpow_1024.
    + exfalso. assert (Hq : inject_Z 1024 <= q).
      { eapply Qle_trans; [| exact Hlo]. rewrite Qpow_1024.
        rewrite <- (Qmult_1_l (inject_Z 1024)) at 1.
        apply Qmult_le_compat_r; [| now apply Qlt_le_weak].
        change (inject_Z 1 <= inject_Z (1024 ^ Z.of_nat n)).
        rewrite <- Zle_Qle.
        pose proof (Z.pow_pos_nonneg 1024 (Z.of_nat n)). lia. }
      apply Qle_bool_iff in Hq. congruence.
Qed.

Variables bytes i : Z.
Hypothesis i_nonneg : (0 <= i)%Z.
Hypothesis lower : (1024 ^ i <= bytes)%Z.
Hypothesis upper : (bytes < 1024 ^ (i + 1))%Z.

Lemma bytes_pos : (0 < bytes)%Z.
Proof. pose proof (Z.pow_pos_nonneg 1024 i). lia. Qed.

(** The exact logarithm finds the unit. *)
Lemma floor_log_unit : floor_log 1024 (of_Z bytes) = of_Z i.
Proof.
  pose proof bytes_pos as Hb.
  unfold floor_log, of_Z.
  rewrite Qneg_nonneg
    by (change (inject_Z 0 <= inject_Z bytes); rewrite <- Zle_Qle; lia).
  rewrite Qis_zero_inject. destruct (Z.eqb_spec bytes 0); [lia |].
  unfold of_Z. f_equal. f_equal. unfold ilog.
  replace (Qle_bool 1 (inject_Z bytes)) with true.
  2:{ symmetry. apply Qle_bool_iff.
      change (inject_Z 1 <= inject_Z bytes). rewrite <- Zle_Qle. lia. }
  rewrite <- (Z2Nat.id i) by exact i_nonneg.
  apply log_up_spec.
  - cbn [Qnum inject_Z].
    assert (H2 : (2 ^ i <= bytes)%Z).
    { eapply Z.le_trans; [| exact lower].
      apply Z.pow_le_mono_l. lia. }
    apply Z.log2_le_pow2 in H2; [| exact Hb]. lia.
  - rewrite Z2Nat.id by exact i_nonneg. now rewrite <- Zle_Qle.
  - rewrite Nat2Z.inj_succ, Z2Nat.id by exact i_nonneg.
    now rewrite <- Zlt_Qlt.
Qed.

End ExactBytes.

(** ** Decimal texts *)

Section DecimalTexts.

Import Decimal.

Lemma string_of_uint_empty (u : uint) :
  NilEmpty.string_of_uint u = "" -> u = Nil.
Proof. destruct u; simpl; intros H; [reflexivity | discriminate ..]. Qed.

(** A number that is not negative prints as a non-empty string of digits. *)
Lemma dec_digits (z : Z) :
  (0 <= z)%Z ->
  exists u, u <> Nil /\ Str.dec z = NilEmpty.string_of_uint u /\ Z.of_uint u = z.
Proof.
  intros Hz. destruct z as [| p | p]; [| | lia].
  - exists (D0 Nil). repeat split. discriminate.
  - exists (Pos.to_uint p).
    pose proof (DecimalPos.Unsigned.to_uint_nonnil p) as Hn.
    split; [exact Hn |]. split.
    + unfold Str.dec. cbn [Z.to_int NilZero.string_of_int].
      unfold NilZero.string_of_uint.
      destruct (Pos.to_uint p); [contradiction | reflexivity ..].
    + exact (DecimalZ.of_to (Z.pos p)).
Qed.

Lemma span_digits_uint (u : uint) (r : string) :
  Str.span_digits r = ("", r) ->
  Str.span_digits (NilEmpty.string_of_uint u ++ r)
  = (NilEmpty.string_of_uint u, r).
Proof.
  intros Hr. induction u as [| u IH | u IH | u IH | u IH | u IH | u IH
                             | u IH | u IH | u IH | u IH];
    [exact Hr | ..];
    cbn [NilEmpty.string_of_uint String.append Str.span_digits];
    change (Str.is_digit _) with true; cbv iota; now rewrite IH.
Qed.

Lemma undec_uint (u : uint) :
  u <> Nil -> Str.undec (NilEmpty.string_of_uint u) = Z.of_uint u.
Proof.
  intros Hu. unfold Str.undec, NilZero.uint_of_string.
  destruct (NilEmpty.string_of_uint u) as [| c s] eqn:E.
  - now apply string_of_uint_empty in E.
  - rewrite <- E. now rewrite NilEmpty.usu.
Qed.

(** Reading back an integer part and one decimal digit. *)
Lemma parseFloat_one_decimal (a b : Z) :
  (0 <= a)%Z -> (0 <= b <= 9)%Z ->
  exists y,
    Lit.parseFloat (Str.dec a ++ "." ++ Str.padStart0 1 (Str.dec b)) = Fin y /\
    (y == inject_Z a + inject_Z b / 10)%Q.
Proof.
  intros Ha Hb.
  destruct (dec_digits a Ha) as (u & Hu & -> & <-).
  exists (Qred ((inject_Z (Z.of_uint u) +
                 inject_Z b / inject_Z (10 ^ Z.of_nat 1)) * Qpower 10 0)).
  split; [| rewrite Qred_correct; now rewrite Qmult_1_r].
  assert (Hb' : (b = 0 \/ b = 1 \/ b = 2 \/ b = 3 \/ b = 4 \/ b = 5 \/ b = 6
                 \/ b = 7 \/ b = 8 \/ b = 9)%Z) by lia.
  unfold Lit.parseFloat.
  replace (Str.trimStart (NilEmpty.string_of_uint u ++ _))
    with (NilEmpty.string_of_uint u ++ "." ++ Str.padStart0 1 (Str.dec b))
    by (destruct u; [contradiction | reflexivity ..]).
  replace (Lit.parse_signed (NilEmpty.string_of_uint u ++ _))
    with (Lit.parse_unsigned
            (NilEmpty.string_of_uint u ++ "." ++ Str.padStart0 1 (Str.dec b)))
    by (destruct u; [contradiction | reflexivity ..]).
  unfold Lit.parse_unsigned.
  replace (Str.startsWith "Infinity" (NilEmpty.string_of_uint u ++ _))
    with false by (destruct u; [contradiction | reflexivity ..]).
  rewrite span_digits_uint
    by (repeat destruct Hb' as [-> | Hb']; try subst b; reflexivity).
  rewrite undec_uint by exact Hu.
  destruct (NilEmpty.string_of_uint u) eqn:E;
    [now apply string_of_uint_empty in E |].
  repeat destruct Hb' as [-> | Hb']; try subst b; reflexivity.
Qed.

End DecimalTexts.

Section OneDecimal.

Local Open Scope Q_scope.

Lemma frac_digits_S (fuel : nat) (r : Q) :
  frac_digits (S fuel) r =
  if Qis_zero r then ""
  else Str.dec (Qfloor (r * 10))
       ++ frac_digits fuel (r * 10 - inject_Z (Qfloor (r * 10))).
Proof. reflexivity. Qed.

Lemma Qis_zero_true (x : Q) : x == 0 -> Qis_zero x = true.
Proof. intros H. now apply Qeq_bool_iff. Qed.

Lemma Qis_zero_false (x : Q) : ~ x == 0 -> Qis_zero x = false.
Proof.
  intros H. unfold Qis_zero. destruct (Qeq_bool x 0) eqn:E; [| reflexivity].
  now apply Qeq_bool_iff in E.
Qed.

Lemma tenth_bounds (b : Z) :
  (0 <= b <= 9)%Z -> 0 <= inject_Z b / 10 /\ inject_Z b / 10 < 1.
Proof.
  intros Hb. split.
  - apply Qle_shift_div_l; [reflexivity |]. rewrite Qmult_0_l.
    change (inject_Z 0 <= inject_Z b). rewrite <- Zle_Qle. lia.
  - apply Qlt_shift_div_r; [reflexivity |].
    change (inject_Z b < inject_Z 10). rewrite <- Zlt_Qlt. lia.
Qed.

(** A number with one decimal digit prints as its integer part and, when
    the digit is not zero, a point and the digit. *)
Lemma toString_tenths (y : Q) (a b : Z) :
  (0 <= a)%Z -> (0 <= b <= 9)%Z ->
  y == inject_Z a + inject_Z b / 10 ->
  Num.toString (Fin y)
  = (Str.dec a ++ if (b =? 0)%Z then "" else "." ++ Str.dec b)%string.
Proof.
  intros Ha Hb Hy. destruct (tenth_bounds b Hb) as [Hlo Hhi].
  assert (Hya : inject_Z a <= y).
  { rewrite Hy. rewrite <- (Qplus_0_r (inject_Z a)) at 1.
    now apply Qplus_le_r. }
  assert (Hy0 : 0 <= y).
  { eapply Qle_trans; [| exact Hya].
    change (inject_Z 0 <= inject_Z a). now rewrite <- Zle_Qle. }
  assert (Hm : Qabs y == y) by now apply Qabs_pos.
  assert (Hf : Qfloor (Qabs y) = a).
  { rewrite (Qfloor_comp _ _ Hm). apply Qfloor_unique; [exact Hya |].
    rewrite Hy, inject_Z_plus. now apply Qplus_lt_r. }
  assert (Hr : Qabs y - inject_Z a == inject_Z b / 10).
  { rewrite Hm, Hy. ring. }
  unfold Num.toString. rewrite Qneg_nonneg by exact Hy0. rewrite Hf.
  cbn [String.append]. f_equal.
  destruct (Z.eqb_spec b 0) as [-> | Hb0].
  - now rewrite Qis_zero_true by (rewrite Hr; reflexivity).
  - assert (Hnz : ~ inject_Z b / 10 == 0).
    { intros H. unfold Qeq in H. simpl in H. lia. }
    rewrite Qis_zero_false by (now rewrite Hr).
    rewrite (frac_digits_S 19), Qis_zero_false by (now rewrite Hr).
    assert (Hd : (Qabs y - inject_Z a) * 10 == inject_Z b).
    { rewrite Hr. field. }
    rewrite (Qfloor_comp _ _ Hd), Qfloor_Z.
    rewrite (frac_digits_S 18), Qis_zero_true.
    + now rewrite append_nil_r.
    + rewrite Hd. ring.
Qed.

End OneDecimal.

Section ExactFormat.

Local Open Scope Q_scope.

(** [toFixed(1)] of a quotient of integers: ten times the quotient, rounded
    half up, shown with its last digit after the point. *)
Lemma toFixed_quotient (x : Q) (num den : Z) :
  (0 <= num < 10 ^ 21)%Z -> (1 <= den)%Z ->
  x == inject_Z num / inject_Z den ->
  let n := ((num * 20 + den) / (2 * den))%Z in
  toFixed_digits 1 (Fin x)
  = (Str.dec (n / 10) ++ "." ++ Str.padStart0 1 (Str.dec (n mod 10)))%string.
Proof.
  intros Hnum Hden Hx n.
  assert (Hd : 0 < inject_Z den).
  { change (inject_Z 0 < inject_Z den). rewrite <- Zlt_Qlt. lia. }
  assert (Hx0 : 0 <= x).
  { rewrite Hx. apply Qle_shift_div_l; [exact Hd |]. rewrite Qmult_0_l.
    change (inject_Z 0 <= inject_Z num). rewrite <- Zle_Qle. lia. }
  assert (Hm : Qabs x == x) by now apply Qabs_pos.
  assert (Hlt : x < inject_Z (10 ^ 21)).
  { rewrite Hx. apply Qlt_shift_div_r; [exact Hd |].
    rewrite <- inject_Z_mult, <- Zlt_Qlt. nia. }
  unfold toFixed_digits.
  replace (Qle_bool (inject_Z (10 ^ 21)) (Qabs x)) with false.
  2:{ symmetry. destruct (Qle_bool _ _) eqn:E; [| reflexivity].
      apply Qle_bool_iff in E. rewrite Hm in E.
      exfalso. apply (Qlt_irrefl x). eapply Qlt_le_trans; eassumption. }
  rewrite Qneg_nonneg by exact Hx0.
  change (1 =? 0)%Z with false. cbv iota.
  replace (Qfloor (Qabs x * inject_Z (10 ^ 1) + (1 # 2))) with n;
    [reflexivity |].
  subst n. rewrite Zdiv_Qdiv. apply Qfloor_comp.
  rewrite Hm, Hx, inject_Z_plus, !inject_Z_mult.
  change (inject_Z (10 ^ 1)) with (inject_Z 10).
  field. intros H. rewrite H in Hd. discriminate Hd.
Qed.

Variables bytes i : Z.
Hypothesis i_nonneg : (0 <= i)%Z.
Hypothesis lower : (1024 ^ i <= bytes)%Z.
Hypothesis upper : (bytes < 1024 ^ (i + 1))%Z.
Hypothesis below_five : (bytes < 1024 ^ 5)%Z.

Lemma unit_below_five : (i < 5)%Z.
Proof.
  apply (Z.pow_lt_mono_r_iff 1024); lia.
Qed.

(** With the logarithm taken exactly, [formatBytes] of a whole number of
    bytes below [1024^5] is the count in its unit, rounded to one decimal
    and without a trailing [.0], followed by the letter of the unit. *)
Lemma formatBytes_exact :
  Common.formatBytes (VNum (of_Z bytes)) 1
  = Ok (VStr (Reference.one_decimal bytes i ++ Reference.suffix i)%string).
Proof.
  pose proof (bytes_pos bytes i i_nonneg lower) as Hb.
  pose proof unit_below_five as Hi.
  unfold Common.formatBytes.
  replace (Val.is_zero (VNum (of_Z bytes))) with false.
  2:{ symmetry. unfold Val.is_zero, Num.eq, of_Z.
      change (Qeq_bool (inject_Z bytes) 0) with (Qis_zero (inject_Z bytes)).
      rewrite Qis_zero_inject. apply Z.eqb_neq. lia. }
  change (Val.isNaN (VNum (of_Z bytes))) with false. cbv iota.
  unfold Common.formatBytes_scaled. cbn [toNumber Z.ltb Z.compare].
  rewrite (floor_log_unit bytes i i_nonneg lower upper).
  set (P := (1024 ^ i)%Z) in *.
  assert (HP : (1 <= P)%Z) by (subst P; pose proof (Z.pow_pos_nonneg 1024 i); lia).
  assert (Hpow : Math_pow 1024 (of_Z i) = Fin (inject_Z P)).
  { subst P. assert (Hc : (i = 0 \/ i = 1 \/ i = 2 \/ i = 3 \/ i = 4)%Z) by lia.
    repeat destruct Hc as [-> | Hc]; try subst i; reflexivity. }
  rewrite Hpow. unfold div at 1. unfold of_Z at 1.
  rewrite Qis_zero_inject. destruct (Z.eqb_spec P 0) as [| _]; [lia |].
  rewrite toFixed_one.
  rewrite (toFixed_quotient _ bytes P);
    [| lia | exact HP | apply Qred_correct].
  set (n := ((bytes * 20 + P) / (2 * P))%Z).
  assert (Hn : (0 <= n)%Z) by (subst n; apply Z.div_pos; lia).
  assert (Ha : (0 <= n / 10)%Z) by (apply Z.div_pos; lia).
  assert (Hd : (0 <= n mod 10 <= 9)%Z).
  { pose proof (Z.mod_pos_bound n 10). lia. }
  destruct (parseFloat_one_decimal (n / 10) (n mod 10) Ha Hd) as (y & -> & Hy).
  assert (Hs : Val.index Common.sizes (of_Z i) = VStr (Reference.suffix i)).
  { assert (Hc : (i = 0 \/ i = 1 \/ i = 2 \/ i = 3 \/ i = 4)%Z) by lia.
    repeat destruct Hc as [-> | Hc]; try subst i; reflexivity. }
  rewrite Hs. cbn [Val.add Val.toString].
  rewrite (toString_tenths y (n / 10) (n mod 10) Ha Hd Hy).
  unfold Reference.one_decimal. fold P. fold n.
  destruct (n mod 10 =? 0)%Z; [now rewrite append_nil_r | reflexivity].
Qed.

End ExactFormat.

(** The table of units ends at [T]: from [1024^5] bytes on the index is past
    it, [sizes[i]] is [undefined] and the sum is the number NaN. *)
Lemma formatBytes_past_the_units :
  Common.formatBytes (VNum (of_Z (1024 ^ 5))) 1 = Ok (VNum NaN) /\
  Common.formatBytes (VNum (of_Z (1024 ^ 5 - 1))) 1 = Ok (VStr "1024T").
Proof. split; reflexivity. Qed.

(** ** Rounding to a double *)

Section Rounding.

Local Open Scope Q_scope.

Import Double.

Lemma pow2_pos (e : Z) : 0 < pow2 e.
Proof. apply Qpower_0_lt. reflexivity. Qed.

Lemma pow2_plus (a b : Z) : pow2 (a + b) == pow2 a * pow2 b.
Proof. apply Qpower_plus. discriminate. Qed.

Lemma pow2_le (a b : Z) : (a <= b)%Z -> pow2 a <= pow2 b.
Proof. intros H. apply Qpower_le_compat_l; [exact H | discriminate]. Qed.

Lemma pow2_lt (a b : Z) : (a < b)%Z -> pow2 a < pow2 b.
Proof. intros H. apply Qpower_lt_compat_l; [exact H | reflexivity]. Qed.

Lemma pow2_lt_inv (a b : Z) : pow2 a < pow2 b -> (a < b)%Z.
Proof. intros H. apply (Qpower_lt_compat_l_inv 2); [exact H | reflexivity]. Qed.

Lemma pow2_Z (e : Z) : (0 <= e)%Z -> pow2 e == inject_Z (2 ^ e).
Proof. intros H. unfold pow2. now rewrite Zpower_Qpower. Qed.

Lemma pow2_opp (e : Z) : pow2 (- e) == / pow2 e.
Proof. apply Qpower_opp. Qed.

(** Division by [2^e] with [e <= 0] is multiplication by an integer. *)
Lemma div_pow2 (x : Q) (e : Z) :
  (e <= 0)%Z -> x / pow2 e == x * inject_Z (2 ^ (- e)).
Proof.
  intros He. unfold Qdiv. rewrite <- pow2_opp, pow2_Z by lia. reflexivity.
Qed.

Lemma mul_pow2 (x : Q) (e : Z) :
  (e <= 0)%Z -> x * pow2 e == x / inject_Z (2 ^ (- e)).
Proof.
  intros He. unfold Qdiv. rewrite <- pow2_Z by lia.
  rewrite <- pow2_opp. now rewrite Z.opp_involutive.
Qed.

(** *** The binade of a positive rational *)

Lemma inject_Z_pos (n : Z) : (0 < n)%Z -> 0 < inject_Z n.
Proof. intros H. change (inject_Z 0 < inject_Z n). now rewrite <- Zlt_Qlt. Qed.

Lemma inject_Z_nonzero (n : Z) : (0 < n)%Z -> ~ inject_Z n == 0.
Proof.
  intros H E. apply inject_Z_pos in H. rewrite E in H. discriminate H.
Qed.

(** Quotients of positive integers are compared by cross-multiplication. *)
Lemma Qdiv_le_cross (a b n d : Z) :
  (0 < b)%Z -> (0 < d)%Z -> (a * d <= n * b)%Z ->
  inject_Z a / inject_Z b <= inject_Z n / inject_Z d.
Proof.
  intros Hb Hd H.
  apply Qle_shift_div_l; [now apply inject_Z_pos |].
  setoid_replace (inject_Z a / inject_Z b * inject_Z d)
    with (inject_Z a * inject_Z d / inject_Z b)
    by (field; now apply inject_Z_nonzero).
  apply Qle_shift_div_r; [now apply inject_Z_pos |].
  now rewrite <- !inject_Z_mult, <- Zle_Qle.
Qed.

Lemma Qdiv_lt_cross (a b n d : Z) :
  (0 < b)%Z -> (0 < d)%Z -> (a * d < n * b)%Z ->
  inject_Z a / inject_Z b < inject_Z n / inject_Z d.
Proof.
  intros Hb Hd H.
  apply Qlt_shift_div_l; [now apply inject_Z_pos |].
  setoid_replace (inject_Z a / inject_Z b * inject_Z d)
    with (inject_Z a * inject_Z d / inject_Z b)
    by (field; now apply inject_Z_nonzero).
  apply Qlt_shift_div_r; [now apply inject_Z_pos |].
  now rewrite <- !inject_Z_mult, <- Zlt_Qlt.
Qed.

(** [2^(a - b)] as a quotient of integers. *)
Lemma pow2_minus (a b : Z) :
  (0 <= a)%Z -> (0 <= b)%Z ->
  pow2 (a - b) == inject_Z (2 ^ a) / inject_Z (2 ^ b).
Proof.
  intros Ha Hb. replace (a - b)%Z with (a + - b)%Z by lia.
  rewrite pow2_plus, pow2_opp, !pow2_Z by lia. reflexivity.
Qed.

Lemma floor_log2_lower (q : Q) : 0 < q -> pow2 (floor_log2 q) <= q.
Proof.
  intros Hq. unfold floor_log2.
  destruct (Qle_bool _ q) eqn:E; [now apply Qle_bool_iff in E |].
  destruct q as [n d]. cbn [Qnum Qden] in *.
  assert (Hn : (0 < n)%Z).
  { unfold Qlt in Hq. simpl in Hq. lia. }
  set (a := Z.log2 n) in *. set (b := Z.log2 (Zpos d)) in *.
  assert (Ha : (0 <= a)%Z) by apply Z.log2_nonneg.
  assert (Hb : (0 <= b)%Z) by apply Z.log2_nonneg.
  pose proof (Z.log2_spec n Hn) as [Hn1 _]. fold a in Hn1.
  pose proof (Z.log2_spec (Zpos d) (Pos2Z.is_pos d)) as [_ Hd2].
  fold b in Hd2. replace (Z.succ b) with (b + 1)%Z in Hd2 by lia.
  replace (a - b - 1)%Z with (a - (b + 1))%Z by lia.
  rewrite pow2_minus by lia. rewrite (Qmake_Qdiv n d).
  assert (H2 : (0 < 2 ^ a)%Z) by (apply Z.pow_pos_nonneg; lia).
  apply Qdiv_le_cross; [apply Z.pow_pos_nonneg; lia | lia | nia].
Qed.

Lemma floor_log2_upper (q : Q) : 0 < q -> q < pow2 (floor_log2 q + 1).
Proof.
  intros Hq. unfold floor_log2.
  destruct (Qle_bool _ q) eqn:E.
  - destruct q as [n d]. cbn [Qnum Qden] in *.
    assert (Hn : (0 < n)%Z).
    { unfold Qlt in Hq. simpl in Hq. lia. }
    set (a := Z.log2 n) in *. set (b := Z.log2 (Zpos d)) in *.
    assert (Ha : (0 <= a)%Z) by apply Z.log2_nonneg.
    assert (Hb : (0 <= b)%Z) by apply Z.log2_nonneg.
    pose proof (Z.log2_spec n Hn) as [_ Hn2]. fold a in Hn2.
    pose proof (Z.log2_spec (Zpos d) (Pos2Z.is_pos d)) as [Hd1 _].
    fold b in Hd1. replace (Z.succ a) with (a + 1)%Z in Hn2 by lia.
    replace (a - b + 1)%Z with ((a + 1) - b)%Z by lia.
    rewrite pow2_minus by lia. rewrite (Qmake_Qdiv n d).
    assert (H2 : (0 < 2 ^ b)%Z) by (apply Z.pow_pos_nonneg; lia).
    apply Qdiv_lt_cross; [lia | exact H2 | nia].
  - replace (Z.log2 (Qnum q) - Z.log2 (Z.pos (Qden q)) - 1 + 1)%Z
      with (Z.log2 (Qnum q) - Z.log2 (Z.pos (Qden q)))%Z by lia.
    apply Qnot_le_lt. intros H. apply Qle_bool_iff in H. congruence.
Qed.

Lemma floor_log2_below (q : Q) (E : Z) :
  0 < q -> q < pow2 (E + 1) -> (floor_log2 q <= E)%Z.
Proof.
  intros Hq Hlt.
  assert (H : pow2 (floor_log2 q) < pow2 (E + 1)).
  { eapply Qle_lt_trans; [now apply floor_log2_lower | exact Hlt]. }
  apply pow2_lt_inv in H. lia.
Qed.

Lemma floor_log2_above (q : Q) (E : Z) :
  0 < q -> pow2 E <= q -> (E <= floor_log2 q)%Z.
Proof.
  intros Hq Hle.
  assert (H : pow2 E < pow2 (floor_log2 q + 1)).
  { eapply Qle_lt_trans; [exact Hle | now apply floor_log2_upper]. }
  apply pow2_lt_inv in H. lia.
Qed.

(** *** Rounding to an integer *)

Lemma rne_floor (m : Q) : (Qfloor m <= rne m <= Qfloor m + 1)%Z.
Proof.
  unfold rne. destruct (Qcompare _ _); [destruct (Z.even _) | |]; lia.
Qed.

Lemma rne_comp (m m' : Q) : m == m' -> rne m = rne m'.
Proof.
  intros H. unfold rne. rewrite (Qfloor_comp _ _ H).
  assert (Hc : Qcompare (m - inject_Z (Qfloor m')) (1 # 2)
               = Qcompare (m' - inject_Z (Qfloor m')) (1 # 2))
    by now rewrite H.
  now rewrite Hc.
Qed.

Lemma rne_above (m : Q) (N : Z) : inject_Z N <= m -> (N <= rne m)%Z.
Proof.
  intros H. pose proof (rne_floor m) as [Hf _].
  apply Z.le_trans with (Qfloor m); [| exact Hf].
  rewrite <- (Qfloor_Z N). now apply Qfloor_resp_le.
Qed.

Lemma rne_below (m : Q) (N : Z) :
  m + (1 # 2) < inject_Z N -> (rne m < N)%Z.
Proof.
  intros H. pose proof (Qfloor_le m) as Hf.
  assert (Hr : (1 # 2) <= m - inject_Z (Qfloor m) ->
               (Qfloor m + 1 < N)%Z).
  { intros Hr. rewrite Zlt_Qlt, inject_Z_plus.
    change (inject_Z 1) with 1. lra. }
  assert (Hlt : (Qfloor m < N)%Z).
  { rewrite Zlt_Qlt. lra. }
  unfold rne.
  destruct (Qcompare (m - inject_Z (Qfloor m)) (1 # 2)) eqn:E.
  - apply Qeq_alt in E.
    assert (Hn : (Qfloor m + 1 < N)%Z) by (apply Hr; lra).
    destruct (Z.even _); lia.
  - exact Hlt.
  - apply Qgt_alt in E. apply Hr. lra.
Qed.

(** *** Rounding to a double *)

Lemma Qabs_of_pos (x : Q) : 0 < x -> Qabs x = x.
Proof.
  intros H. destruct x as [n d]. unfold Qabs.
  rewrite Z.abs_eq; [reflexivity |].
  unfold Qlt in H. simpl in H. lia.
Qed.

Lemma Qis_zero_pos (x : Q) : 0 < x -> Qis_zero x = false.
Proof.
  intros H. apply Qis_zero_false. intros E. rewrite E in H. discriminate H.
Qed.

(** A quotient that stays clear of the next integer by more than half a
    unit in the last place rounds to a double with the same integer part:
    [x] lies in a binade at or below [E], between [k] and [k + 1]. *)
Lemma round_between (x : Q) (k E : Z) :
  0 < x -> (-1022 <= E <= 52)%Z -> (0 <= k)%Z ->
  x < pow2 (E + 1) ->
  inject_Z k <= x ->
  x + pow2 (E - 53) < inject_Z (k + 1) ->
  inject_Z k <= round x /\ round x < inject_Z (k + 1).
Proof.
  intros Hx HE Hk Hbin Hlo Hhi.
  unfold round. rewrite (Qis_zero_pos x Hx). rewrite Qred_correct.
  unfold ulp_exp. rewrite (Qabs_of_pos x Hx).
  pose proof (floor_log2_below x E Hx Hbin) as He.
  set (ue := (Z.max (floor_log2 x) (-1022) - 52)%Z).
  assert (Hue : (ue <= E - 52)%Z) by (subst ue; lia).
  assert (Hue0 : (ue <= 0)%Z) by lia.
  set (P := (2 ^ (- ue))%Z).
  assert (HP : (0 < P)%Z) by (subst P; apply Z.pow_pos_nonneg; lia).
  assert (HPq : 0 < inject_Z P).
  { change (inject_Z 0 < inject_Z P). now rewrite <- Zlt_Qlt. }
  rewrite (rne_comp _ _ (div_pow2 x ue Hue0)). fold P.
  rewrite (mul_pow2 _ ue Hue0). fold P.
  set (n := rne (x * inject_Z P)).
  split.
  - apply Qle_shift_div_l; [exact HPq |].
    rewrite <- inject_Z_mult, <- Zle_Qle. subst n.
    apply rne_above. rewrite inject_Z_mult.
    apply Qmult_le_compat_r; [exact Hlo | now apply Qlt_le_weak].
  - apply Qlt_shift_div_r; [exact HPq |].
    rewrite <- inject_Z_mult, <- Zlt_Qlt. subst n.
    apply rne_below. rewrite inject_Z_mult.
    assert (Hu : pow2 (ue - 1) <= pow2 (E - 53)) by (apply pow2_le; lia).
    assert (Hhalf : pow2 (ue - 1) * inject_Z P == 1 # 2).
    { subst P. rewrite <- pow2_Z by lia. rewrite <- pow2_plus.
      replace (ue - 1 + - ue)%Z with (-1)%Z by lia. reflexivity. }
    rewrite <- Hhalf. rewrite <- Qmult_plus_distr_l.
    apply Qmult_lt_compat_r; [exact HPq |]. lra.
Qed.

Lemma rne_Z (n : Z) : rne (inject_Z n) = n.
Proof.
  unfold rne. rewrite Qfloor_Z.
  assert (H : Qcompare (inject_Z n - inject_Z n) (1 # 2) = Lt).
  { apply Qlt_alt. setoid_replace (inject_Z n - inject_Z n) with 0 by ring.
    reflexivity. }
  now rewrite H.
Qed.

(** An integer below [2^53] is a double. *)
Lemma round_integer (t : Z) :
  (0 <= t < 2 ^ 53)%Z -> round (inject_Z t) == inject_Z t.
Proof.
  intros Ht. unfold round. rewrite Qis_zero_inject.
  destruct (Z.eqb_spec t 0) as [-> | Hne]; [reflexivity |].
  assert (Hpos : 0 < inject_Z t) by (apply inject_Z_pos; lia).
  rewrite Qred_correct. unfold ulp_exp. rewrite (Qabs_of_pos _ Hpos).
  assert (He : (floor_log2 (inject_Z t) <= 52)%Z).
  { apply floor_log2_below; [exact Hpos |].
    change (52 + 1)%Z with 53%Z. rewrite pow2_Z by lia.
    rewrite <- Zlt_Qlt. lia. }
  set (ue := (Z.max (floor_log2 (inject_Z t)) (-1022) - 52)%Z).
  assert (Hue : (ue <= 0)%Z) by (subst ue; lia).
  rewrite (rne_comp _ (inject_Z (t * 2 ^ (- ue)))).
  - rewrite rne_Z, inject_Z_mult, (mul_pow2 _ ue Hue).
    field. apply inject_Z_nonzero. apply Z.pow_pos_nonneg; lia.
  - rewrite (div_pow2 _ ue Hue). now rewrite inject_Z_mult.
Qed.

(** A double is a multiple of the unit in the last place of its binade. *)
Lemma double_grain (s : Q) :
  0 < s -> round s == s ->
  exists a : Z, s == inject_Z a * pow2 (ulp_exp s).
Proof.
  intros Hs Hr. unfold round in Hr. rewrite (Qis_zero_pos s Hs) in Hr.
  rewrite Qred_correct in Hr.
  exists (rne (s / pow2 (ulp_exp s))). now symmetry.
Qed.

(** *** Division followed by [Math.floor] *)

Lemma Qfloor_quotient (a d : Z) :
  Qfloor (inject_Z a / inject_Z d) = (a / d)%Z.
Proof. symmetry. apply Zdiv_Qdiv. Qed.

(** What the quotient of a dividend of grain [2^ue], below [2^(ue + 53)], by
    an integer between [2^c] and [2^(c+1)] rounds to has the integer part
    of the quotient. *)
Lemma round_quotient (a ue b c : Z) :
  (0 < a)%Z -> (c - 1074 <= ue <= 0)%Z -> (0 <= c)%Z ->
  inject_Z a * pow2 ue < pow2 (ue + 53) ->
  (2 ^ c <= b < 2 ^ (c + 1))%Z ->
  forall x, x == inject_Z a * pow2 ue / inject_Z b ->
  inject_Z (Qfloor x) <= round x /\ round x < inject_Z (Qfloor x + 1).
Proof.
  intros Ha Hue Hc Hr Hb x Hx0.
  set (P := (2 ^ (- ue))%Z).
  assert (HP : (0 < P)%Z) by (subst P; apply Z.pow_pos_nonneg; lia).
  assert (H2c : (0 < 2 ^ c)%Z) by (apply Z.pow_pos_nonneg; lia).
  assert (Hb0 : (0 < b)%Z) by lia.
  set (D := (P * b)%Z).
  assert (HD : (0 < D)%Z) by (subst D; nia).
  assert (Hx : x == inject_Z a / inject_Z D).
  { rewrite Hx0. subst D. rewrite (mul_pow2 _ ue) by lia. fold P.
    rewrite inject_Z_mult. field.
    split; apply inject_Z_nonzero; assumption. }
  assert (Hk : Qfloor x = (a / D)%Z).
  { rewrite (Qfloor_comp _ _ Hx). apply Qfloor_quotient. }
  set (k := Qfloor x) in *.
  assert (Hk0 : (0 <= k)%Z) by (rewrite Hk; apply Z.div_pos; lia).
  assert (Hxpos : 0 < x).
  { rewrite Hx. apply Qlt_shift_div_l; [now apply inject_Z_pos |].
    rewrite Qmult_0_l. now apply inject_Z_pos. }
  apply (round_between x k (ue + 52 - c)); try assumption; try lia.
  - (* the binade *)
    replace (ue + 52 - c + 1)%Z with ((ue + 53) + - c)%Z by lia.
    rewrite pow2_plus, pow2_opp, (pow2_Z c) by lia.
    rewrite Hx0. unfold Qdiv at 1.
    apply Qlt_le_trans with (pow2 (ue + 53) * / inject_Z b).
    + apply Qmult_lt_compat_r; [| exact Hr].
      apply Qinv_lt_0_compat. now apply inject_Z_pos.
    + apply Qmult_le_l; [apply pow2_pos |].
      apply Qle_shift_inv_l; [now apply inject_Z_pos |].
      setoid_replace (/ inject_Z b * inject_Z (2 ^ c))
        with (inject_Z (2 ^ c) / inject_Z b)
        by (field; now apply inject_Z_nonzero).
      apply Qle_shift_div_r; [now apply inject_Z_pos |].
      rewrite Qmult_1_l, <- Zle_Qle. lia.
  - subst k. apply Qfloor_le.
  - (* clear of the next integer *)
    assert (Hnext : (a + 1 <= (k + 1) * D)%Z).
    { rewrite Hk. pose proof (Z.mul_succ_div_gt a D HD). lia. }
    assert (Hstep : x + 1 / inject_Z D <= inject_Z (k + 1)).
    { rewrite Hx.
      setoid_replace (inject_Z a / inject_Z D + 1 / inject_Z D)
        with (inject_Z (a + 1) / inject_Z D)
        by (rewrite inject_Z_plus; field; now apply inject_Z_nonzero).
      apply Qle_shift_div_r; [now apply inject_Z_pos |].
      now rewrite <- inject_Z_mult, <- Zle_Qle. }
    assert (Hgap : pow2 (ue + 52 - c - 53) < 1 / inject_Z D).
    { replace (ue + 52 - c - 53)%Z with (- (- ue + (c + 1)))%Z by lia.
      rewrite pow2_opp, pow2_Z by lia.
      rewrite Z.pow_add_r by lia. fold P.
      setoid_replace (/ inject_Z (P * 2 ^ (c + 1)))
        with (inject_Z 1 / inject_Z (P * 2 ^ (c + 1)))
        by (change (inject_Z 1) with 1; field; apply inject_Z_nonzero; nia).
      change 1 with (inject_Z 1) at 1.
      apply Qdiv_lt_cross; [nia | exact HD |]. subst D. nia. }
    lra.
Qed.

(** The double division floors like the exact one. *)
Lemma floor_div_double (r : Q) (a ue b c : Z) :
  (0 <= a)%Z -> (c - 1074 <= ue <= 0)%Z -> (0 <= c)%Z ->
  r == inject_Z a * pow2 ue ->
  r < pow2 (ue + 53) ->
  (2 ^ c <= b < 2 ^ (c + 1))%Z ->
  Math_floor (Double.div (Fin r) (of_Z b))
  = Math_floor (Num.div (Fin r) (of_Z b)).
Proof.
  intros Ha Hue Hc Hr Hlt Hb.
  assert (H2c : (0 < 2 ^ c)%Z) by (apply Z.pow_pos_nonneg; lia).
  assert (Hbq : 0 < inject_Z b) by (apply inject_Z_pos; lia).
  unfold Double.div, Num.div, of_Z. rewrite Qis_zero_inject.
  destruct (Z.eqb_spec b 0) as [-> | _]; [lia |].
  cbn [rounded]. unfold of_Q.
  set (x := Qred (r / inject_Z b)).
  assert (Hx : x == inject_Z a * pow2 ue / inject_Z b).
  { subst x. rewrite Qred_correct. now rewrite Hr. }
  assert (Hround : inject_Z (Qfloor x) <= round x /\
                   round x < inject_Z (Qfloor x + 1)).
  { destruct (Z.eq_dec a 0) as [-> | Hne].
    - assert (H0 : x == 0) by (rewrite Hx; field; apply inject_Z_nonzero; lia).
      unfold round. rewrite (Qis_zero_true x H0).
      rewrite (Qfloor_comp _ _ H0). split; [apply Qle_refl | reflexivity].
    - apply (round_quotient a ue b c); try assumption; try lia.
      now rewrite <- Hr. }
  destruct Hround as [Hlo Hhi].
  assert (Hx0 : 0 <= x).
  { rewrite Hx. apply Qle_shift_div_l; [exact Hbq |]. rewrite Qmult_0_l.
    apply Qmult_le_0_compat; [| apply Qlt_le_weak, pow2_pos].
    change (inject_Z 0 <= inject_Z a). now rewrite <- Zle_Qle. }
  assert (Hk0 : (0 <= Qfloor x)%Z).
  { rewrite <- (Qfloor_Z 0). now apply Qfloor_resp_le. }
  assert (Hxr : x <= r).
  { assert (Hxb : x * inject_Z b == r).
    { subst x. rewrite Qred_correct. field. apply inject_Z_nonzero. lia. }
    assert (Hb1 : 0 <= inject_Z b - 1).
    { change 1 with (inject_Z 1). unfold Qminus.
      rewrite <- inject_Z_opp, <- inject_Z_plus.
      change (inject_Z 0 <= inject_Z (b + - 1)). rewrite <- Zle_Qle. lia. }
    pose proof (Qmult_le_0_compat _ _ Hx0 Hb1) as Hm.
    setoid_replace (x * (inject_Z b - 1)) with (x * inject_Z b - x) in Hm
      by ring.
    rewrite Hxb in Hm. lra. }
  assert (Hx53 : x < inject_Z (2 ^ 53)).
  { rewrite <- pow2_Z by lia.
    apply Qle_lt_trans with r; [exact Hxr |].
    eapply Qlt_le_trans; [exact Hlt |]. apply pow2_le. lia. }
  assert (Hk53 : (Qfloor x + 1 <= 2 ^ 53)%Z).
  { enough (Qfloor x < 2 ^ 53)%Z by lia.
    rewrite Zlt_Qlt. eapply Qle_lt_trans; [apply Qfloor_le | exact Hx53]. }
  assert (Hr0 : 0 <= round x).
  { eapply Qle_trans; [| exact Hlo].
    change (inject_Z 0 <= inject_Z (Qfloor x)). now rewrite <- Zle_Qle. }
  destruct (Qle_bool (pow2 1024) (Qabs (round x))) eqn:E.
  - exfalso. apply Qle_bool_iff in E. rewrite (Qabs_pos _ Hr0) in E.
    assert (H53 : round x < pow2 53).
    { rewrite pow2_Z by lia. eapply Qlt_le_trans; [exact Hhi |].
      now rewrite <- Zle_Qle. }
    pose proof (pow2_le 53 1024 ltac:(lia)) as Hp. lra.
  - cbn [Math_floor]. f_equal. now apply Qfloor_unique.
Qed.

(** *** Doubles as text *)

(** An integer below [2^53] is written with its digits. *)
Lemma toString_integer (n : Z) :
  (0 <= n < 2 ^ 53)%Z -> Double.toString (of_Z n) = Str.dec n.
Proof.
  intros Hn. pose proof (round_integer n Hn) as Hr.
  unfold Double.toString, of_Z. cbn [rounded]. unfold of_Q.
  set (r := round (inject_Z n)) in *.
  assert (Hn0 : 0 <= inject_Z n).
  { change (inject_Z 0 <= inject_Z n). rewrite <- Zle_Qle. lia. }
  assert (Hn53 : inject_Z n < pow2 53).
  { rewrite pow2_Z by lia. rewrite <- Zlt_Qlt. lia. }
  assert (Ha : Qabs r == inject_Z n).
  { rewrite Qabs_pos; [exact Hr | now rewrite Hr]. }
  destruct (Qle_bool (pow2 1024) (Qabs r)) eqn:E.
  { exfalso. apply Qle_bool_iff in E. rewrite Ha in E.
    pose proof (pow2_le 53 1024 ltac:(lia)) as Hp. lra. }
  assert (Hz : Qis_zero r = (n =? 0)%Z).
  { rewrite <- Qis_zero_inject. unfold Qis_zero.
    destruct (Qeq_bool r 0) eqn:E1, (Qeq_bool (inject_Z n) 0) eqn:E2;
      try reflexivity.
    - apply Qeq_bool_iff in E1. rewrite Hr in E1.
      apply Qeq_bool_iff in E1. congruence.
    - apply Qeq_bool_iff in E2. rewrite <- Hr in E2.
      apply Qeq_bool_iff in E2. congruence. }
  rewrite Hz. destruct (Z.eqb_spec n 0) as [-> | Hne]; [reflexivity |].
  rewrite Qneg_nonneg by now rewrite Hr.
  assert (Hs : small_integer r = true).
  { unfold small_integer. apply andb_true_intro. split.
    - apply Qeq_bool_iff. rewrite (Qfloor_comp _ _ Hr), Qfloor_Z. exact Hr.
    - unfold Qlt_bool. apply negb_true_iff.
      destruct (Qle_bool (pow2 53) (Qabs r)) eqn:E3; [| reflexivity].
      apply Qle_bool_iff in E3. rewrite Ha in E3. lra. }
  rewrite Hs. cbn [append].
  now rewrite (Qfloor_comp _ _ Ha), Qfloor_Z.
Qed.

End Rounding.

(** *** Uptime on doubles *)

Section UptimeOnDoubles.

Local Open Scope Q_scope.

Import Double.

Lemma is_double_round (s : Q) : is_double s = true -> round s == s.
Proof.
  unfold is_double, of_Q.
  destruct (Qle_bool _ _); [discriminate |].
  intros H. now apply Qeq_bool_iff.
Qed.

(** The remainder of a number that is not negative: what is left above the
    multiples of [b]. *)
Lemma rem_nonneg (s : Q) (b : Z) :
  0 <= s -> (0 < b)%Z ->
  exists r,
    rem (Fin s) (of_Z b) = Fin r /\
    r == s - inject_Z (b * (Qfloor s / b)) /\ 0 <= r /\ r <= s.
Proof.
  intros Hs Hb.
  assert (Hf : (0 <= Qfloor s)%Z).
  { rewrite <- (Qfloor_Z 0). now apply Qfloor_resp_le. }
  unfold rem, of_Z. rewrite Qis_zero_inject.
  destruct (Z.eqb_spec b 0) as [-> | _]; [lia |].
  eexists. split; [reflexivity |].
  rewrite Qred_correct. unfold Qtrunc.
  rewrite Qneg_nonneg by (now apply Qnonneg_div).
  rewrite Qfloor_div by exact Hb. rewrite <- inject_Z_mult.
  assert (Hq : inject_Z (b * (Qfloor s / b)) <= s).
  { apply Qle_trans with (inject_Z (Qfloor s)); [| apply Qfloor_le].
    rewrite <- Zle_Qle. apply Z.mul_div_le. exact Hb. }
  assert (Hq0 : 0 <= inject_Z (b * (Qfloor s / b))).
  { change (inject_Z 0 <= inject_Z (b * (Qfloor s / b))).
    rewrite <- Zle_Qle. apply Z.mul_nonneg_nonneg; [lia |].
    apply Z.div_pos; lia. }
  split; [reflexivity |]. split; lra.
Qed.

Variables (s : Q) (a ue : Z).
Hypothesis s_nonneg : 0 <= s.
Hypothesis grain : s == inject_Z a * pow2 ue.
Hypothesis grain_exp : (-1058 <= ue <= 0)%Z.
Hypothesis below : s < pow2 (ue + 53).

Lemma grain_nonneg : (0 <= a)%Z.
Proof.
  destruct (Z.lt_ge_cases a 0) as [Hneg | Hok]; [| exact Hok].
  exfalso. rewrite grain in s_nonneg.
  assert (H : inject_Z a * pow2 ue < 0).
  { setoid_replace 0 with (0 * pow2 ue) by ring.
    apply Qmult_lt_compat_r; [apply pow2_pos |].
    change (inject_Z a < inject_Z 0). now rewrite <- Zlt_Qlt. }
  lra.
Qed.

(** What is left of [s] above the multiples of [b] has the grain of [s]. *)
Lemma rem_grain (b : Z) :
  (0 < b)%Z ->
  exists r a',
    rem (Fin s) (of_Z b) = Fin r /\
    (0 <= a')%Z /\ r == inject_Z a' * pow2 ue /\ r < pow2 (ue + 53).
Proof.
  intros Hb.
  destruct (rem_nonneg s b s_nonneg Hb) as (r & Hr & Heq & H0 & Hle).
  set (P := (2 ^ (- ue))%Z).
  assert (HP : (0 < P)%Z) by (subst P; apply Z.pow_pos_nonneg; lia).
  remember (Qfloor s / b)%Z as q eqn:Eq. clear Eq.
  set (a' := (a - b * q * P)%Z).
  assert (HPU : inject_Z P * pow2 ue == 1).
  { rewrite (mul_pow2 _ ue) by lia. fold P. field.
    now apply inject_Z_nonzero. }
  assert (Hg : r == inject_Z a' * pow2 ue).
  { rewrite Heq, grain. subst a'. unfold Zminus.
    rewrite inject_Z_plus, inject_Z_opp, !inject_Z_mult.
    setoid_replace ((inject_Z a + - (inject_Z b * inject_Z q * inject_Z P))
                    * pow2 ue)
      with (inject_Z a * pow2 ue
            - inject_Z b * inject_Z q * (inject_Z P * pow2 ue)) by ring.
    rewrite HPU. ring. }
  exists r, a'. split; [exact Hr |]. split; [| split; [exact Hg | lra]].
  destruct (Z.lt_ge_cases a' 0) as [Hneg | Hok]; [| exact Hok].
  exfalso.
  assert (H : inject_Z a' * pow2 ue < 0).
  { setoid_replace 0 with (0 * pow2 ue) by ring.
    apply Qmult_lt_compat_r; [apply pow2_pos |].
    change (inject_Z a' < inject_Z 0). now rewrite <- Zlt_Qlt. }
  lra.
Qed.

Lemma below_53 : s < inject_Z (2 ^ 53).
Proof.
  rewrite <- pow2_Z by lia. eapply Qlt_le_trans; [exact below |].
  apply pow2_le. lia.
Qed.

(** On a double below [2^53] the parts computed with double divisions are
    those of the exact quotients. *)
Lemma formatUptime_parts_double :
  Double.formatUptime_parts (Fin s) = Common.formatUptime_parts (Fin s).
Proof.
  pose proof grain_nonneg as Ha. pose proof below_53 as H53.
  assert (Hf : (0 <= Qfloor s < 2 ^ 53)%Z).
  { split.
    - rewrite <- (Qfloor_Z 0). now apply Qfloor_resp_le.
    - rewrite Zlt_Qlt. eapply Qle_lt_trans; [apply Qfloor_le | exact H53]. }
  unfold Double.formatUptime_parts, Common.formatUptime_parts,
    Double.plural, Common.plural.
  (* days *)
  rewrite (floor_div_double s a ue 86400 16) by (assumption || lia).
  rewrite (floor_div s 86400) by lia.
  (* hours *)
  destruct (rem_grain 86400) as (r1 & a1 & E1 & Ha1 & Hg1 & Hb1); [lia |].
  assert (Hh : Math_floor (Double.div (rem (Fin s) (of_Z 86400)) (of_Z 3600))
               = of_Z (Qfloor s mod 86400 / 3600)).
  { rewrite <- (floor_rem_div s s_nonneg 86400 3600) by lia.
    rewrite E1. apply (floor_div_double r1 a1 ue 3600 11); assumption || lia. }
  rewrite Hh. rewrite (floor_rem_div s s_nonneg 86400 3600) by lia.
  (* minutes *)
  destruct (rem_grain 3600) as (r2 & a2 & E2 & Ha2 & Hg2 & Hb2); [lia |].
  assert (Hm : Math_floor (Double.div (rem (Fin s) (of_Z 3600)) (of_Z 60))
               = of_Z (Qfloor s mod 3600 / 60)).
  { rewrite <- (floor_rem_div s s_nonneg 3600 60) by lia.
    rewrite E2. apply (floor_div_double r2 a2 ue 60 5); assumption || lia. }
  rewrite Hm. rewrite (floor_rem_div s s_nonneg 3600 60) by lia.
  set (d := (Qfloor s / 86400)%Z).
  set (h := ((Qfloor s mod 86400) / 3600)%Z).
  set (m := ((Qfloor s mod 3600) / 60)%Z).
  assert (Hd : (0 <= d < 2 ^ 53)%Z).
  { subst d. split; [apply Z.div_pos; lia |].
    apply Z.div_lt_upper_bound; lia. }
  assert (Hh' : (0 <= h < 2 ^ 53)%Z).
  { subst h. pose proof (Z.mod_pos_bound (Qfloor s) 86400 ltac:(lia)).
    split; [apply Z.div_pos; lia |]. apply Z.div_lt_upper_bound; lia. }
  assert (Hm' : (0 <= m < 2 ^ 53)%Z).
  { subst m. pose proof (Z.mod_pos_bound (Qfloor s) 3600 ltac:(lia)).
    split; [apply Z.div_pos; lia |]. apply Z.div_lt_upper_bound; lia. }
  rewrite !toString_integer by assumption.
  rewrite !toString_of_Z by lia.
  reflexivity.
Qed.

End UptimeOnDoubles.

Section UptimeText.

Local Open Scope Q_scope.

Import Double.

(** A quotient below one half rounds to a double below one. *)
Lemma floor_div_small (r : Q) (b : Z) :
  0 <= r -> r < 1 -> (2 <= b)%Z ->
  Math_floor (Double.div (Fin r) (of_Z b)) = of_Z 0.
Proof.
  intros H0 H1 Hb.
  assert (Hbq : 0 < inject_Z b) by (apply inject_Z_pos; lia).
  unfold Double.div, Num.div, of_Z. rewrite Qis_zero_inject.
  destruct (Z.eqb_spec b 0) as [-> | _]; [lia |].
  cbn [rounded]. unfold of_Q.
  set (x := Qred (r / inject_Z b)).
  assert (Hx0 : 0 <= x).
  { subst x. rewrite Qred_correct. apply Qle_shift_div_l; [exact Hbq |].
    now rewrite Qmult_0_l. }
  assert (Hx1 : x < 1 # 2).
  { subst x. rewrite Qred_correct. apply Qlt_shift_div_r; [exact Hbq |].
    assert (H2 : 2 <= inject_Z b).
    { change 2 with (inject_Z 2). rewrite <- Zle_Qle. exact Hb. }
    lra. }
  assert (Hround : 0 <= round x /\ round x < 1).
  { destruct (Qis_zero x) eqn:Ez.
    - unfold round. rewrite Ez. split; [apply Qle_refl | reflexivity].
    - assert (Hpos : 0 < x).
      { apply Qle_lteq in Hx0. destruct Hx0 as [H | H]; [exact H |].
        symmetry in H. apply Qis_zero_true in H. congruence. }
      assert (Hbin : x < pow2 (-2 + 1)).
      { change (pow2 (-2 + 1)) with (1 # 2). exact Hx1. }
      assert (Hk : inject_Z 0 <= x) by exact Hx0.
      assert (Hgap : x + pow2 (-2 - 53) < inject_Z (0 + 1)).
      { assert (Hp : pow2 (-2 - 53) <= 1 # 2).
        { change (1 # 2) with (pow2 (-1)). apply pow2_le. lia. }
        change (inject_Z (0 + 1)) with 1. lra. }
      exact (round_between x 0 (-2) Hpos ltac:(lia) ltac:(lia)
               Hbin Hk Hgap). }
  destruct Hround as [Hlo Hhi].
  destruct (Qle_bool (pow2 1024) (Qabs (round x))) eqn:E.
  - exfalso. apply Qle_bool_iff in E. rewrite (Qabs_pos _ Hlo) in E.
    assert (Hp : pow2 0 <= pow2 1024) by (apply pow2_le; lia).
    change (pow2 0) with 1 in Hp. lra.
  - cbn [Math_floor]. unfold of_Z. do 2 f_equal.
    now apply Qfloor_unique.
Qed.

Lemma formatUptime_parts_small (s : Q) :
  0 <= s -> s < 1 -> Double.formatUptime_parts (Fin s) = "0 minutes"%string.
Proof.
  intros H0 H1. unfold Double.formatUptime_parts.
  rewrite (floor_div_small s 86400) by (assumption || lia).
  destruct (rem_nonneg s 86400 H0) as (r1 & -> & _ & Hr1 & Hs1); [lia |].
  destruct (rem_nonneg s 3600 H0) as (r2 & -> & _ & Hr2 & Hs2); [lia |].
  rewrite (floor_div_small r1 3600) by (assumption || lia || lra).
  rewrite (floor_div_small r2 60) by (assumption || lia || lra).
  reflexivity.
Qed.

Lemma uptime_text_small (s : Q) :
  0 <= s -> s < 60 -> Reference.uptime_text s = "0 minutes"%string.
Proof.
  intros H0 H1.
  assert (Hf : (0 <= Qfloor s < 60)%Z).
  { split.
    - rewrite <- (Qfloor_Z 0). now apply Qfloor_resp_le.
    - rewrite Zlt_Qlt. eapply Qle_lt_trans; [apply Qfloor_le | exact H1]. }
  unfold Reference.uptime_text.
  rewrite !Z.div_small; [reflexivity | | |]; try rewrite Z.mod_small; lia.
Qed.

Variable s : Q.
Hypothesis s_double : is_double s = true.
Hypothesis s_nonneg : 0 <= s.
Hypothesis s_below : s < inject_Z (2 ^ 53).

Lemma floor_below : (0 <= Qfloor s < 2 ^ 53)%Z.
Proof.
  split.
  - rewrite <- (Qfloor_Z 0). now apply Qfloor_resp_le.
  - rewrite Zlt_Qlt. eapply Qle_lt_trans; [apply Qfloor_le | exact s_below].
Qed.

(** The copies that round the seconds down first. *)
Lemma formatUptime_double :
  Double.formatUptime (Fin s) = Common.formatUptime (Fin s).
Proof.
  pose proof floor_below as Hf.
  unfold Double.formatUptime, Common.formatUptime, Math_floor, of_Z.
  apply (formatUptime_parts_double (inject_Z (Qfloor s)) (Qfloor s) 0).
  - change (inject_Z 0 <= inject_Z (Qfloor s)). rewrite <- Zle_Qle. lia.
  - change (pow2 0) with 1. ring.
  - lia.
  - change (0 + 53)%Z with 53%Z. rewrite pow2_Z by lia.
    rewrite <- Zlt_Qlt. lia.
Qed.

(** The copy of [part_001]. *)
Lemma formatUptime_oldest_double :
  Double.formatUptime_oldest (Fin s) = Part001.formatUptime (Fin s).
Proof.
  unfold Double.formatUptime_oldest, Part001.formatUptime.
  destruct (Qlt_le_dec s 1) as [Hsmall | Hbig].
  - rewrite formatUptime_parts_small by assumption.
    rewrite formatUptime_parts_text by exact s_nonneg.
    symmetry. apply uptime_text_small; [exact s_nonneg | lra].
  - assert (Hpos : 0 < s) by lra.
    destruct (double_grain s Hpos (is_double_round s s_double)) as [a Ha].
    assert (He0 : (0 <= floor_log2 s)%Z).
    { apply floor_log2_above; [exact Hpos |]. exact Hbig. }
    assert (He53 : (floor_log2 s <= 52)%Z).
    { apply floor_log2_below; [exact Hpos |].
      change (52 + 1)%Z with 53%Z. now rewrite pow2_Z by lia. }
    assert (Hu : ulp_exp s = (floor_log2 s - 52)%Z).
    { unfold ulp_exp. rewrite (Qabs_of_pos s Hpos). lia. }
    rewrite Hu in Ha.
    apply (formatUptime_parts_double s a (floor_log2 s - 52));
      [exact s_nonneg | exact Ha | lia |].
    replace (floor_log2 s - 52 + 53)%Z with (floor_log2 s + 1)%Z by lia.
    now apply floor_log2_upper.
Qed.

End UptimeText.

(** C8, as amended: for a number of seconds that is a double, not negative
    and below [2^53], [formatUptime] -- computed on doubles, in the three
    copies that round the seconds down first and in the copy of [part_001]
    that does not -- returns the days, hours and minutes that are not zero,
    each with its unit and a plural [s] above one, joined by spaces, and
    ['0 minutes'] when all three are zero, which is the case below sixty
    seconds.  On this range the functions of the four programs, which
    divide exactly, return the same text. *)
Theorem formatUptime_text (s : Q)
    (Hd : Double.is_double s = true) (Hs : (0 <= s)%Q)
    (Hb : (s < inject_Z (2 ^ 53))%Q) :
  Double.formatUptime (Fin s) = Reference.uptime_text s /\
  Double.formatUptime_oldest (Fin s) = Reference.uptime_text s /\
  RunLauncher.formatUptime (Fin s) = Double.formatUptime (Fin s) /\
  RunNpmStart.formatUptime (Fin s) = Double.formatUptime (Fin s) /\
  Part000.formatUptime (Fin s) = Double.formatUptime (Fin s) /\
  Part001.formatUptime (Fin s) = Double.formatUptime_oldest (Fin s) /\
  ((s < 60)%Q -> Reference.uptime_text s = "0 minutes").
Proof.
  pose proof (formatUptime_double s Hs Hb) as Hc.
  pose proof (formatUptime_oldest_double s Hd Hs Hb) as Ho.
  assert (Ht : (0 <= Qfloor s)%Z).
  { rewrite <- (Qfloor_Z 0). now apply Qfloor_resp_le. }
  assert (He : Common.formatUptime (Fin s) = Reference.uptime_text s).
  { unfold Common.formatUptime, Math_floor, of_Z.
    rewrite formatUptime_parts_text.
    - unfold Reference.uptime_text. now rewrite Qfloor_Z.
    - change (inject_Z 0 <= inject_Z (Qfloor s))%Q. now rewrite <- Zle_Qle. }
  repeat split.
  - now rewrite Hc.
  - rewrite Ho. now apply formatUptime_parts_text.
  - now rewrite Hc.
  - now rewrite Hc.
  - now rewrite Hc.
  - now rewrite Ho.
  - intros Hlt. now apply uptime_text_small.
Qed.

(** An uptime of a day, an hour, a minute and a second and a half. *)
Lemma formatUptime_text_sample :
  Double.formatUptime (Fin (900615 # 10)) = "1 day 1 hour 1 minute" /\
  Double.formatUptime_oldest (Fin (900615 # 10)) = "1 day 1 hour 1 minute".
Proof.
  assert (Hd : Double.is_double (900615 # 10) = true) by (vm_compute; reflexivity).
  assert (Hs : (0 <= 900615 # 10)%Q) by (unfold Qle; simpl; lia).
  assert (Hb : (900615 # 10 < inject_Z (2 ^ 53))%Q) by reflexivity.
  split.
  - exact (proj1 (formatUptime_text (900615 # 10) Hd Hs Hb)).
  - exact (proj1 (proj2 (formatUptime_text (900615 # 10) Hd Hs Hb))).
Defined.

(** C8, as stated, fails: the claim is about every real number that is not
    negative, and the quotients of the code are doubles.  At
    1519964874237628672 seconds, a double, the quotient by 86400 rounds up
    to the next integer and the code counts one day more than the [d] of
    the claim; at the double nearest to [10^300] the days are written with
    an exponent. *)
Lemma formatUptime_rounds :
  Double.is_double (inject_Z 1519964874237628672) = true /\
  Double.formatUptime (Fin (inject_Z 1519964874237628672))
  = "17592186044417 days 23 hours 57 minutes" /\
  Reference.uptime_text (inject_Z 1519964874237628672)
  = "17592186044416 days 23 hours 57 minutes" /\
  Double.formatUptime (Double.rounded (Fin (Qpower 10 300)))
  = "1.1574074074074075e+295 days 17 hours 36 minutes".
Proof. vm_compute. repeat split. Qed.

(** ** Byte counts on doubles *)

(** C9 (code bug): just below [1024^5] the unit is not found.  For
    [1024^5 - 1], [1024^5 - 2] and [1024^5 - 3] bytes, whose unit is [T],
    the quotient of the two logarithms rounds to 5, [sizes[5]] is
    [undefined] and [formatBytes] returns the number NaN, in the guarded
    copies and in that of [part_001]; the claim gives ['1024T'], which is
    what the code returns one byte lower and what it would return with the
    logarithm taken exactly.  Elsewhere the code does what the claim says:
    a kibibyte and a half is ['1.5K']. *)
Theorem formatBytes_near_the_top :
  (1024 ^ 4 <= 1024 ^ 5 - 1 < 1024 ^ 5)%Z /\
  (Reference.one_decimal (1024 ^ 5 - 1) 4 ++ Reference.suffix 4)%string
  = "1024T" /\
  Math_floor (Double.div (Double.Math_log (of_Z (1024 ^ 5 - 1)))
                (Double.Math_log (of_Z 1024))) = of_Z 5 /\
  Double.formatBytes (VNum (of_Z (1024 ^ 5 - 1))) 1 = Ok (VNum NaN) /\
  Double.formatBytes (VNum (of_Z (1024 ^ 5 - 2))) 1 = Ok (VNum NaN) /\
  Double.formatBytes (VNum (of_Z (1024 ^ 5 - 3))) 1 = Ok (VNum NaN) /\
  Double.formatBytes_oldest (VNum (of_Z (1024 ^ 5 - 1))) 1 = Ok (VNum NaN) /\
  Double.formatBytes (VNum (of_Z (1024 ^ 5 - 4))) 1 = Ok (VStr "1024T") /\
  Common.formatBytes (VNum (of_Z (1024 ^ 5 - 1))) 1 = Ok (VStr "1024T") /\
  Double.formatBytes (VNum (of_Z 1536)) 1 = Ok (VStr "1.5K").
Proof. vm_compute. repeat split; discriminate. Qed.

(** * Further properties of the code *)

(** ** Uptime outside the usual range *)

Section UptimeEdges.

Local Open Scope Q_scope.

(** Rounding towards zero does not go below a number that is not positive. *)
Lemma Qtrunc_nonpos (q : Q) : q <= 0 -> q <= inject_Z (Qtrunc q).
Proof.
  intros Hq. unfold Qtrunc. destruct (Qneg q) eqn:E.
  - apply Qle_ceiling.
  - apply Qle_trans with 0; [exact Hq |].
    change (inject_Z 0 <= inject_Z (Qfloor q)). rewrite <- Zle_Qle.
    rewrite <- (Qfloor_Z 0). apply Qfloor_resp_le.
    unfold Qneg, Qlt_bool in E. apply negb_false_iff in E.
    now apply Qle_bool_iff in E.
Qed.

(** The remainder of a number that is not positive is not positive. *)
Lemma rem_nonpos (x : Q) (b : Z) :
  x <= 0 -> (0 < b)%Z ->
  exists r, rem (Fin x) (of_Z b) = Fin r /\ r <= 0.
Proof.
  intros Hx Hb.
  assert (Hq : 0 < inject_Z b).
  { change (inject_Z 0 < inject_Z b). now rewrite <- Zlt_Qlt. }
  unfold rem, of_Z. rewrite Qis_zero_inject.
  destruct (Z.eqb_spec b 0) as [-> | _]; [lia |].
  eexists. split; [reflexivity |]. rewrite Qred_correct.
  assert (Hd : x / inject_Z b <= 0).
  { apply Qle_shift_div_r; [exact Hq |]. now rewrite Qmult_0_l. }
  pose proof (Qtrunc_nonpos _ Hd) as Ht.
  assert (Hm : x <= inject_Z b * inject_Z (Qtrunc (x / inject_Z b))).
  { apply Qle_trans with (inject_Z b * (x / inject_Z b)).
    - rewrite Qmult_div_r; [apply Qle_refl |].
      intros H. rewrite H in Hq. discriminate Hq.
    - rewrite !(Qmult_comm (inject_Z b)).
      apply Qmult_le_compat_r; [exact Ht | now apply Qlt_le_weak]. }
  apply Qle_minus_iff in Hm. apply Qle_minus_iff.
  setoid_replace (0 + - (x - inject_Z b * inject_Z (Qtrunc (x / inject_Z b))))
    with (inject_Z b * inject_Z (Qtrunc (x / inject_Z b)) + - x) by ring.
  exact Hm.
Qed.

Lemma floor_div_nonpos (x : Q) (b : Z) :
  x <= 0 -> (0 < b)%Z ->
  gt (Math_floor (div (Fin x) (of_Z b))) (of_Z 0) = false.
Proof.
  intros Hx Hb. rewrite floor_div by exact Hb. rewrite gt_of_Z.
  apply Z.ltb_ge.
  assert (Hf : (Qfloor x <= 0)%Z).
  { rewrite <- (Qfloor_Z 0). now apply Qfloor_resp_le. }
  apply Z.div_le_upper_bound; lia.
Qed.

(** No day, hour or minute is counted for a number of seconds that is not
    positive. *)
Lemma formatUptime_parts_nonpos (x : Q) :
  x <= 0 -> Common.formatUptime_parts (Fin x) = "0 minutes"%string.
Proof.
  intros Hx. unfold Common.formatUptime_parts.
  rewrite floor_div_nonpos by (exact Hx || lia).
  destruct (rem_nonpos x 86400 Hx) as (r1 & -> & Hr1); [lia |].
  destruct (rem_nonpos x 3600 Hx) as (r2 & -> & Hr2); [lia |].
  rewrite !floor_div_nonpos by (assumption || lia).
  reflexivity.
Qed.

Lemma formatUptime_nonpos (x : Q) :
  x <= 0 -> Common.formatUptime (Fin x) = "0 minutes"%string.
Proof.
  intros Hx. unfold Common.formatUptime, Math_floor, of_Z.
  apply formatUptime_parts_nonpos.
  apply Qle_trans with x; [apply Qfloor_le | exact Hx].
Qed.

End UptimeEdges.

(** X1: below one minute there is nothing to count: for every number of
    seconds under sixty, the negative ones included, and for NaN, the four
    copies of [formatUptime] return ['0 minutes']. *)
Theorem formatUptime_below_a_minute (s : Q) (Hs : (s < 60)%Q) :
  RunLauncher.formatUptime (Fin s) = "0 minutes" /\
  RunNpmStart.formatUptime (Fin s) = "0 minutes" /\
  Part000.formatUptime (Fin s) = "0 minutes" /\
  Part001.formatUptime (Fin s) = "0 minutes" /\
  Common.formatUptime NaN = "0 minutes" /\
  Part001.formatUptime NaN = "0 minutes".
Proof.
  assert (Hc : Common.formatUptime (Fin s) = "0 minutes"
               /\ Part001.formatUptime (Fin s) = "0 minutes").
  { destruct (Qlt_le_dec 0 s) as [Hpos | Hneg].
    - assert (H0 : (0 <= s)%Q) by now apply Qlt_le_weak.
      assert (Hf : (0 <= Qfloor s < 60)%Z).
      { split.
        - rewrite <- (Qfloor_Z 0). now apply Qfloor_resp_le.
        - rewrite Zlt_Qlt. apply Qle_lt_trans with s;
            [apply Qfloor_le | exact Hs]. }
      assert (Hu : Reference.uptime_text s = "0 minutes").
      { unfold Reference.uptime_text.
        rewrite !Z.div_small; [reflexivity | | |];
          try rewrite Z.mod_small; lia. }
      split.
      + unfold Common.formatUptime, Math_floor, of_Z.
        rewrite formatUptime_parts_text.
        * unfold Reference.uptime_text in *. now rewrite Qfloor_Z.
        * change (inject_Z 0 <= inject_Z (Qfloor s))%Q.
          rewrite <- Zle_Qle. lia.
      + unfold Part001.formatUptime.
        now rewrite formatUptime_parts_text.
    - split.
      + now apply formatUptime_nonpos.
      + now apply formatUptime_parts_nonpos. }
  destruct Hc as [Hc Hp]. repeat split; assumption.
Qed.

(** Half a minute before the host came up. *)
Lemma formatUptime_below_a_minute_sample :
  (-30 < 60)%Q /\ RunLauncher.formatUptime (Fin (-30)) = "0 minutes".
Proof.
  assert (Hs : (-30 < 60)%Q) by reflexivity.
  split; [exact Hs |].
  exact (proj1 (formatUptime_below_a_minute (-30) Hs)).
Defined.

(** X2: the copy of [part_001], which does not round the seconds down
    first, returns the same text as the three later copies for every
    number: finite, infinite or NaN. *)
Theorem formatUptime_copies_agree (x : number) :
  Part001.formatUptime x = RunLauncher.formatUptime x /\
  Part001.formatUptime x = RunNpmStart.formatUptime x /\
  Part001.formatUptime x = Part000.formatUptime x.
Proof.
  assert (H : Part001.formatUptime x = Common.formatUptime x).
  { destruct x as [| [|] | s]; try reflexivity.
    destruct (Qlt_le_dec 0 s) as [Hpos | Hneg].
    - assert (H0 : (0 <= s)%Q) by now apply Qlt_le_weak.
      unfold Part001.formatUptime, Common.formatUptime, Math_floor, of_Z.
      rewrite !formatUptime_parts_text.
      + unfold Reference.uptime_text. now rewrite Qfloor_Z.
      + change (inject_Z 0 <= inject_Z (Qfloor s))%Q. rewrite <- Zle_Qle.
        rewrite <- (Qfloor_Z 0). now apply Qfloor_resp_le.
      + exact H0.
    - unfold Part001.formatUptime.
      rewrite formatUptime_parts_nonpos by exact Hneg.
      symmetry. now apply formatUptime_nonpos. }
  repeat split; exact H.
Qed.

(** The days, hours and minutes of an uptime are those of its whole
    minutes. *)
Lemma uptime_text_minutes (s t : Q) :
  (Qfloor s / 60 = Qfloor t / 60)%Z ->
  Reference.uptime_text s = Reference.uptime_text t.
Proof.
  intros H. unfold Reference.uptime_text.
  assert (Hd : forall a, (a / 86400 = a / 60 / 1440)%Z).
  { intros a. rewrite Z.div_div by lia. reflexivity. }
  assert (Hh : forall a, (a mod 86400 / 3600 = (a / 60) mod 1440 / 60)%Z).
  { intros a. Z.div_mod_to_equations. lia. }
  assert (Hm : forall a, (a mod 3600 / 60 = (a / 60) mod 60)%Z).
  { intros a. Z.div_mod_to_equations. lia. }
  now rewrite !Hd, !Hh, !Hm, H.
Qed.

(** X3: the text has the resolution of a minute: two uptimes that are not
    negative and have the same number of whole minutes give the same
    text. *)
Theorem formatUptime_same_minute (s t : Q)
    (Hs : (0 <= s)%Q) (Ht : (0 <= t)%Q)
    (Hm : Qfloor (s / 60) = Qfloor (t / 60)) :
  RunLauncher.formatUptime (Fin s) = RunLauncher.formatUptime (Fin t) /\
  Part001.formatUptime (Fin s) = Part001.formatUptime (Fin t).
Proof.
  change 60%Q with (inject_Z 60) in Hm.
  rewrite !Qfloor_div in Hm by lia.
  pose proof (uptime_text_minutes s t Hm) as Hu.
  split.
  - change (Common.formatUptime (Fin s) = Common.formatUptime (Fin t)).
    unfold Common.formatUptime, Math_floor, of_Z.
    rewrite !formatUptime_parts_text.
    + unfold Reference.uptime_text in *. now rewrite !Qfloor_Z.
    + change (inject_Z 0 <= inject_Z (Qfloor t))%Q. rewrite <- Zle_Qle.
      rewrite <- (Qfloor_Z 0). now apply Qfloor_resp_le.
    + change (inject_Z 0 <= inject_Z (Qfloor s))%Q. rewrite <- Zle_Qle.
      rewrite <- (Qfloor_Z 0). now apply Qfloor_resp_le.
  - unfold Part001.formatUptime. now rewrite !formatUptime_parts_text.
Qed.

(** Two moments of the same minute, an hour after the start. *)
Lemma formatUptime_same_minute_sample :
  RunLauncher.formatUptime (Fin (3601 # 1))
  = RunLauncher.formatUptime (Fin (36599 # 10)).
Proof.
  refine (proj1 (formatUptime_same_minute (3601 # 1) (36599 # 10) _ _ _)).
  - unfold Qle; simpl; lia.
  - unfold Qle; simpl; lia.
  - reflexivity.
Defined.

(** ** Sizes outside the table of units *)

Section OutsideTheUnits.

Local Open Scope Q_scope.

Lemma add_NaN_r (x : number) : Num.add x NaN = NaN.
Proof. now destruct x. Qed.

(** A number plus [undefined] is NaN. *)
Lemma add_undefined (x : number) : Val.add (VNum x) VUndef = VNum NaN.
Proof. cbn [Val.add Val.toNumber]. now rewrite add_NaN_r. Qed.

Lemma log_up_nonneg (fuel : nat) (q : Q) : (0 <= log_up fuel 1024 q)%Z.
Proof.
  revert q. induction fuel as [| f IH]; intros q; cbn [log_up]; [lia |].
  destruct (Qle_bool (inject_Z 1024) q); [| lia].
  specialize (IH (q / inject_Z 1024)). lia.
Qed.

(** [log_up] counts at least the powers of 1024 that fit. *)
Lemma log_up_lower (n fuel : nat) (q : Q) :
  (n <= fuel)%nat ->
  inject_Z (1024 ^ Z.of_nat n) <= q ->
  (Z.of_nat n <= log_up fuel 1024 q)%Z.
Proof.
  revert fuel q. induction n as [| n IH]; intros fuel q Hf Hlo.
  - apply log_up_nonneg.
  - destruct fuel as [| fuel]; [lia |]. cbn [log_up].
    assert (H1024 : 0 < inject_Z 1024) by reflexivity.
    assert (Hq : inject_Z 1024 <= q).
    { eapply Qle_trans; [| exact Hlo]. rewrite Qpow_1024.
      rewrite <- (Qmult_1_l (inject_Z 1024)) at 1.
      apply Qmult_le_compat_r; [| now apply Qlt_le_weak].
      change (inject_Z 1 <= inject_Z (1024 ^ Z.of_nat n)).
      rewrite <- Zle_Qle.
      pose proof (Z.pow_pos_nonneg 1024 (Z.of_nat n)). lia. }
    apply Qle_bool_iff in Hq. rewrite Hq.
    specialize (IH fuel (q / inject_Z 1024)).
    rewrite Nat2Z.inj_succ.
    enough (Z.of_nat n <= log_up fuel 1024 (q / inject_Z 1024))%Z by lia.
    apply IH; [lia |].
    apply Qle_shift_div_l; [exact H1024 |]. now rewrite <- Qpow_1024.
Qed.

Lemma log_down_nonneg (fuel : nat) (q : Q) : (0 <= log_down fuel 1024 q)%Z.
Proof.
  revert q. induction fuel as [| f IH]; intros q; cbn [log_down]; [lia |].
  destruct (Qlt_bool q 1); [| lia]. specialize (IH (q * inject_Z 1024)). lia.
Qed.

(** An index that is not in the table reads [undefined]. *)
Lemma index_outside (i : Z) :
  (i < 0 \/ 5 <= i)%Z -> Val.index Common.sizes (of_Z i) = VUndef.
Proof.
  intros Hi. unfold Val.index, of_Z. rewrite Qfloor_Z.
  destruct Hi as [Hi | Hi].
  - replace (Qle_bool 0 (inject_Z i)) with false;
      [now rewrite andb_false_r |].
    symmetry. destruct (Qle_bool 0 (inject_Z i)) eqn:E; [| reflexivity].
    apply Qle_bool_iff in E. change (inject_Z 0 <= inject_Z i) in E.
    rewrite <- Zle_Qle in E. lia.
  - destruct (_ && _)%bool; [| reflexivity].
    apply nth_overflow. cbn [Common.sizes length]. lia.
Qed.

Variable q : Q.
Hypothesis not_zero : ~ q == 0.

Lemma formatBytes_unguarded (d : Z) :
  Common.formatBytes (VNum (Fin q)) d
  = Common.formatBytes_scaled (VNum (Fin q)) d /\
  Part001.formatBytes (VNum (Fin q)) d
  = Common.formatBytes_scaled (VNum (Fin q)) d.
Proof.
  unfold Common.formatBytes, Part001.formatBytes, Val.is_zero, Num.eq.
  change (Qeq_bool q 0) with (Qis_zero q).
  rewrite Qis_zero_false by exact not_zero. now split.
Qed.

Lemma scaled_negative : q < 0 ->
  Common.formatBytes_scaled (VNum (Fin q)) 1 = Ok (VNum NaN).
Proof.
  intros Hq. unfold Common.formatBytes_scaled. cbn [toNumber Z.ltb Z.compare].
  unfold floor_log.
  replace (Qneg q) with true; [reflexivity |].
  symmetry. unfold Qneg, Qlt_bool. apply negb_true_iff.
  destruct (Qle_bool 0 q) eqn:E; [| reflexivity].
  apply Qle_bool_iff in E. exfalso. apply (Qlt_irrefl q).
  eapply Qlt_le_trans; eassumption.
Qed.

Lemma scaled_outside (i : Z) :
  0 < q -> ilog 1024 q = i -> (i < 0 \/ 5 <= i)%Z ->
  Common.formatBytes_scaled (VNum (Fin q)) 1 = Ok (VNum NaN).
Proof.
  intros Hq Hi Ho. unfold Common.formatBytes_scaled.
  cbn [toNumber Z.ltb Z.compare]. unfold floor_log.
  rewrite Qneg_nonneg by now apply Qlt_le_weak.
  rewrite Qis_zero_false by exact not_zero.
  rewrite Hi, toFixed_one, index_outside by exact Ho.
  now rewrite add_undefined.
Qed.

Lemma ilog_fraction : 0 < q -> q < 1 -> (ilog 1024 q < 0)%Z.
Proof.
  intros Hq H1. unfold ilog.
  assert (Hb : Qlt_bool q 1 = true).
  { unfold Qlt_bool. apply negb_true_iff.
    destruct (Qle_bool 1 q) eqn:E; [| reflexivity].
    apply Qle_bool_iff in E. exfalso. apply (Qlt_irrefl q).
    eapply Qlt_le_trans; eassumption. }
  replace (Qle_bool 1 q) with false
    by (unfold Qlt_bool in Hb; now apply negb_true_iff in Hb).
  cbn [log_down]. rewrite Hb.
  pose proof (log_down_nonneg
                (Z.to_nat (Z.log2 (Z.pos (Qden q)))) (q * inject_Z 1024)).
  lia.
Qed.

Lemma ilog_large : inject_Z (1024 ^ 5) <= q -> (5 <= ilog 1024 q)%Z.
Proof.
  intros Hq. unfold ilog.
  assert (H1 : 1 <= q).
  { eapply Qle_trans; [| exact Hq]. discriminate. }
  apply Qle_bool_iff in H1. rewrite H1.
  change 5%Z with (Z.of_nat 5). apply log_up_lower; [| exact Hq].
  assert (Hn : (2 ^ 50 <= Qnum q)%Z).
  { unfold Qle in Hq. cbn [Qnum Qden inject_Z] in Hq.
    change (1024 ^ 5)%Z with (2 ^ 50)%Z in Hq.
    pose proof (Pos2Z.is_pos (Qden q)). nia. }
  apply Z.log2_le_pow2 in Hn; lia.
Qed.

End OutsideTheUnits.

(** X4: the table of units has five letters and no check of the index: for
    a negative size, a size between zero and one byte, and a size of
    [1024^5] bytes or more, every copy of [formatBytes] returns the number
    NaN instead of a text; so it does for the two infinities. *)
Theorem formatBytes_outside_the_units (q : Q)
    (Hq : (q < 0 \/ (0 < q /\ q < 1) \/ inject_Z (1024 ^ 5) <= q)%Q) :
  RunLauncher.formatBytes (VNum (Fin q)) 1 = Ok (VNum NaN) /\
  RunNpmStart.formatBytes (VNum (Fin q)) 1 = Ok (VNum NaN) /\
  Part000.formatBytes (VNum (Fin q)) 1 = Ok (VNum NaN) /\
  Part001.formatBytes (VNum (Fin q)) 1 = Ok (VNum NaN) /\
  (forall negative,
      Common.formatBytes (VNum (Infinity negative)) 1 = Ok (VNum NaN) /\
      Part001.formatBytes (VNum (Infinity negative)) 1 = Ok (VNum NaN)).
Proof.
  assert (Hs : ~ (q == 0)%Q /\
               Common.formatBytes_scaled (VNum (Fin q)) 1 = Ok (VNum NaN)).
  { destruct Hq as [Hn | [[Hp H1] | Hl]].
    - assert (Hz : ~ (q == 0)%Q).
      { intros H. rewrite H in Hn. discriminate Hn. }
      split; [exact Hz | now apply scaled_negative].
    - assert (Hz : ~ (q == 0)%Q).
      { intros H. rewrite H in Hp. discriminate Hp. }
      split; [exact Hz |].
      apply (scaled_outside q Hz (ilog 1024 q) Hp eq_refl).
      left. now apply ilog_fraction.
    - assert (Hp : (0 < q)%Q).
      { eapply Qlt_le_trans; [| exact Hl]. reflexivity. }
      assert (Hz : ~ (q == 0)%Q).
      { intros H. rewrite H in Hp. discriminate Hp. }
      split; [exact Hz |].
      apply (scaled_outside q Hz (ilog 1024 q) Hp eq_refl).
      right. now apply ilog_large. }
  destruct Hs as [Hz Hs].
  destruct (formatBytes_unguarded q Hz 1) as [Hc Hp].
  change (Common.formatBytes (VNum (Fin q)) 1 = Ok (VNum NaN) /\
          Common.formatBytes (VNum (Fin q)) 1 = Ok (VNum NaN) /\
          Common.formatBytes (VNum (Fin q)) 1 = Ok (VNum NaN) /\
          Part001.formatBytes (VNum (Fin q)) 1 = Ok (VNum NaN) /\
          (forall negative,
              Common.formatBytes (VNum (Infinity negative)) 1 = Ok (VNum NaN) /\
              Part001.formatBytes (VNum (Infinity negative)) 1
              = Ok (VNum NaN))).
  rewrite Hc, Hp. repeat split; try exact Hs; now destruct negative.
Qed.

(** Two pebibytes. *)
Lemma formatBytes_outside_the_units_sample :
  Part000.formatBytes (VNum (of_Z (2 * 1024 ^ 5))) 1 = Ok (VNum NaN).
Proof.
  refine (proj1 (proj2 (proj2
    (formatBytes_outside_the_units (inject_Z (2 * 1024 ^ 5)) _)))).
  right; right. discriminate.
Defined.

(** X5: [formatBytes] and the number of decimals.  A negative number of
    decimals counts as zero.  More than a hundred decimals make [toFixed]
    raise a RangeError, which [formatBytes] lets through -- unless the
    guard has answered ['0B'] before. *)
Theorem formatBytes_decimals (bytes : value) (decimals : Z) :
  ((decimals < 0)%Z ->
   Common.formatBytes bytes decimals = Common.formatBytes bytes 0 /\
   Part001.formatBytes bytes decimals = Part001.formatBytes bytes 0) /\
  ((100 < decimals)%Z ->
   Common.formatBytes bytes decimals
   = (if (Val.is_zero bytes || Val.isNaN bytes)%bool then Ok (VStr "0B")
      else Throw
        "RangeError: toFixed() digits argument must be between 0 and 100") /\
   Part001.formatBytes bytes decimals
   = (if Val.is_zero bytes then Ok (VStr "0B")
      else Throw
        "RangeError: toFixed() digits argument must be between 0 and 100")).
Proof.
  unfold Common.formatBytes, Part001.formatBytes, Common.formatBytes_scaled.
  split; intros H.
  - replace (decimals <? 0)%Z with true by (symmetry; now apply Z.ltb_lt).
    change (0 <? 0)%Z with false. cbv iota. now split.
  - replace (decimals <? 0)%Z with false by (symmetry; apply Z.ltb_ge; lia).
    unfold toFixed.
    replace (decimals <=? 100)%Z with false by (symmetry; apply Z.leb_gt; lia).
    rewrite andb_false_r. now split.
Qed.

(** Kilobytes with minus two decimals, and with a thousand. *)
Lemma formatBytes_decimals_sample :
  Part000.formatBytes (VNum (of_Z 1536)) (-2) = Ok (VStr "2K") /\
  is_ok (Part000.formatBytes (VNum (of_Z 1536)) 1000) = false.
Proof.
  split.
  - exact (eq_trans
             (proj1 (proj1 (formatBytes_decimals (VNum (of_Z 1536)) (-2))
                       eq_refl))
             eq_refl).
  - unfold Part000.formatBytes.
    rewrite (proj1 (proj2 (formatBytes_decimals (VNum (of_Z 1536)) 1000)
                      eq_refl)).
    reflexivity.
Defined.

(** ** What the collectors return *)

Lemma truthy_or_text (v : value) (c : ascii) (s : string) :
  truthy (Val.or v (VStr (String c s))) = true.
Proof. unfold Val.or. now destruct (truthy v) eqn:E. Qed.

(** X6: [getPublicIPInfo] never raises and runs [curl] once; each of the
    four fields it returns is truthy, so the banner never shows
    [undefined], [null] or an empty address.  When [curl] succeeds and its
    output parses, the fields are the reply's [ip], [country_name],
    [region] and [org], each replaced by ['N/A'] when it is missing or
    falsy; a reply that is [null] or not an object gives ['N/A'] four
    times. *)
Theorem getPublicIPInfo_fields (w : World) :
  exists info,
    Metrics.getPublicIPInfo w = (Ok info, [Exec Metrics.curl_command]) /\
    truthy (IP.ip info) = true /\ truthy (IP.country info) = true /\
    truthy (IP.region info) = true /\ truthy (IP.isp info) = true /\
    (forall out data,
        child_process_exec w Metrics.curl_command = Ok out ->
        JSON_parse w out = Ok data ->
        info = {| IP.ip := Val.or (get_opt data "ip") (VStr "N/A");
                  IP.country :=
                    Val.or (get_opt data "country_name") (VStr "N/A");
                  IP.region := Val.or (get_opt data "region") (VStr "N/A");
                  IP.isp := Val.or (get_opt data "org") (VStr "N/A") |}).
Proof.
  unfold Metrics.getPublicIPInfo. run_m.
  destruct (child_process_exec w Metrics.curl_command) as [out | e]; reduce.
  - destruct (JSON_parse w out) as [data | e] eqn:Ej; reduce.
    + destruct data; cbn [Val.get Val.get_opt]; reduce;
        (eexists; split; [reflexivity |]);
        repeat (split; [first [apply truthy_or_text | reflexivity] |]);
        intros out' data' [= <-] Hj; rewrite Ej in Hj;
        injection Hj as <-; reflexivity.
    + eexists; split; [reflexivity |]. repeat (split; [reflexivity |]).
      intros out' data' [= <-] Hj. rewrite Ej in Hj. discriminate Hj.
  - eexists; split; [reflexivity |]. repeat (split; [reflexivity |]).
    intros out' data' [=].
Qed.

(** A reply without provider and with an empty region. *)
Lemma getPublicIPInfo_fields_sample :
  result_of Metrics.getPublicIPInfo Replies.answering
  = Ok {| IP.ip := VStr "203.0.113.7"; IP.country := VStr "Indonesia";
          IP.region := VStr "N/A"; IP.isp := VStr "N/A" |}.
Proof.
  destruct (getPublicIPInfo_fields Replies.answering)
    as (info & Hrun & _ & _ & _ & _ & Hmap).
  unfold result_of. rewrite Hrun. cbn [fst]. f_equal.
  exact (Hmap "{...}" Replies.partial_reply eq_refl eq_refl).
Defined.

(** X7: [getCPUModel] never raises, runs its command once and never
    returns the empty string: the trimmed output of the command when that
    is not empty, else the model of the first CPU of [os.cpus()] when there
    is one and it is not empty, else ['N/A']. *)
Theorem getCPUModel_never_empty (sed_expr : string) (w : World) :
  exists model,
    Metrics.getCPUModel sed_expr w
    = (Ok model, [Exec (Metrics.cpuinfo_command sed_expr)]) /\
    model <> "" /\
    (forall out,
        child_process_exec w (Metrics.cpuinfo_command sed_expr) = Ok out ->
        Str.trim out <> "" -> model = Str.trim out) /\
    ((forall out,
        child_process_exec w (Metrics.cpuinfo_command sed_expr) = Ok out ->
        Str.trim out = "") ->
     model = match os_cpus w with
             | first :: _ => if String.eqb first "" then "N/A" else first
             | [] => "N/A"
             end).
Proof.
  unfold Metrics.getCPUModel, Metrics.first_cpu_model. run_m.
  destruct (child_process_exec w (Metrics.cpuinfo_command sed_expr))
    as [out | e]; reduce.
  - destruct (Str.trim out) as [| c s] eqn:Et.
    + destruct (os_cpus w) as [| [| c s] l];
        (eexists; split; [reflexivity |]); cbn;
        (split; [discriminate |]);
        (split; [intros out' [= <-] H; now rewrite Et in H | reflexivity]).
    + eexists; split; [reflexivity |]. cbn.
      split; [discriminate |].
      split; [intros out' [= <-] _; now rewrite Et |].
      intros H. specialize (H out eq_refl). rewrite Et in H. discriminate H.
  - destruct (os_cpus w) as [| [| c s] l];
      (eexists; split; [reflexivity |]); cbn;
      (split; [discriminate |]);
      (split; [intros out' [=] | reflexivity]).
Qed.

(** The command prints an empty line: the model is that of [os.cpus()]. *)
Lemma getCPUModel_never_empty_sample :
  result_of (Metrics.getCPUModel "s/^ *//") Sample.silent
  = Ok "Intel(R) Xeon(R) CPU".
Proof.
  destruct (getCPUModel_never_empty "s/^ *//" Sample.silent)
    as (model & Hrun & _ & _ & Hfb).
  unfold result_of. rewrite Hrun. cbn [fst]. f_equal.
  apply Hfb. intros out [= <-]. reflexivity.
Defined.

Lemma not_below_zero (x : number) :
  Num.isNaN x = false -> lt x (of_Z 0) = false -> ge x (of_Z 0) = true.
Proof.
  destruct x as [| [|] | q]; try discriminate; try reflexivity.
  unfold lt, ge, le, of_Z. intros _ H.
  unfold Qlt_bool in H. now apply negb_false_iff in H.
Qed.

(** X8: the CPU usage is checked before it is shown.  In [part_000] the
    text is ['N/A'] or the one-decimal text of a number that is neither NaN
    nor negative; in the second program of [run.js] it is the one-decimal
    text of the load average or of a number between 0 and 100. *)
Theorem getCPUUsage_checked (w : World) :
  (exists s,
      result_of Part000.getCPUUsage w = Ok s /\
      (s = "N/A" \/
       exists x, Num.isNaN x = false /\ ge x (of_Z 0) = true /\
                 s = toFixed_digits 1 x)) /\
  (exists x,
      result_of RunNpmStart.getCPUUsage w = Ok (toFixed_digits 1 x) /\
      (x = Metrics.load_percent w \/
       Num.isNaN x = false /\ ge x (of_Z 0) = true /\
       le x (of_Z 100) = true)).
Proof.
  split.
  - unfold Part000.getCPUUsage. run_m.
    destruct (child_process_exec w Part000.vmstat_command) as [out | e];
      reduce; [| eexists; split; [reflexivity | now left]].
    destruct (Num.isNaN (Lit.parseFloat (Str.trim out))) eqn:En; reduce.
    + destruct (child_process_exec w Part000.top_command) as [top | e];
        reduce; [| eexists; split; [reflexivity | now left]].
      destruct (Num.isNaN (Lit.parseFloat (Str.trim top))) eqn:Et; reduce;
        [eexists; split; [reflexivity | now left] |].
      destruct (lt (Lit.parseFloat (Str.trim top)) (of_Z 0)) eqn:El; reduce;
        [eexists; split; [reflexivity | now left] |].
      eexists; split; [reflexivity |]. right. eexists.
      split; [exact Et |]. split; [now apply not_below_zero | reflexivity].
    + destruct (lt (Lit.parseFloat (Str.trim out)) (of_Z 0)) eqn:El; reduce.
      * destruct (child_process_exec w Part000.top_command) as [top | e];
          reduce; [| eexists; split; [reflexivity | now left]].
        destruct (Num.isNaN (Lit.parseFloat (Str.trim top))) eqn:Et; reduce;
          [eexists; split; [reflexivity | now left] |].
        destruct (lt (Lit.parseFloat (Str.trim top)) (of_Z 0)) eqn:El';
          reduce; [eexists; split; [reflexivity | now left] |].
        eexists; split; [reflexivity |]. right. eexists.
        split; [exact Et |]. split; [now apply not_below_zero | reflexivity].
      * destruct (gt (Lit.parseFloat (Str.trim out)) (of_Z 100)); reduce.
        -- destruct (child_process_exec w Part000.top_command) as [top | e];
             reduce; [| eexists; split; [reflexivity | now left]].
           destruct (Num.isNaN (Lit.parseFloat (Str.trim top))) eqn:Et;
             reduce; [eexists; split; [reflexivity | now left] |].
           destruct (lt (Lit.parseFloat (Str.trim top)) (of_Z 0)) eqn:El';
             reduce; [eexists; split; [reflexivity | now left] |].
           eexists; split; [reflexivity |]. right. eexists.
           split; [exact Et |].
           split; [now apply not_below_zero | reflexivity].
        -- eexists; split; [reflexivity |]. right. eexists.
           split; [exact En |].
           split; [now apply not_below_zero | reflexivity].
  - unfold RunNpmStart.getCPUUsage. run_m.
    destruct (child_process_exec w RunNpmStart.top_command) as [out | e];
      reduce; [| eexists; split; [reflexivity | now left]].
    destruct (Num.isNaN (Lit.parseFloat (Str.trim out))) eqn:En; reduce;
      [eexists; split; [reflexivity | now left] |].
    destruct (ge (Lit.parseFloat (Str.trim out)) (of_Z 0)) eqn:Eg; reduce;
      [| eexists; split; [reflexivity | now left]].
    destruct (le (Lit.parseFloat (Str.trim out)) (of_Z 100)) eqn:El; reduce;
      [| eexists; split; [reflexivity | now left]].
    eexists; split; [reflexivity |]. right. now repeat split.
Qed.

(** ** Sizes that cannot be read *)

Lemma formatBytes_not_a_number (v : value) (d : Z) :
  Val.isNaN v = true -> Common.formatBytes v d = Ok (VStr "0B").
Proof.
  intros H. unfold Common.formatBytes. rewrite H.
  now rewrite orb_true_r.
Qed.

(** X9: in the second program of [run.js] and in [part_000] a size that
    cannot be read is shown as ['0B'].  When the command of [getSwapInfo]
    or [getDiskInfo] succeeds, a figure that is missing from its output or
    is not a number -- for the swap of [run.js] also a zero -- gives the
    text ['0B'] in its place, and the collector returns normally. *)
Theorem unreadable_size_is_0B (w : World) (out : string) :
  (child_process_exec w RunNpmStart.swap_command = Ok out ->
   exists u,
     result_of RunNpmStart.getSwapInfo w = Ok u /\
     (truthy (Metrics.element (Metrics.numbers_of out) 0) = false ->
      Usage.total u = VStr "0B") /\
     (truthy (Metrics.element (Metrics.numbers_of out) 1) = false ->
      Usage.used u = VStr "0B")) /\
  (child_process_exec w Part000.swap_command = Ok out ->
   exists u,
     result_of Part000.getSwapInfo w = Ok u /\
     (Val.isNaN (Metrics.element (Metrics.numbers_of out) 0) = true ->
      Usage.total u = VStr "0B") /\
     (Val.isNaN (Metrics.element (Metrics.numbers_of out) 1) = true ->
      Usage.used u = VStr "0B")) /\
  (child_process_exec w Metrics.df_command = Ok out ->
   exists u,
     result_of (Metrics.getDiskInfo Common.formatBytes) w = Ok u /\
     (Val.isNaN (Metrics.element (Metrics.numbers_of out) 0) = true ->
      Usage.total u = VStr "0B") /\
     (Val.isNaN (Metrics.element (Metrics.numbers_of out) 1) = true ->
      Usage.used u = VStr "0B")).
Proof.
  split; [| split]; intros He.
  - unfold RunNpmStart.getSwapInfo, RunNpmStart.formatBytes. run_m.
    rewrite He. reduce.
    set (t := Metrics.element (Metrics.numbers_of out) 0).
    set (u := Metrics.element (Metrics.numbers_of out) 1).
    pose proof (formatBytes_ok (Val.or t (VNum (of_Z 0)))) as Ht.
    pose proof (formatBytes_ok (Val.or u (VNum (of_Z 0)))) as Hu.
    destruct (Common.formatBytes (Val.or t (VNum (of_Z 0))) 1)
      as [ft | e] eqn:Et; [| discriminate Ht].
    destruct (Common.formatBytes (Val.or u (VNum (of_Z 0))) 1)
      as [fu | e] eqn:Eu; [| discriminate Hu].
    reduce. eexists. split; [reflexivity |]. cbn [Usage.total Usage.used].
    split; intros Hf; unfold Val.or in *; rewrite Hf in *.
    + now injection Et as <-.
    + now injection Eu as <-.
  - unfold Part000.getSwapInfo, Part000.formatBytes. run_m.
    rewrite He. reduce. unfold Metrics.numbers_of.
    destruct (Str.split " " (Str.trim out)) as [| p0 [| p1 parts]];
      cbn [length Nat.ltb Nat.leb map nth Metrics.element nth_error];
      reduce;
      try (eexists; split; [reflexivity |]; now split).
    pose proof (formatBytes_ok (VNum (Lit.Number p0))) as Ht.
    pose proof (formatBytes_ok (VNum (Lit.Number p1))) as Hu.
    destruct (Common.formatBytes (VNum (Lit.Number p0)) 1)
      as [ft | e] eqn:Et; [| discriminate Ht].
    destruct (Common.formatBytes (VNum (Lit.Number p1)) 1)
      as [fu | e] eqn:Eu; [| discriminate Hu].
    reduce. eexists. split; [reflexivity |]. cbn [Usage.total Usage.used].
    split; intros Hf.
    + rewrite (formatBytes_not_a_number _ 1 Hf) in Et. now injection Et as <-.
    + rewrite (formatBytes_not_a_number _ 1 Hf) in Eu. now injection Eu as <-.
  - unfold Metrics.getDiskInfo. run_m. rewrite He. reduce.
    set (t := Metrics.element (Metrics.numbers_of out) 0).
    set (u := Metrics.element (Metrics.numbers_of out) 1).
    pose proof (formatBytes_ok t) as Ht.
    pose proof (formatBytes_ok u) as Hu.
    destruct (Common.formatBytes t 1) as [ft | e] eqn:Et;
      [| discriminate Ht].
    destruct (Common.formatBytes u 1) as [fu | e] eqn:Eu;
      [| discriminate Hu].
    reduce. eexists. split; [reflexivity |]. cbn [Usage.total Usage.used].
    split; intros Hf.
    + rewrite (formatBytes_not_a_number _ 1 Hf) in Et. now injection Et as <-.
    + rewrite (formatBytes_not_a_number _ 1 Hf) in Eu. now injection Eu as <-.
Qed.

(** On a host where every command prints an empty line the disk of
    [part_000] is ['0B'] twice. *)
Lemma unreadable_size_is_0B_sample :
  exists u,
    result_of (Metrics.getDiskInfo Common.formatBytes) Sample.silent = Ok u /\
    Usage.used u = VStr "0B".
Proof.
  destruct (proj2 (proj2 (unreadable_size_is_0B Sample.silent Str.nl))
              eq_refl) as (u & Hr & _ & Hu).
  exists u. split; [exact Hr | exact (Hu eq_refl)].
Defined.


(** ** Runs as a whole *)

Section Projections.

Import Trace.

Context {A B : Type} (m : M A) (f : A -> M B).

(** A computation that never raises hands its value to what follows. *)
Lemma run_bind_total :
  total m ->
  forall w, exists a,
    result_of m w = Ok a /\
    result_of (bind m f) w = result_of (f a) w /\
    events_of (bind m f) w = (events_of m w ++ events_of (f a) w)%list.
Proof.
  intros Ht w. specialize (Ht w). unfold events_of, result_of in *.
  rewrite bind_run. destruct (m w) as [[a | e] t]; simpl in *;
    [| discriminate].
  exists a. now repeat split.
Qed.

Lemma commands_bind_total :
  total m ->
  forall w, exists a,
    commands (events_of (bind m f) w)
    = (commands (events_of m w) ++ commands (events_of (f a) w))%list.
Proof.
  intros Ht w. destruct (run_bind_total Ht w) as (a & _ & _ & He).
  exists a. rewrite He. apply flat_map_app.
Qed.

Lemma logged_bind_total :
  total m ->
  forall w, exists a,
    result_of m w = Ok a /\
    logged (events_of (bind m f) w)
    = (logged (events_of m w) ++ logged (events_of (f a) w))%list.
Proof.
  intros Ht w. destruct (run_bind_total Ht w) as (a & Hr & _ & He).
  exists a. rewrite He. split; [exact Hr | apply flat_map_app].
Qed.

End Projections.

Lemma commands_none {A} (m : M A) (w : World) :
  only Trace.no_exec m -> commands (events_of m w) = [].
Proof.
  intros H. specialize (H w). induction (events_of m w) as [| e t IH];
    [reflexivity |].
  simpl in H. apply andb_prop in H. destruct H as [He Ht].
  destruct e; try discriminate He; simpl; now apply IH.
Qed.

Lemma logged_none {A} (m : M A) (w : World) :
  only Trace.no_log m -> logged (events_of m w) = [].
Proof.
  intros H. specialize (H w). induction (events_of m w) as [| e t IH];
    [reflexivity |].
  simpl in H. apply andb_prop in H. destruct H as [He Ht].
  destruct e; try discriminate He; simpl; now apply IH.
Qed.

Lemma spawns_none (t : list event) :
  forallb not_spawn t = true -> spawns t = [].
Proof.
  induction t as [| e t IH]; [reflexivity |]. simpl. intros H.
  apply andb_prop in H. destruct H as [He Ht].
  destruct e; try discriminate He; simpl; now apply IH.
Qed.

Lemma failures_none (t : list event) :
  forallb Trace.no_failure t = true ->
  Trace.errors t = [] /\ Trace.exits t = [].
Proof.
  induction t as [| e t IH]; [now split |]. simpl. intros H.
  apply andb_prop in H. destruct H as [He Ht].
  destruct e; try discriminate He; simpl; now apply IH.
Qed.

(** *** Commands of the banners *)

Lemma ip_commands (w : World) :
  commands (events_of Metrics.getPublicIPInfo w) = [Metrics.curl_command].
Proof.
  unfold Metrics.getPublicIPInfo. run_m.
  destruct (child_process_exec w Metrics.curl_command) as [out | e]; reduce;
    [| reflexivity].
  destruct (JSON_parse w out) as [data | e]; reduce; [| reflexivity].
  destruct data; reflexivity.
Qed.

Lemma disk_commands (fmt : value -> Z -> result value) (w : World) :
  commands (events_of (Metrics.getDiskInfo fmt) w) = [Metrics.df_command].
Proof.
  unfold Metrics.getDiskInfo. run_m.
  destruct (child_process_exec w Metrics.df_command) as [out | e]; reduce;
    [| reflexivity].
  destruct (fmt _ _); reduce; [| reflexivity].
  destruct (fmt _ _); reflexivity.
Qed.

Lemma model_commands (sed_expr : string) (w : World) :
  commands (events_of (Metrics.getCPUModel sed_expr) w)
  = [Metrics.cpuinfo_command sed_expr].
Proof.
  unfold Metrics.getCPUModel. run_m.
  now destruct (child_process_exec w (Metrics.cpuinfo_command sed_expr)).
Qed.

Lemma kernel_commands (w : World) :
  commands (events_of Metrics.getKernelVersion w) = [Metrics.uname_command].
Proof.
  unfold Metrics.getKernelVersion. run_m.
  now destruct (child_process_exec w Metrics.uname_command).
Qed.

Lemma npm_start_cpu_commands (w : World) :
  commands (events_of RunNpmStart.getCPUUsage w) = [RunNpmStart.top_command].
Proof.
  unfold RunNpmStart.getCPUUsage. run_m.
  destruct (child_process_exec w RunNpmStart.top_command) as [out | e];
    reduce; [| reflexivity].
  now destruct (_ && _)%bool.
Qed.

Lemma launcher_cpu_commands (w : World) :
  commands (events_of RunLauncher.getCPUUsage w) = [RunLauncher.top_command].
Proof.
  unfold RunLauncher.getCPUUsage. run_m.
  destruct (child_process_exec w RunLauncher.top_command) as [out | e];
    reduce; [| reflexivity].
  now destruct (negb _).
Qed.

Lemma part_001_cpu_commands (w : World) :
  commands (events_of Part001.getCPUUsage w) = [Part001.top_command].
Proof.
  unfold Part001.getCPUUsage. run_m.
  now destruct (child_process_exec w Part001.top_command).
Qed.

Lemma part_000_cpu_second (w : World) :
  commands (events_of Part000.getCPUUsage w)
  = Part000.vmstat_command :: Layout.second_cpu_command w.
Proof.
  rewrite part_000_cpu_commands. unfold Layout.second_cpu_command.
  destruct (child_process_exec w Part000.vmstat_command) as [out | e];
    [| reflexivity].
  now destruct (not_a_percentage out).
Qed.

Lemma npm_start_swap_commands (w : World) :
  commands (events_of RunNpmStart.getSwapInfo w) = [RunNpmStart.swap_command].
Proof.
  unfold RunNpmStart.getSwapInfo. run_m.
  destruct (child_process_exec w RunNpmStart.swap_command) as [out | e];
    reduce; [| reflexivity].
  destruct (RunNpmStart.formatBytes _ _); reduce; [| reflexivity].
  destruct (RunNpmStart.formatBytes _ _); reflexivity.
Qed.

Lemma part_000_swap_commands (w : World) :
  commands (events_of Part000.getSwapInfo w) = [Part000.swap_command].
Proof.
  unfold Part000.getSwapInfo. run_m.
  destruct (child_process_exec w Part000.swap_command) as [out | e];
    reduce; [| reflexivity].
  destruct (_ <? 2)%nat; reduce; [reflexivity |].
  destruct (Part000.formatBytes _ _); reduce; [| reflexivity].
  destruct (Part000.formatBytes _ _); reflexivity.
Qed.

Lemma part_001_swap_commands (w : World) :
  commands (events_of Part001.getSwapInfo w) = [Part001.swap_command].
Proof.
  unfold Part001.getSwapInfo. run_m.
  destruct (child_process_exec w Part001.swap_command) as [out | e];
    reduce; [| reflexivity].
  destruct (Part001.formatBytes _ _); reduce; [| reflexivity].
  destruct (Part001.formatBytes _ _); reflexivity.
Qed.

Lemma memory_commands (fmt : value -> Z -> result value) (w : World) :
  commands (events_of (Metrics.getMemoryInfo fmt) w) = [].
Proof.
  unfold Metrics.getMemoryInfo. run_m. reduce.
  destruct (fmt _ _); reduce; [| reflexivity].
  destruct (fmt _ _); reduce; [| reflexivity].
  destruct (fmt _ _); reflexivity.
Qed.

Lemma printAll_commands (colors_red : value) (ipInfo : IP.t)
    (cpuUsage : string) (memory : Mem.t) (swap disk : Usage.t)
    (cpuModel kernel uptime currentTime : string) (w : World) :
  commands (events_of (Metrics.printAll colors_red ipInfo cpuUsage memory swap
                         disk cpuModel kernel uptime currentTime) w) = [].
Proof. apply commands_none. prove_only. Qed.

(** Splits the commands of a sequence whose first part never raises. *)
Ltac split_commands w :=
  repeat (match goal with
          | |- context [commands (events_of (bind ?m ?f) w)] =>
              let a := fresh "a" in
              let H := fresh "H" in
              assert (H : total m) by prove_total;
              destruct (commands_bind_total m f H w) as [a ->];
              clear H
          end; cbv beta zeta).

Ltac collector_commands_known :=
  rewrite ?ip_commands, ?disk_commands, ?model_commands, ?kernel_commands,
    ?memory_commands, ?printAll_commands, ?npm_start_cpu_commands,
    ?launcher_cpu_commands, ?part_001_cpu_commands, ?part_000_cpu_second,
    ?npm_start_swap_commands, ?part_000_swap_commands,
    ?part_001_swap_commands.

(** X10: the commands of a banner do not depend on their outcomes.  The
    short banner runs [top] alone; the full banners of [run.js] and
    [part_001] run six commands -- [curl], [top], [free], [df], the read
    of [/proc/cpuinfo] and [uname] -- once each and in this order, whether
    they succeed or fail; [part_000] runs [vmstat] in the place of [top],
    followed by [top] exactly when [vmstat] printed no percentage. *)
Theorem banner_commands (w : World) :
  commands (events_of RunLauncher.displaySystemInfo w)
  = [RunLauncher.top_command] /\
  commands (events_of RunNpmStart.displaySystemInfo w)
  = [Metrics.curl_command; RunNpmStart.top_command;
     RunNpmStart.swap_command; Metrics.df_command;
     Metrics.cpuinfo_command "s/^ *//"; Metrics.uname_command] /\
  commands (events_of Part000.displaySystemInfo w)
  = ([Metrics.curl_command; Part000.vmstat_command]
     ++ Layout.second_cpu_command w
     ++ [Part000.swap_command; Metrics.df_command;
         Metrics.cpuinfo_command "s/^[ \t]*//"; Metrics.uname_command])%list /\
  commands (events_of Part001.displaySystemInfo w)
  = [Metrics.curl_command; Part001.top_command;
     Part001.swap_command; Metrics.df_command;
     Metrics.cpuinfo_command "s/^[ \t]*//"; Metrics.uname_command].
Proof.
  repeat split.
  - unfold RunLauncher.displaySystemInfo, RunLauncher.getMemoryInfo.
    split_commands w. collector_commands_known. reflexivity.
  - unfold RunNpmStart.displaySystemInfo, RunNpmStart.getPublicIPInfo,
      RunNpmStart.getMemoryInfo, RunNpmStart.getDiskInfo,
      RunNpmStart.getCPUModel, RunNpmStart.getKernelVersion.
    split_commands w. collector_commands_known. reflexivity.
  - unfold Part000.displaySystemInfo, Part000.getPublicIPInfo,
      Part000.getMemoryInfo, Part000.getDiskInfo,
      Part000.getCPUModel, Part000.getKernelVersion.
    split_commands w. collector_commands_known. reflexivity.
  - unfold Part001.displaySystemInfo, Part001.getPublicIPInfo,
      Part001.getMemoryInfo, Part001.getDiskInfo,
      Part001.getCPUModel, Part001.getKernelVersion.
    split_commands w. collector_commands_known. reflexivity.
Qed.

(** *** Lines of the full banners *)

Lemma replace1_same (c : ascii) (s : string) :
  Str.replace1 c (String c "") s = s.
Proof.
  induction s as [| a s IH]; [reflexivity |]. cbn [Str.replace1].
  destruct (Ascii.eqb a c) eqn:E.
  - apply Ascii.eqb_eq in E. now subst.
  - now rewrite IH.
Qed.

Lemma printAll_logged (colors_red : value) (ipInfo : IP.t)
    (cpuUsage : string) (memory : Mem.t) (swap disk : Usage.t)
    (cpuModel kernel uptime currentTime : string) (w : World) :
  logged (events_of (Metrics.printAll colors_red ipInfo cpuUsage memory swap
                       disk cpuModel kernel uptime currentTime) w)
  = Layout.rows (Metrics.color_or_white colors_red) w ipInfo cpuUsage memory
      swap disk cpuModel kernel uptime currentTime.
Proof. reflexivity. Qed.

Lemma total_result {A} (m : M A) (w : World) :
  total m -> exists a, result_of m w = Ok a.
Proof.
  intros H. specialize (H w). destruct (result_of m w) as [a | e];
    [now exists a | discriminate].
Qed.

(** Splits the logged lines of a sequence whose first part never raises,
    naming a value by the one already known for the same computation. *)
Ltac split_logged w :=
  repeat (match goal with
          | |- context [logged (events_of (bind ?m ?f) w)] =>
              let a := fresh "a" in
              let H := fresh "H" in
              let Hr := fresh "Hr" in
              assert (H : total m) by prove_total;
              destruct (logged_bind_total m f H w) as (a & Hr & ->);
              clear H;
              try first
                [ match goal with
                  | Hk : result_of m w = Ok _ |- _ =>
                      rewrite Hk in Hr; injection Hr as <-
                  end
                | cbv beta iota delta [result_of ask fst] in Hr;
                  injection Hr as <- ]
          end; cbv beta zeta).

Ltac quiet_collector :=
  match goal with
  | |- context [logged (events_of ?m ?w)] =>
      rewrite (logged_none m w) by prove_only
  end.

Section FullBanners.

Variable w : World.

(** The lines of the full banner of the second program of [run.js]. *)
Lemma npm_start_banner_logged :
  exists ipInfo cpuUsage memory swap disk cpuModel kernel,
    (result_of RunNpmStart.getPublicIPInfo w = Ok ipInfo /\
     result_of RunNpmStart.getCPUUsage w = Ok cpuUsage /\
     result_of RunNpmStart.getMemoryInfo w = Ok memory /\
     result_of RunNpmStart.getSwapInfo w = Ok swap /\
     result_of RunNpmStart.getDiskInfo w = Ok disk /\
     result_of RunNpmStart.getCPUModel w = Ok cpuModel /\
     result_of RunNpmStart.getKernelVersion w = Ok kernel) /\
    logged (events_of RunNpmStart.displaySystemInfo w)
    = Layout.full_banner Layout.npm_start_title
        "  ✓ System Ready - Checking Node Modules..." Common.red w
        ipInfo cpuUsage memory swap disk cpuModel kernel
        (RunNpmStart.formatUptime (os_uptime w)).
Proof.
  destruct (total_result RunNpmStart.getPublicIPInfo w) as [ipInfo Hi];
    [prove_total |].
  destruct (total_result RunNpmStart.getCPUUsage w) as [cpuUsage Hc];
    [prove_total |].
  destruct (total_result RunNpmStart.getMemoryInfo w) as [memory Hm];
    [prove_total |].
  destruct (total_result RunNpmStart.getSwapInfo w) as [swap Hs];
    [prove_total |].
  destruct (total_result RunNpmStart.getDiskInfo w) as [disk Hd];
    [prove_total |].
  destruct (total_result RunNpmStart.getCPUModel w) as [cpuModel Hp];
    [prove_total |].
  destruct (total_result RunNpmStart.getKernelVersion w) as [kernel Hk];
    [prove_total |].
  exists ipInfo, cpuUsage, memory, swap, disk, cpuModel, kernel.
  split; [now repeat split |].
  unfold RunNpmStart.displaySystemInfo.
  split_logged w. rewrite printAll_logged.
  repeat quiet_collector. reflexivity.
Qed.

(** The lines of the banner of [part_000]. *)
Lemma part_000_banner_logged :
  exists ipInfo cpuUsage memory swap disk cpuModel kernel,
    (result_of Part000.getPublicIPInfo w = Ok ipInfo /\
     result_of Part000.getCPUUsage w = Ok cpuUsage /\
     result_of Part000.getMemoryInfo w = Ok memory /\
     result_of Part000.getSwapInfo w = Ok swap /\
     result_of Part000.getDiskInfo w = Ok disk /\
     result_of Part000.getCPUModel w = Ok cpuModel /\
     result_of Part000.getKernelVersion w = Ok kernel) /\
    logged (events_of Part000.displaySystemInfo w)
    = Layout.full_banner Layout.part_000_title
        "  ✓ System Ready - Silahkan ketik perintah anda ..." Common.red w
        ipInfo cpuUsage memory swap disk cpuModel kernel
        (Part000.formatUptime (os_uptime w)).
Proof.
  destruct (total_result Part000.getPublicIPInfo w) as [ipInfo Hi];
    [prove_total |].
  destruct (total_result Part000.getCPUUsage w) as [cpuUsage Hc];
    [prove_total |].
  destruct (total_result Part000.getMemoryInfo w) as [memory Hm];
    [prove_total |].
  destruct (total_result Part000.getSwapInfo w) as [swap Hs];
    [prove_total |].
  destruct (total_result Part000.getDiskInfo w) as [disk Hd];
    [prove_total |].
  destruct (total_result Part000.getCPUModel w) as [cpuModel Hp];
    [prove_total |].
  destruct (total_result Part000.getKernelVersion w) as [kernel Hk];
    [prove_total |].
  exists ipInfo, cpuUsage, memory, swap, disk, cpuModel, kernel.
  split; [now repeat split |].
  unfold Part000.displaySystemInfo.
  split_logged w. rewrite printAll_logged, replace1_same.
  repeat quiet_collector. reflexivity.
Qed.

(** The lines of the banner of [part_001], where the CPU usage takes the
    default colour. *)
Lemma part_001_banner_logged :
  exists ipInfo cpuUsage memory swap disk cpuModel kernel,
    (result_of Part001.getPublicIPInfo w = Ok ipInfo /\
     result_of Part001.getCPUUsage w = Ok cpuUsage /\
     result_of Part001.getMemoryInfo w = Ok memory /\
     result_of Part001.getSwapInfo w = Ok swap /\
     result_of Part001.getDiskInfo w = Ok disk /\
     result_of Part001.getCPUModel w = Ok cpuModel /\
     result_of Part001.getKernelVersion w = Ok kernel) /\
    logged (events_of Part001.displaySystemInfo w)
    = Layout.full_banner Layout.part_001_title
        "  ✓ System Ready - Starting Bash Shell..." Common.white w
        ipInfo cpuUsage memory swap disk cpuModel kernel
        (Part001.formatUptime (os_uptime w)).
Proof.
  destruct (total_result Part001.getPublicIPInfo w) as [ipInfo Hi];
    [prove_total |].
  destruct (total_result Part001.getCPUUsage w) as [cpuUsage Hc];
    [prove_total |].
  destruct (total_result Part001.getMemoryInfo w) as [memory Hm];
    [prove_total |].
  destruct (total_result Part001.getSwapInfo w) as [swap Hs];
    [prove_total |].
  destruct (total_result Part001.getDiskInfo w) as [disk Hd];
    [prove_total |].
  destruct (total_result Part001.getCPUModel w) as [cpuModel Hp];
    [prove_total |].
  destruct (total_result Part001.getKernelVersion w) as [kernel Hk];
    [prove_total |].
  exists ipInfo, cpuUsage, memory, swap, disk, cpuModel, kernel.
  split; [now repeat split |].
  unfold Part001.displaySystemInfo.
  split_logged w. rewrite printAll_logged, replace1_same.
  repeat quiet_collector. reflexivity.
Qed.

End FullBanners.

(** X11: a full banner logs the same twenty-six lines on every host: five
    of heading, the sixteen information lines in a fixed order and with
    fixed labels, and five of footing.  The colours are fixed too; they are
    the same in the three banners but for the CPU usage, red in [run.js]
    and [part_000] and, the table of [part_001] having no [red], the
    default white there.  The values shown are what the seven collectors
    returned on this host, each collector being run once, with the type of
    the OS, the version of Node.js without its first character, the number
    of CPUs, the architecture, the uptime and the time of the host; the
    replacement applied to the time in [part_000] and [part_001] leaves it
    as it is. *)
Theorem full_banner_lines (w : World) :
  (exists ipInfo cpuUsage memory swap disk cpuModel kernel,
      (result_of RunNpmStart.getPublicIPInfo w = Ok ipInfo /\
       result_of RunNpmStart.getCPUUsage w = Ok cpuUsage /\
       result_of RunNpmStart.getMemoryInfo w = Ok memory /\
       result_of RunNpmStart.getSwapInfo w = Ok swap /\
       result_of RunNpmStart.getDiskInfo w = Ok disk /\
       result_of RunNpmStart.getCPUModel w = Ok cpuModel /\
       result_of RunNpmStart.getKernelVersion w = Ok kernel) /\
      logged (events_of RunNpmStart.displaySystemInfo w)
      = Layout.full_banner Layout.npm_start_title
          "  ✓ System Ready - Checking Node Modules..." Common.red w
          ipInfo cpuUsage memory swap disk cpuModel kernel
          (RunNpmStart.formatUptime (os_uptime w))) /\
  (exists ipInfo cpuUsage memory swap disk cpuModel kernel,
      (result_of Part000.getPublicIPInfo w = Ok ipInfo /\
       result_of Part000.getCPUUsage w = Ok cpuUsage /\
       result_of Part000.getMemoryInfo w = Ok memory /\
       result_of Part000.getSwapInfo w = Ok swap /\
       result_of Part000.getDiskInfo w = Ok disk /\
       result_of Part000.getCPUModel w = Ok cpuModel /\
       result_of Part000.getKernelVersion w = Ok kernel) /\
      logged (events_of Part000.displaySystemInfo w)
      = Layout.full_banner Layout.part_000_title
          "  ✓ System Ready - Silahkan ketik perintah anda ..." Common.red w
          ipInfo cpuUsage memory swap disk cpuModel kernel
          (Part000.formatUptime (os_uptime w))) /\
  (exists ipInfo cpuUsage memory swap disk cpuModel kernel,
      (result_of Part001.getPublicIPInfo w = Ok ipInfo /\
       result_of Part001.getCPUUsage w = Ok cpuUsage /\
       result_of Part001.getMemoryInfo w = Ok memory /\
       result_of Part001.getSwapInfo w = Ok swap /\
       result_of Part001.getDiskInfo w = Ok disk /\
       result_of Part001.getCPUModel w = Ok cpuModel /\
       result_of Part001.getKernelVersion w = Ok kernel) /\
      logged (events_of Part001.displaySystemInfo w)
      = Layout.full_banner Layout.part_001_title
          "  ✓ System Ready - Starting Bash Shell..." Common.white w
          ipInfo cpuUsage memory swap disk cpuModel kernel
          (Part001.formatUptime (os_uptime w))) /\
  Layout.full_banner Layout.part_001_title "" Common.white
  <> Layout.full_banner Layout.part_001_title "" Common.red.
Proof.
  split; [apply npm_start_banner_logged |].
  split; [apply part_000_banner_logged |].
  split; [apply part_001_banner_logged |].
  intros H.
  assert (Hn : nth 19 (Layout.full_banner Layout.part_001_title ""
                         Common.white Sample.offline Metrics.not_available ""
                         {| Mem.total := VUndef; Mem.used := VUndef;
                            Mem.free := VUndef |}
                         (both "") (both "") "" "" "")
                   ""
               = nth 19 (Layout.full_banner Layout.part_001_title ""
                           Common.red Sample.offline Metrics.not_available ""
                           {| Mem.total := VUndef; Mem.used := VUndef;
                              Mem.free := VUndef |}
                           (both "") (both "") "" "" "")
                   "")
    by now rewrite H.
  discriminate Hn.
Qed.

(** *** The child *)

Lemma spawns_app (t t' : list event) :
  spawns (t ++ t') = (spawns t ++ spawns t')%list.
Proof. apply flat_map_app. Qed.

Lemma total_unit (m : M unit) (w : World) :
  total m -> result_of m w = Ok tt.
Proof.
  intros H. destruct (total_result m w H) as [[] Hr]. exact Hr.
Qed.

Lemma npm_start_banner_quiet :
  only not_spawn RunNpmStart.displaySystemInfo /\
  only Trace.no_failure RunNpmStart.displaySystemInfo.
Proof. split; prove_only. Qed.

Lemma part_000_banner_quiet :
  only not_spawn Part000.displaySystemInfo /\
  only Trace.no_failure Part000.displaySystemInfo.
Proof. split; prove_only. Qed.

Lemma part_001_banner_quiet :
  only not_spawn Part001.displaySystemInfo /\
  only Trace.no_failure Part001.displaySystemInfo.
Proof. split; prove_only. Qed.

Lemma launcher_banner_quiet : only not_spawn RunLauncher.displaySystemInfo.
Proof. prove_only. Qed.

Lemma launcher_install_quiet : only not_spawn RunLauncher.ensureNodeModules.
Proof. prove_only. Qed.

Lemma npm_start_install_quiet : only not_spawn RunNpmStart.ensureNodeModules.
Proof. prove_only. Qed.

(** A run of [part_000] is its banner followed by the shell. *)
Lemma part_000_run (w : World) :
  Part000.run w
  = (Ok tt, (events_of Part000.displaySystemInfo w
             ++ [Spawn "bash" ["-c"; Part000.bash_script "Gofar"]])%list).
Proof.
  pose proof (total_unit _ w part_000_banner_total) as Hr.
  unfold Part000.run, Part000.main. rewrite try_catch_run, bind_run.
  unfold result_of, events_of in *.
  destruct (Part000.displaySystemInfo w) as [r t]. simpl in Hr. subst r.
  reflexivity.
Qed.

Lemma part_001_run (w : World) :
  Part001.run w
  = (Ok tt, (events_of Part001.displaySystemInfo w
             ++ [Spawn "bash" ["-c"; Part000.bash_script "XMPANEL"]])%list).
Proof.
  pose proof (total_unit _ w part_001_banner_total) as Hr.
  unfold Part001.run, Part001.main. rewrite try_catch_run, bind_run.
  unfold result_of, events_of in *.
  destruct (Part001.displaySystemInfo w) as [r t]. simpl in Hr. subst r.
  reflexivity.
Qed.

Lemma failures_app (t t' : list event) :
  Trace.errors (t ++ t') = (Trace.errors t ++ Trace.errors t')%list /\
  Trace.exits (t ++ t') = (Trace.exits t ++ Trace.exits t')%list.
Proof. split; apply flat_map_app. Qed.

(** ** Order of a run and its summary *)

Lemma complete_launcher (w : World) :
  Layout.complete_summary run_launcher w
    (logged (events_of RunLauncher.displaySystemInfo w)).
Proof. apply launcher_banner_text. Qed.

Lemma complete_npm_start (w : World) :
  Layout.complete_summary run_npm_start w
    (logged (events_of RunNpmStart.displaySystemInfo w)).
Proof.
  destruct (npm_start_banner_logged w)
    as (i & c & m & s & d & p & k & _ & H).
  now exists i, c, m, s, d, p, k.
Qed.

Lemma complete_part_000 (w : World) :
  Layout.complete_summary part_000 w
    (logged (events_of Part000.displaySystemInfo w)).
Proof.
  destruct (part_000_banner_logged w)
    as (i & c & m & s & d & p & k & _ & H).
  now exists i, c, m, s, d, p, k.
Qed.

Lemma complete_part_001 (w : World) :
  Layout.complete_summary part_001 w
    (logged (events_of Part001.displaySystemInfo w)).
Proof.
  destruct (part_001_banner_logged w)
    as (i & c & m & s & d & p & k & _ & H).
  now exists i, c, m, s, d, p, k.
Qed.

(** The summary is never empty: it ends with the line of the program. *)
Lemma complete_summary_lines (p : program) (w : World)
    (lines : list string) :
  Layout.complete_summary p w lines ->
  length lines = match p with run_launcher => 10%nat | _ => 26%nat end.
Proof.
  destruct p; cbn [Layout.complete_summary].
  - intros (t & u & c & ->). reflexivity.
  - intros (i & c & m & s & d & q & k & ->). reflexivity.
  - intros (i & c & m & s & d & q & k & ->). reflexivity.
  - intros (i & c & m & s & d & q & k & ->). reflexivity.
Qed.

(** C5: in every program the events of a run are those of
    [displaySystemInfo], then those of [ensureNodeModules] (where the program
    has one), then those of the function that starts the child.  The first
    part logs the complete summary of the program -- its ten or twenty-six
    lines, from the heading to the closing line -- and holds no installation
    and no child; the second holds no child, the third no installation.  So
    the whole summary is printed before an installation is attempted, and an
    installation has been awaited before the child is spawned. *)
Theorem banner_then_install_then_child (w : World) :
  (events_of RunLauncher.main w =
     (events_of RunLauncher.displaySystemInfo w ++
      events_of RunLauncher.ensureNodeModules w ++
      events_of RunLauncher.startApp w)%list /\
   Layout.complete_summary run_launcher w
     (logged (events_of RunLauncher.displaySystemInfo w)) /\
   forallb is_banner_event (events_of RunLauncher.displaySystemInfo w) = true /\
   forallb not_spawn (events_of RunLauncher.ensureNodeModules w) = true /\
   forallb not_install (events_of RunLauncher.startApp w) = true) /\
  (events_of RunNpmStart.main w =
     (events_of RunNpmStart.displaySystemInfo w ++
      events_of RunNpmStart.ensureNodeModules w ++
      events_of RunNpmStart.startApp w)%list /\
   Layout.complete_summary run_npm_start w
     (logged (events_of RunNpmStart.displaySystemInfo w)) /\
   forallb is_banner_event (events_of RunNpmStart.displaySystemInfo w) = true /\
   forallb not_spawn (events_of RunNpmStart.ensureNodeModules w) = true /\
   forallb not_install (events_of RunNpmStart.startApp w) = true) /\
  (events_of Part000.run w =
     (events_of Part000.displaySystemInfo w ++
      events_of Part000.startBash w)%list /\
   Layout.complete_summary part_000 w
     (logged (events_of Part000.displaySystemInfo w)) /\
   forallb is_banner_event (events_of Part000.displaySystemInfo w) = true /\
   forallb not_install (events_of Part000.startBash w) = true) /\
  (events_of Part001.run w =
     (events_of Part001.displaySystemInfo w ++
      events_of Part001.startBash w)%list /\
   Layout.complete_summary part_001 w
     (logged (events_of Part001.displaySystemInfo w)) /\
   forallb is_banner_event (events_of Part001.displaySystemInfo w) = true /\
   forallb not_install (events_of Part001.startBash w) = true) /\
  (forall p lines,
      Layout.complete_summary p w lines ->
      length lines = match p with run_launcher => 10%nat | _ => 26%nat end).
Proof.
  repeat split.
  - unfold RunLauncher.main.
    rewrite (events_seq _ _ launcher_banner_total).
    now rewrite (events_seq _ _ launcher_install_total).
  - apply complete_launcher.
  - revert w. change (only is_banner_event RunLauncher.displaySystemInfo).
    prove_only.
  - revert w. change (only not_spawn RunLauncher.ensureNodeModules).
    prove_only.
  - apply launcher_startApp_no_install.
  - unfold RunNpmStart.main.
    rewrite (events_seq _ _ npm_start_banner_total).
    now rewrite (events_seq _ _ npm_start_install_total).
  - apply complete_npm_start.
  - revert w. change (only is_banner_event RunNpmStart.displaySystemInfo).
    prove_only.
  - revert w. change (only not_spawn RunNpmStart.ensureNodeModules).
    prove_only.
  - unfold events_of. now rewrite part_000_run.
  - apply complete_part_000.
  - revert w. change (only is_banner_event Part000.displaySystemInfo).
    prove_only.
  - unfold events_of. now rewrite part_001_run.
  - apply complete_part_001.
  - revert w. change (only is_banner_event Part001.displaySystemInfo).
    prove_only.
  - intros. eapply complete_summary_lines. eassumption.
Qed.

(** X12: the child is started on every host.  The second program of
    [run.js] returns normally having spawned [npm start] and nothing else,
    even when both installations fail; [part_000] and [part_001] spawn
    their one [bash -c] script, and since nothing in the banner can raise
    the handler of a fatal error never runs: nothing is written with
    [console.error] and [process.exit] is not called.  ([spawn] itself is
    an event of the run: that it might raise is not represented.) *)
Theorem child_always_started (w : World) :
  (result_of RunNpmStart.main w = Ok tt /\
   spawns (events_of RunNpmStart.main w) = [("npm", ["start"])]) /\
  (result_of Part000.run w = Ok tt /\
   spawns (events_of Part000.run w)
   = [("bash", ["-c"; Part000.bash_script "Gofar"])] /\
   Trace.errors (events_of Part000.run w) = [] /\
   Trace.exits (events_of Part000.run w) = []) /\
  (result_of Part001.run w = Ok tt /\
   spawns (events_of Part001.run w)
   = [("bash", ["-c"; Part000.bash_script "XMPANEL"])] /\
   Trace.errors (events_of Part001.run w) = [] /\
   Trace.exits (events_of Part001.run w) = []).
Proof.
  split; [| split].
  - split.
    + apply total_unit. unfold RunNpmStart.main.
      apply total_bind; [apply npm_start_banner_total |]. intros _.
      apply total_bind; [apply npm_start_install_total |]. intros _.
      prove_total.
    + unfold RunNpmStart.main.
      rewrite (events_seq _ _ npm_start_banner_total).
      rewrite (events_seq _ _ npm_start_install_total).
      rewrite !spawns_app.
      rewrite (spawns_none _ (proj1 npm_start_banner_quiet w)).
      rewrite (spawns_none _ (npm_start_install_quiet w)).
      reflexivity.
  - assert (Hr : result_of Part000.run w = Ok tt)
      by (unfold result_of; now rewrite part_000_run).
    assert (Hv : events_of Part000.run w
                 = (events_of Part000.displaySystemInfo w
                    ++ [Spawn "bash" ["-c"; Part000.bash_script "Gofar"]])%list)
      by (unfold events_of; now rewrite part_000_run).
    rewrite Hr, Hv.
    destruct (failures_app (events_of Part000.displaySystemInfo w)
                [Spawn "bash" ["-c"; Part000.bash_script "Gofar"]])
      as [He Hx].
    destruct (failures_none _ (proj2 part_000_banner_quiet w)) as [He' Hx'].
    rewrite spawns_app, He, Hx, He', Hx'.
    rewrite (spawns_none _ (proj1 part_000_banner_quiet w)).
    now repeat split.
  - assert (Hr : result_of Part001.run w = Ok tt)
      by (unfold result_of; now rewrite part_001_run).
    assert (Hv : events_of Part001.run w
                 = (events_of Part001.displaySystemInfo w
                    ++ [Spawn "bash" ["-c"; Part000.bash_script "XMPANEL"]])%list)
      by (unfold events_of; now rewrite part_001_run).
    rewrite Hr, Hv.
    destruct (failures_app (events_of Part001.displaySystemInfo w)
                [Spawn "bash" ["-c"; Part000.bash_script "XMPANEL"]])
      as [He Hx].
    destruct (failures_none _ (proj2 part_001_banner_quiet w)) as [He' Hx'].
    rewrite spawns_app, He, Hx, He', Hx'.
    rewrite (spawns_none _ (proj1 part_001_banner_quiet w)).
    now repeat split.
Qed.

(** X13: in the launcher the result of [ensureNodeModules] decides
    nothing: whether [package.json] is missing, the installation failed or
    all went well, the run ends as [startApp] ends on this host -- same
    result or exception, same child. *)
Theorem launcher_starts_whatever_the_installation (w : World) :
  result_of RunLauncher.main w = result_of RunLauncher.startApp w /\
  spawns (events_of RunLauncher.main w)
  = spawns (events_of RunLauncher.startApp w).
Proof.
  unfold RunLauncher.main. split.
  - destruct (run_bind_total RunLauncher.displaySystemInfo
                (fun _ => bind RunLauncher.ensureNodeModules
                            (fun _ => RunLauncher.startApp))
                launcher_banner_total w) as (a & _ & -> & _).
    destruct (run_bind_total RunLauncher.ensureNodeModules
                (fun _ => RunLauncher.startApp)
                launcher_install_total w) as (b & _ & -> & _).
    reflexivity.
  - rewrite (events_seq _ _ launcher_banner_total).
    destruct (run_bind_total RunLauncher.ensureNodeModules
                (fun _ => RunLauncher.startApp)
                launcher_install_total w) as (b & _ & _ & ->).
    rewrite !spawns_app.
    rewrite (spawns_none _ (launcher_banner_quiet w)).
    rewrite (spawns_none _ (launcher_install_quiet w)).
    reflexivity.
Qed.

(** *** The launcher outside what it can read *)

(** Closes the plain parts of a case of [startApp]. *)
Ltac plain_parts :=
  repeat split; intros;
  try discriminate; try reflexivity; try exact I; try (simpl; lia).

(** Closes a case of [startApp] where [package.json] was read. *)
Ltac parsed_case Ej :=
  plain_parts;
  try (do 2 eexists; repeat split;
       first [eassumption | reflexivity | discriminate]);
  try match goal with
      | H : exists t p, _ |- _ =>
          let t := fresh in
          let p := fresh in
          let Ht := fresh in
          let Hp := fresh in
          let Hn := fresh in
          let Hu := fresh in
          destruct H as (t & p & Ht & Hp & Hn & Hu);
          injection Ht as <-; rewrite Ej in Hp;
          first [discriminate Hp | injection Hp as <-; congruence]
      end.

(** X14: [startApp] returns normally exactly when what it needs can be
    read: [package.json], when present, is read and parses to something
    other than [null]; the directory, when it has to be searched, can be
    listed.  Otherwise it raises before it has logged or spawned anything.
    It never spawns more than one child, and when it returns it has logged
    exactly one line. *)
Theorem startApp_returns_iff_readable (w : World) :
  (result_of RunLauncher.startApp w = Ok tt <-> Reference.readable w) /\
  (forall e, result_of RunLauncher.startApp w = Throw e ->
             events_of RunLauncher.startApp w = []) /\
  (length (spawns (events_of RunLauncher.startApp w)) <= 1)%nat /\
  (result_of RunLauncher.startApp w = Ok tt ->
   length (logged (events_of RunLauncher.startApp w)) = 1%nat).
Proof.
  unfold Reference.readable, Reference.pkgPath, Reference.indexPath,
    Reference.home.
  unfold RunLauncher.startApp, RunLauncher.find_js. run_m.
  destruct (fs_existsSync w "/home/container/package.json"); reduce.
  - destruct (fs_readFileSync w "/home/container/package.json")
      as [text | e] eqn:Er; reduce.
    + destruct (JSON_parse w text) as [pkg | e] eqn:Ej; reduce.
      * destruct pkg as [| | b | n | s | items | fields];
          cbn [Val.get Val.get_opt]; reduce;
          try destruct (lookup "scripts" fields)
            as [| | b | n | s | items | start];
          by_truthiness; parsed_case Ej.
      * parsed_case Ej.
    + plain_parts.
      match goal with
      | H : exists t p, _ |- _ => destruct H as (t & p & Ht & _)
      end.
      discriminate Ht.
  - destruct (fs_existsSync w "/home/container/index.js"); reduce.
    + plain_parts.
    + destruct (fs_readdirSync w "/home/container") as [files | e]; reduce.
      * destruct (find (Str.endsWith ".js") files) as [f |] eqn:Hf.
        -- apply find_some in Hf. destruct Hf as [_ Hf].
           apply endsWith_js_nonempty in Hf.
           destruct f as [| c f]; [congruence |]. cbn.
           plain_parts. now exists files.
        -- cbn. plain_parts. now exists files.
      * plain_parts.
        match goal with
        | H : exists files, _ |- _ => destruct H as (files & Hf)
        end.
        discriminate Hf.
Qed.

(** *** Installation *)

(** X15: neither [ensureNodeModules] raises.  That of the launcher returns
    [true] exactly when [package.json] exists and [node_modules] exists or
    the installation succeeded, and reports a failure with [console.log]
    only; that of the second program of [run.js] reports each failed
    attempt with [console.error] and the message of its error: none, the
    installation, or the installation and the reinstallation. *)
Theorem ensureNodeModules_outcome (w : World) :
  result_of RunLauncher.ensureNodeModules w
  = Ok (fs_existsSync w "/home/container/package.json" &&
        (fs_existsSync w "/home/container/node_modules" ||
         is_ok (child_process_exec w RunLauncher.install_command)))%bool /\
  Trace.errors (events_of RunLauncher.ensureNodeModules w) = [] /\
  result_of RunNpmStart.ensureNodeModules w = Ok tt /\
  Trace.errors (events_of RunNpmStart.ensureNodeModules w)
  = (if fs_existsSync w "/home/container/node_modules" then []
     else match child_process_exec w RunNpmStart.install_command with
          | Ok _ => []
          | Throw e1 =>
              (Common.red ++ "❌ npm install failed: " ++ e1 ++ Common.reset)
              :: match child_process_exec w RunNpmStart.reinstall_command
                 with
                 | Ok _ => []
                 | Throw e2 =>
                     [Common.red ++ "❌ Reinstall failed: " ++ e2
                      ++ Common.reset]
                 end
          end).
Proof.
  split; [| split; [| split]].
  - apply launcher_install_run.
  - unfold RunLauncher.ensureNodeModules. run_m.
    destruct (fs_existsSync w "/home/container/package.json"); reduce;
      [| reflexivity].
    destruct (fs_existsSync w "/home/container/node_modules"); reduce;
      [reflexivity |].
    by_cases_on_exec w RunLauncher.install_command; reflexivity.
  - apply total_unit, npm_start_install_total.
  - unfold RunNpmStart.ensureNodeModules. run_m.
    destruct (fs_existsSync w "/home/container/node_modules"); reduce;
      [reflexivity |].
    by_cases_on_exec w RunNpmStart.install_command; [reflexivity |].
    by_cases_on_exec w RunNpmStart.reinstall_command; reflexivity.
Qed.
